(** * arXiv Research Summarizer: the workflow orchestration engine

    A shallow embedding of the automation part of [main.py]: the
    [ArxivSummarizer] methods that run a workflow, the comparison parser,
    the registry [AUTOMATION_WORKFLOWS] and the two automation endpoints.

    Conventions.
    - Python [str] is modelled by [string], one [ascii] per character.
    - Python [int] is modelled by [Z].
    - [self.active_workflows] is a [gmap string Workflow].
    - Code that mutates [self], reads the clock, logs, or may raise runs in
      the monad [M], a state-and-exception monad over [World].
    - The services the code calls (arXiv, Ollama, the file system) are the
      fields of an [Oracle]; library functions whose text is outside the
      repository ([json.loads], [str] of an exception, the rendering of
      [datetime.now()]) are variables of the section. *)

From Stdlib Require Import ZArith Ascii String List Lia.
From stdpp Require Import base gmap strings list fin_maps sorting pretty.

Set Warnings "-register-all".
Local Open Scope Z_scope.

(** ** Python strings *)

Module PyStr.

Definition nl : string := String (ascii_of_nat 10) EmptyString.

(** [s.find(c)] for a one-character needle: first index, or [-1]. *)
Fixpoint find_from (c : ascii) (s : string) (i : Z) : Z :=
  match s with
  | EmptyString => -1
  | String a s' => if Ascii.eqb a c then i else find_from c s' (i + 1)
  end.

Definition find (c : ascii) (s : string) : Z := find_from c s 0.

(** [s.rfind(c)]: last index, or [-1]. *)
Fixpoint rfind_from (c : ascii) (s : string) (i last : Z) : Z :=
  match s with
  | EmptyString => last
  | String a s' => rfind_from c s' (i + 1) (if Ascii.eqb a c then i else last)
  end.

Definition rfind (c : ascii) (s : string) : Z := rfind_from c s 0 (-1).

Definition len (s : string) : Z := Z.of_nat (String.length s).

(** An index of a slice: negative indices count from the end, and the
    result is clamped to [0 .. len s]. *)
Definition clamp (s : string) (i : Z) : Z :=
  let i' := if i <? 0 then i + len s else i in
  Z.max 0 (Z.min i' (len s)).

(** [s[start:stop]]. *)
Definition slice (s : string) (start stop : Z) : string :=
  let a := clamp s start in
  let b := clamp s stop in
  String.substring (Z.to_nat a) (Z.to_nat (b - a)) s.

(** [s[:stop]]. *)
Definition prefix (s : string) (stop : Z) : string := slice s 0 stop.

(** [s.replace(a, b)] for one-character [a] and [b]. *)
Fixpoint replace (a b : ascii) (s : string) : string :=
  match s with
  | EmptyString => EmptyString
  | String c s' => String (if Ascii.eqb c a then b else c) (replace a b s')
  end.

Definition dquote : ascii := ascii_of_nat 34.

(** A text written here with ['] where it has a double quote. *)
Definition dq (s : string) : string := replace "'"%char dquote s.

(** Truth value of a string: empty is false. *)
Definition truthy (s : string) : bool :=
  match s with EmptyString => false | _ => true end.

End PyStr.

(** ** Values decoded from JSON *)

(** What [json.loads] can return. A [JDict] lists the items of the Python
    dict in insertion order; its keys are distinct. *)
Inductive json : Type :=
| JNull
| JBool (b : bool)
| JInt (n : Z)
| JFloat (lexeme : string)
| JStr (s : string)
| JList (l : list json)
| JDict (d : list (string * json)).

(** [d.get(key, default)]. *)
Fixpoint dict_get (d : list (string * json)) (key : string) (default : json) : json :=
  match d with
  | [] => default
  | (k, v) :: d' => if String.eqb k key then v else dict_get d' key default
  end.

(** [d[key]] when [key in d]. *)
Fixpoint dict_lookup (d : list (string * json)) (key : string) : option json :=
  match d with
  | [] => None
  | (k, v) :: d' => if String.eqb k key then Some v else dict_lookup d' key
  end.

(** [d[key] = v]: overwrite in place, or append. *)
Fixpoint dict_set (d : list (string * json)) (key : string) (v : json) : list (string * json) :=
  match d with
  | [] => [(key, v)]
  | (k, x) :: d' => if String.eqb k key then (k, v) :: d' else (k, x) :: dict_set d' key v
  end.

(** The three ways a call of [json.loads] ends, as the code tells them
    apart: a value, a [json.JSONDecodeError], any other exception. *)
Inductive loads_result : Type :=
| LoadsValue (v : json)
| LoadsDecodeError (msg : string)
| LoadsOtherError (msg : string).

(** ** A decoder for a fragment of JSON

    [json_loads_lite] decodes JSON texts written without escape sequences
    and without fractions or exponents, and rejects every other text. It is
    the instance of [json.loads] at which the theorems below are applied to
    concrete inputs; the theorems themselves hold for any decoder. *)

Module JsonLite.

Definition is_ws (c : ascii) : bool :=
  let n := nat_of_ascii c in
  (n =? 32)%nat || (n =? 9)%nat || (n =? 10)%nat || (n =? 13)%nat.

Definition is_digit (c : ascii) : bool :=
  let n := nat_of_ascii c in (48 <=? n)%nat && (n <=? 57)%nat.

Definition digit_val (c : ascii) : Z := Z.of_nat (nat_of_ascii c) - 48.

Fixpoint skip_ws (s : string) : string :=
  match s with
  | String c s' => if is_ws c then skip_ws s' else s
  | EmptyString => s
  end.

(** The characters of a string literal up to its closing quote. *)
Fixpoint string_body (s : string) : option (string * string) :=
  match s with
  | EmptyString => None
  | String c s' =>
      if Ascii.eqb c PyStr.dquote then Some (EmptyString, s')
      else if Ascii.eqb c "\"%char then None
      else if (nat_of_ascii c <? 32)%nat then None
      else match string_body s' with
           | Some (b, r) => Some (String c b, r)
           | None => None
           end
  end.

Fixpoint digits (s : string) (acc : Z) : Z * string :=
  match s with
  | String c s' => if is_digit c then digits s' (10 * acc + digit_val c) else (acc, s)
  | EmptyString => (acc, s)
  end.

(** The text after an integer must not go on as a fraction or exponent. *)
Definition int_ends (s : string) : bool :=
  match s with
  | String c _ =>
      negb (Ascii.eqb c "."%char || Ascii.eqb c "e"%char || Ascii.eqb c "E"%char)
  | EmptyString => true
  end.

Definition natural (s : string) : option (Z * string) :=
  match s with
  | String c s' =>
      if Ascii.eqb c "0"%char then
        if int_ends s' then Some (0, s') else None
      else if is_digit c then
        let '(n, r) := digits s 0 in
        if int_ends r then Some (n, r) else None
      else None
  | EmptyString => None
  end.

Definition literal (word : string) (v : json) (s : string) : option (json * string) :=
  if String.prefix word s
  then Some (v, String.substring (String.length word) (String.length s - String.length word) s)
  else None.

Fixpoint value (fuel : nat) (s : string) : option (json * string) :=
  match fuel with
  | O => None
  | S f =>
      match skip_ws s with
      | EmptyString => None
      | String c r =>
          if Ascii.eqb c "["%char then
            match skip_ws r with
            | String c' r' =>
                if Ascii.eqb c' "]"%char then Some (JList [], r')
                else items f (skip_ws r) []
            | EmptyString => None
            end
          else if Ascii.eqb c "{"%char then
            match skip_ws r with
            | String c' r' =>
                if Ascii.eqb c' "}"%char then Some (JDict [], r')
                else members f (skip_ws r) []
            | EmptyString => None
            end
          else if Ascii.eqb c PyStr.dquote then
            match string_body r with
            | Some (b, r') => Some (JStr b, r')
            | None => None
            end
          else if Ascii.eqb c "-"%char then
            match natural r with
            | Some (n, r') => Some (JInt (- n), r')
            | None => None
            end
          else if is_digit c then
            match natural (String c r) with
            | Some (n, r') => Some (JInt n, r')
            | None => None
            end
          else if Ascii.eqb c "n"%char then literal "null" JNull (String c r)
          else if Ascii.eqb c "t"%char then literal "true" (JBool true) (String c r)
          else if Ascii.eqb c "f"%char then literal "false" (JBool false) (String c r)
          else None
      end
  end
with items (fuel : nat) (s : string) (acc : list json) : option (json * string) :=
  match fuel with
  | O => None
  | S f =>
      match value f s with
      | Some (v, r) =>
          match skip_ws r with
          | String c r' =>
              if Ascii.eqb c ","%char then items f r' (acc ++ [v])
              else if Ascii.eqb c "]"%char then Some (JList (acc ++ [v]), r')
              else None
          | EmptyString => None
          end
      | None => None
      end
  end
with members (fuel : nat) (s : string) (acc : list (string * json)) : option (json * string) :=
  match fuel with
  | O => None
  | S f =>
      match skip_ws s with
      | String c r =>
          if Ascii.eqb c PyStr.dquote then
            match string_body r with
            | Some (k, r1) =>
                match skip_ws r1 with
                | String c1 r2 =>
                    if Ascii.eqb c1 ":"%char then
                      match value f r2 with
                      | Some (v, r3) =>
                          match skip_ws r3 with
                          | String c3 r4 =>
                              if Ascii.eqb c3 ","%char then members f r4 (dict_set acc k v)
                              else if Ascii.eqb c3 "}"%char then Some (JDict (dict_set acc k v), r4)
                              else None
                          | EmptyString => None
                          end
                      | None => None
                      end
                    else None
                | EmptyString => None
                end
            | None => None
            end
          else None
      | EmptyString => None
      end
  end.

Definition json_loads_lite (s : string) : loads_result :=
  match value (2 * String.length s + 2) s with
  | Some (v, r) =>
      match skip_ws r with
      | EmptyString => LoadsValue v
      | _ => LoadsDecodeError "Extra data"
      end
  | None => LoadsDecodeError "Expecting value"
  end.

End JsonLite.

(** ** Data model *)

Record Paper := {
  title : string;
  authors : list string;
  summary : string;
  link : string
}.

Inductive AutomationType :=
| LITERATURE_REVIEW
| RESEARCH_GAP_ANALYSIS
| METHODOLOGY_COMPARISON
| TREND_ANALYSIS
| CUSTOM_WORKFLOW.

(** [automation_type.value]. *)
Definition AutomationType_value (t : AutomationType) : string :=
  match t with
  | LITERATURE_REVIEW => "literature_review"
  | RESEARCH_GAP_ANALYSIS => "research_gap_analysis"
  | METHODOLOGY_COMPARISON => "methodology_comparison"
  | TREND_ANALYSIS => "trend_analysis"
  | CUSTOM_WORKFLOW => "custom_workflow"
  end.

Record AutomationRequest := {
  query : string;
  automation_type : AutomationType;
  max_results : Z;
  model : string;
  custom_instructions : option string;
  include_summary : bool;
  include_comparison : bool;
  include_trends : bool
}.

(** An entry of the registry. *)
Record WorkflowInfo := {
  name : string;
  description : string;
  steps : list string
}.

Definition AUTOMATION_WORKFLOWS (t : AutomationType) : WorkflowInfo :=
  match t with
  | LITERATURE_REVIEW =>
      {| name := "Literature Review";
         description := "Comprehensive analysis of research papers including summary, comparison, and key findings";
         steps := ["search"; "summarize"; "compare"; "synthesize"] |}
  | RESEARCH_GAP_ANALYSIS =>
      {| name := "Research Gap Analysis";
         description := "Identify gaps and opportunities in current research";
         steps := ["search"; "compare"; "gap_analysis"] |}
  | METHODOLOGY_COMPARISON =>
      {| name := "Methodology Comparison";
         description := "Detailed comparison of research methods and approaches";
         steps := ["search"; "methodology_analysis"; "compare"] |}
  | TREND_ANALYSIS =>
      {| name := "Trend Analysis";
         description := "Analyze research trends and emerging topics";
         steps := ["search"; "trend_analysis"; "future_directions"] |}
  | CUSTOM_WORKFLOW =>
      {| name := "Custom Workflow";
         description := "Custom analysis based on user instructions";
         steps := ["search"; "custom_analysis"] |}
  end.

(** One row of a comparison table: a dict with the six fixed keys. A value
    is whatever the decoded JSON held under the key. *)
Record ComparisonItem := {
  paper_title : json;
  research_focus : json;
  methodology : json;
  tools_techniques : json;
  advantages : json;
  limitations : json
}.

(** The dict returned by [compare_papers_with_ollama]. *)
Record Comparison := {
  comparison_table : list ComparisonItem;
  comparison_text : string
}.

(** The values stored in a [results] dict. *)
Inductive PyVal :=
| VInt (n : Z)
| VStr (s : string)
| VPapers (l : list Paper)
| VComparison (c : Comparison).

(** The value of the ["status"] key: ["running"], ["completed"], ["failed"]. *)
Inductive Status := Running | Completed | Failed.

Definition Status_str (s : Status) : string :=
  match s with
  | Running => "running"
  | Completed => "completed"
  | Failed => "failed"
  end.

Record Progress := {
  current_step : Z;
  total_steps : Z;
  step_name : string
}.

(** An entry of [active_workflows]. The key ["error"] may be absent. *)
Record Workflow := {
  status : Status;
  progress : Progress;
  results : gmap string PyVal;
  error : option string;
  created_at : string;
  updated_at : string
}.

Definition set_progress (p : Progress) (s : Workflow) : Workflow :=
  {| status := status s; progress := p; results := results s; error := error s;
     created_at := created_at s; updated_at := updated_at s |}.

Definition set_updated_at (t : string) (s : Workflow) : Workflow :=
  {| status := status s; progress := progress s; results := results s; error := error s;
     created_at := created_at s; updated_at := t |}.

Definition set_status (st : Status) (s : Workflow) : Workflow :=
  {| status := st; progress := progress s; results := results s; error := error s;
     created_at := created_at s; updated_at := updated_at s |}.

Definition set_error (e : string) (s : Workflow) : Workflow :=
  {| status := status s; progress := progress s; results := results s; error := Some e;
     created_at := created_at s; updated_at := updated_at s |}.

Definition set_results (r : gmap string PyVal) (s : Workflow) : Workflow :=
  {| status := status s; progress := progress s; results := r; error := error s;
     created_at := created_at s; updated_at := updated_at s |}.

(** ** Exceptions, external calls, the world *)

Inductive Exn :=
| HTTPException (status_code : Z) (detail : string)
| KeyError (key : string).

(** The five prompts sent to the model. *)
Inductive Task :=
| Summarize
| Compare
| GapAnalysis
| TrendAnalysis
| Custom (instructions : string).

(** How [ollama.chat] followed by [response['message']['content'].strip()]
    ends: an exception with text [msg], or the stripped content. *)
Inductive ChatOutcome :=
| ChatRaise (msg : string)
| ChatContent (text : string).

Inductive Call :=
| CallSearch (q : string) (limit : Z)
| CallChat (t : Task) (mdl : string)
| CallWrite (filename : string).

Inductive LogLevel := ERROR | WARNING.

(** The statements that write to an entry of [active_workflows]:
    [active_workflows[id] = {...}], [active_workflows[id][key] = v] and
    [active_workflows[id].update({...})] with the keys it sets. *)
Inductive Assign :=
| NewEntry
| SetItem (key : string)
| Update (keys : list string).

Record World := {
  active_workflows : gmap string Workflow;
  current_model : string;
  clock : nat;                             (* readings of [datetime.now()] so far *)
  logged : list (LogLevel * string);       (* records given to [logger] *)
  calls : list Call;                       (* external calls made *)
  writes : list (string * Assign * Workflow)
                                           (* every write to an entry: id, statement, new entry *)
}.

(** How the [try] block of [search_arxiv] ends: [requests.get] times
    out; anything else is raised, with text [msg] (a status code that is
    not 200, XML that does not parse, an entry without text); or the
    papers are read. *)
Inductive SearchOutcome :=
| SearchTimeout
| SearchRaise (msg : string)
| SearchPapers (papers : list Paper).

(** The services a run talks to. [arxiv_request] is the request to the
    arXiv API and the reading of its answer. [write_json] is [open]
    followed by [json.dump]: [None] on success, the exception's text on
    failure. *)
Record Oracle := {
  arxiv_request : string -> Z -> SearchOutcome;
  ollama_chat : Task -> string -> list Paper -> ChatOutcome;
  write_json : string -> gmap string PyVal -> option string
}.

(** ** The monad *)

Inductive Res (A : Type) :=
| Ret (a : A)
| Raise (e : Exn).
Arguments Ret {A} a.
Arguments Raise {A} e.

Definition M (A : Type) : Type := World -> Res A * World.

#[global] Instance M_ret : MRet M := fun A a w => (Ret a, w).
#[global] Instance M_bind : MBind M := fun A B f m w =>
  match m w with
  | (Ret a, w') => f a w'
  | (Raise e, w') => (Raise e, w')
  end.
#[global] Instance M_throw : MThrow Exn M := fun A e w => (Raise e, w).

(** [try: body except Exception as e: handler e]. *)
Definition try_except {A} (body : M A) (handler : Exn -> M A) : M A := fun w =>
  match body w with
  | (Ret a, w') => (Ret a, w')
  | (Raise e, w') => handler e w'
  end.

Definition get_world : M World := fun w => (Ret w, w).

(** [datetime.now()]: the index of the reading. *)
Definition datetime_now : M nat := fun w =>
  (Ret (clock w),
   {| active_workflows := active_workflows w; current_model := current_model w;
      clock := S (clock w); logged := logged w; calls := calls w; writes := writes w |}).

Definition log (lvl : LogLevel) (msg : string) : M unit := fun w =>
  (Ret tt,
   {| active_workflows := active_workflows w; current_model := current_model w;
      clock := clock w; logged := logged w ++ [(lvl, msg)]; calls := calls w;
      writes := writes w |}).

Definition record_call (c : Call) : M unit := fun w =>
  (Ret tt,
   {| active_workflows := active_workflows w; current_model := current_model w;
      clock := clock w; logged := logged w; calls := calls w ++ [c];
      writes := writes w |}).

(** A write to the entry of [workflow_id] by statement [how], leaving the
    entry as [s]: the map is updated and the write is appended to [writes]. *)
Definition store (workflow_id : string) (how : Assign) (s : Workflow) : M unit := fun w =>
  (Ret tt,
   {| active_workflows := <[workflow_id := s]> (active_workflows w);
      current_model := current_model w; clock := clock w; logged := logged w;
      calls := calls w; writes := writes w ++ [(workflow_id, how, s)] |}).

(** [self.active_workflows[workflow_id]]: a [KeyError] when absent. *)
Definition entry (workflow_id : string) : M Workflow := fun w =>
  match active_workflows w !! workflow_id with
  | Some s => (Ret s, w)
  | None => (Raise (KeyError workflow_id), w)
  end.

(** ** The summarizer *)

Section Summarizer.

(** [json.loads]. *)
Variable json_loads : string -> loads_result.
(** How an f-string renders a decoded value. *)
Variable py_format : json -> string.
(** [str(e)]. *)
Variable str_exn : Exn -> string.
(** [.isoformat()] and [.strftime("%Y%m%d_%H%M%S")] of the n-th reading
    of the clock. *)
Variable isoformat : nat -> string.
Variable strftime : nat -> string.

(** [search_arxiv]: the timeout is raised as it is, with status 408;
    every other exception is logged and raised with status 500. *)
Definition search_arxiv (O : Oracle) (query : string) (max_results : Z) : M (list Paper) :=
  record_call (CallSearch query max_results);;
  match arxiv_request O query max_results with
  | SearchPapers papers => mret papers
  | SearchTimeout => mthrow (HTTPException 408 "arXiv API request timed out")
  | SearchRaise e =>
      log ERROR ("arXiv search error: " +:+ e);;
      mthrow (HTTPException 500 ("arXiv search failed: " +:+ e))
  end.

(** [if model is None: model = self.current_model]. *)
Definition resolve_model (mdl : option string) : M string :=
  match mdl with
  | Some m => mret m
  | None => w ← get_world; mret (current_model w)
  end.

(** One call of [ollama.chat] with the prompt of task [t]. *)
Definition chat (O : Oracle) (t : Task) (mdl : string) (papers : list Paper) : M ChatOutcome :=
  record_call (CallChat t mdl);;
  mret (ollama_chat O t mdl papers).

Definition summarize_with_ollama (O : Oracle) (papers : list Paper) (mdl : option string)
  : M string :=
  match papers with
  | [] => mret "No papers found for summarization."
  | _ =>
      m ← resolve_model mdl;
      out ← chat O Summarize m papers;
      match out with
      | ChatContent text => mret text
      | ChatRaise e =>
          log ERROR ("Ollama summarization error: " +:+ e);;
          mthrow (HTTPException 500 ("Summarization failed: " +:+ e))
      end
  end.

Definition validated_item (item : list (string * json)) : ComparisonItem :=
  {| paper_title := dict_get item "paper_title" (JStr "N/A");
     research_focus := dict_get item "research_focus" (JStr "N/A");
     methodology := dict_get item "methodology" (JStr "N/A");
     tools_techniques := dict_get item "tools_techniques" (JStr "N/A");
     advantages := dict_get item "advantages" (JStr "N/A");
     limitations := dict_get item "limitations" (JStr "N/A") |}.

(** The loop over [comparison_data]: items that are not dicts are skipped. *)
Fixpoint validated_data (comparison_data : list json) : list ComparisonItem :=
  match comparison_data with
  | [] => []
  | JDict item :: rest => validated_item item :: validated_data rest
  | _ :: rest => validated_data rest
  end.

Definition manual_item (paper : Paper) : ComparisonItem :=
  {| paper_title := JStr (title paper);
     research_focus := JStr "Extracted from analysis";
     methodology := JStr "Based on paper content";
     tools_techniques := JStr "Detailed in research";
     advantages := JStr "Key strengths identified";
     limitations := JStr "Areas for improvement" |}.

Definition _create_manual_comparison (papers : list Paper) (response_text : string)
  : Comparison :=
  {| comparison_table := map manual_item papers;
     comparison_text := response_text |}.

(** The slice handed to [json.loads]: from the first ['['] to the last
    [']'] of the response. *)
Definition json_str (response_text : string) : string :=
  PyStr.slice response_text (PyStr.find "["%char response_text)
              (PyStr.rfind "]"%char response_text + 1).

(** [compare_papers_with_ollama] from the point where [response_text] is
    bound: the inner [try], its [except json.JSONDecodeError], and the
    outer [except Exception] for what the inner one lets through. *)
Definition parse_comparison (papers : list Paper) (response_text : string) : M Comparison :=
  let start_idx := PyStr.find "["%char response_text in
  let end_idx := PyStr.rfind "]"%char response_text + 1 in
  if negb (start_idx =? -1) && negb (end_idx =? -1) then
    match json_loads (PyStr.slice response_text start_idx end_idx) with
    | LoadsValue (JList comparison_data) =>
        mret {| comparison_table := validated_data comparison_data;
                comparison_text := "Comparison generated successfully." |}
    | LoadsValue _ => mret (_create_manual_comparison papers response_text)
    | LoadsDecodeError e =>
        log WARNING ("JSON parsing failed, creating manual comparison: " +:+ e);;
        mret (_create_manual_comparison papers response_text)
    | LoadsOtherError e =>
        log ERROR ("Ollama comparison error: " +:+ e);;
        mthrow (HTTPException 500 ("Comparison failed: " +:+ e))
    end
  else mret (_create_manual_comparison papers response_text).

Definition compare_papers_with_ollama (O : Oracle) (papers : list Paper) (mdl : option string)
  : M Comparison :=
  match papers with
  | [] => mret {| comparison_table := [];
                  comparison_text := "No papers found for comparison." |}
  | _ =>
      m ← resolve_model mdl;
      out ← chat O Compare m papers;
      match out with
      | ChatContent response_text => parse_comparison papers response_text
      | ChatRaise e =>
          log ERROR ("Ollama comparison error: " +:+ e);;
          mthrow (HTTPException 500 ("Comparison failed: " +:+ e))
      end
  end.

Definition analyze_research_gaps (O : Oracle) (papers : list Paper) (mdl : option string)
  : M string :=
  match papers with
  | [] => mret "No papers found for gap analysis."
  | _ =>
      m ← resolve_model mdl;
      out ← chat O GapAnalysis m papers;
      match out with
      | ChatContent text => mret text
      | ChatRaise e =>
          log ERROR ("Gap analysis error: " +:+ e);;
          mret ("Gap analysis failed: " +:+ e)
      end
  end.

Definition analyze_trends (O : Oracle) (papers : list Paper) (mdl : option string)
  : M string :=
  match papers with
  | [] => mret "No papers found for trend analysis."
  | _ =>
      m ← resolve_model mdl;
      out ← chat O TrendAnalysis m papers;
      match out with
      | ChatContent text => mret text
      | ChatRaise e =>
          log ERROR ("Trend analysis error: " +:+ e);;
          mret ("Trend analysis failed: " +:+ e)
      end
  end.

Definition _perform_custom_analysis (O : Oracle) (papers : list Paper)
           (instructions : string) (mdl : string) : M string :=
  out ← chat O (Custom instructions) mdl papers;
  match out with
  | ChatContent text => mret text
  | ChatRaise e => mret ("Custom analysis failed: " +:+ e)
  end.

Definition _update_workflow_progress (workflow_id : string) (step : string)
           (current total : Z) : M unit :=
  w ← get_world;
  match active_workflows w !! workflow_id with
  | Some _ =>
      s ← entry workflow_id;
      store workflow_id (SetItem "progress")
            (set_progress {| current_step := current; total_steps := total;
                             step_name := step |} s);;
      t ← datetime_now;
      s' ← entry workflow_id;
      store workflow_id (SetItem "updated_at") (set_updated_at (isoformat t) s')
  | None => mret tt
  end.

Definition _extract_key_findings (summary_text gap_analysis : string) : string :=
  "Key findings synthesized from analysis:" +:+ PyStr.nl +:+ PyStr.nl
  +:+ "Summary Highlights:" +:+ PyStr.nl +:+ PyStr.prefix summary_text 500 +:+ "..."
  +:+ PyStr.nl +:+ PyStr.nl
  +:+ "Gap Analysis Insights:" +:+ PyStr.nl +:+ PyStr.prefix gap_analysis 500 +:+ "...".

Definition _generate_recommendations (gap_analysis : string) : string :=
  "Research recommendations based on identified gaps:" +:+ PyStr.nl +:+ PyStr.nl
  +:+ gap_analysis.

Definition _extract_methodology_insights (comparison : Comparison) : string :=
  fold_left
    (fun insights item =>
       insights +:+ "- " +:+ py_format (paper_title item) +:+ ": "
       +:+ py_format (methodology item) +:+ PyStr.nl)
    (comparison_table comparison)
    ("Methodology Insights:" +:+ PyStr.nl +:+ PyStr.nl).

Definition _extract_future_directions (trend_analysis : string) : string :=
  "Future research directions based on trends:" +:+ PyStr.nl +:+ PyStr.nl
  +:+ trend_analysis.

Definition _save_workflow_results (O : Oracle) (workflow_id : string) (q : string)
           (res : gmap string PyVal) : M (option string) :=
  t ← datetime_now;
  let filename :=
    "workflows/" +:+ PyStr.replace " "%char "_"%char q +:+ "_" +:+ strftime t
    +:+ "_" +:+ workflow_id +:+ ".json" in
  record_call (CallWrite filename);;
  match write_json O filename res with
  | None => mret (Some filename)
  | Some e =>
      log ERROR ("Error saving workflow results: " +:+ e);;
      mret None
  end.

(** The five step sequences. Each receives the [results] dict and hands
    back the dict as it has mutated it. *)

Definition _execute_literature_review (O : Oracle) (workflow_id : string)
           (papers : list Paper) (request : AutomationRequest)
           (res : gmap string PyVal) : M (gmap string PyVal) :=
  _update_workflow_progress workflow_id "Generating Summary" 2 5;;
  summary_text ← summarize_with_ollama O papers (Some (model request));
  let res := <["summary" := VStr summary_text]> res in
  _update_workflow_progress workflow_id "Comparing Papers" 3 5;;
  comparison ← compare_papers_with_ollama O papers (Some (model request));
  let res := <["comparison" := VComparison comparison]> res in
  _update_workflow_progress workflow_id "Analyzing Gaps" 4 5;;
  gap_analysis ← analyze_research_gaps O papers (Some (model request));
  let res := <["gap_analysis" := VStr gap_analysis]> res in
  _update_workflow_progress workflow_id "Finalizing" 5 5;;
  mret (<["key_findings" := VStr (_extract_key_findings summary_text gap_analysis)]> res).

Definition _execute_gap_analysis (O : Oracle) (workflow_id : string)
           (papers : list Paper) (request : AutomationRequest)
           (res : gmap string PyVal) : M (gmap string PyVal) :=
  _update_workflow_progress workflow_id "Comparing Papers" 2 4;;
  comparison ← compare_papers_with_ollama O papers (Some (model request));
  let res := <["comparison" := VComparison comparison]> res in
  _update_workflow_progress workflow_id "Analyzing Gaps" 3 4;;
  gap_analysis ← analyze_research_gaps O papers (Some (model request));
  let res := <["gap_analysis" := VStr gap_analysis]> res in
  _update_workflow_progress workflow_id "Generating Recommendations" 4 4;;
  mret (<["recommendations" := VStr (_generate_recommendations gap_analysis)]> res).

Definition _execute_methodology_comparison (O : Oracle) (workflow_id : string)
           (papers : list Paper) (request : AutomationRequest)
           (res : gmap string PyVal) : M (gmap string PyVal) :=
  _update_workflow_progress workflow_id "Detailed Comparison" 2 3;;
  comparison ← compare_papers_with_ollama O papers (Some (model request));
  let res := <["comparison" := VComparison comparison]> res in
  _update_workflow_progress workflow_id "Methodology Analysis" 3 3;;
  mret (<["methodology_insights" := VStr (_extract_methodology_insights comparison)]> res).

Definition _execute_trend_analysis (O : Oracle) (workflow_id : string)
           (papers : list Paper) (request : AutomationRequest)
           (res : gmap string PyVal) : M (gmap string PyVal) :=
  _update_workflow_progress workflow_id "Trend Analysis" 2 3;;
  trend_analysis ← analyze_trends O papers (Some (model request));
  let res := <["trend_analysis" := VStr trend_analysis]> res in
  _update_workflow_progress workflow_id "Future Directions" 3 3;;
  mret (<["future_directions" := VStr (_extract_future_directions trend_analysis)]> res).

Definition _execute_custom_workflow (O : Oracle) (workflow_id : string)
           (papers : list Paper) (request : AutomationRequest)
           (res : gmap string PyVal) : M (gmap string PyVal) :=
  match custom_instructions request with
  | Some instructions =>
      if PyStr.truthy instructions then
        _update_workflow_progress workflow_id "Custom Analysis" 2 3;;
        custom_analysis ← _perform_custom_analysis O papers instructions (model request);
        mret (<["custom_analysis" := VStr custom_analysis]> res)
      else mret res
  | None => mret res
  end.

Definition initial_progress : Progress :=
  {| current_step := 0; total_steps := 0; step_name := "Initializing" |}.

(** The body of the [try] of [execute_automation_workflow]. *)
Definition workflow_body (O : Oracle) (request : AutomationRequest)
           (workflow_id : string) : M unit :=
  t1 ← datetime_now;
  t2 ← datetime_now;
  store workflow_id NewEntry
        {| status := Running; progress := initial_progress; results := ∅;
           error := None; created_at := isoformat t1; updated_at := isoformat t2 |};;
  _update_workflow_progress workflow_id "Searching arXiv" 1 5;;
  papers ← search_arxiv O (query request) (max_results request);
  match papers with
  | [] =>
      s ← entry workflow_id;
      store workflow_id (Update ["status"; "error"])
            (set_error "No papers found for the given query" (set_status Completed s))
  | _ =>
      let res : gmap string PyVal :=
        {[ "papers_found" := VInt (Z.of_nat (length papers));
           "papers" := VPapers papers;
           "workflow_type" := VStr (AutomationType_value (automation_type request)) ]} in
      res ← match automation_type request with
            | LITERATURE_REVIEW =>
                _execute_literature_review O workflow_id papers request res
            | RESEARCH_GAP_ANALYSIS =>
                _execute_gap_analysis O workflow_id papers request res
            | METHODOLOGY_COMPARISON =>
                _execute_methodology_comparison O workflow_id papers request res
            | TREND_ANALYSIS =>
                _execute_trend_analysis O workflow_id papers request res
            | CUSTOM_WORKFLOW =>
                _execute_custom_workflow O workflow_id papers request res
            end;
      _save_workflow_results O workflow_id (query request) res;;
      s ← entry workflow_id;
      t ← datetime_now;
      store workflow_id (Update ["status"; "results"; "updated_at"])
            (set_updated_at (isoformat t) (set_results res (set_status Completed s)))
  end.

(** The [except Exception as e] of [execute_automation_workflow]. *)
Definition workflow_handler (workflow_id : string) (e : Exn) : M unit :=
  log ERROR ("Workflow execution error: " +:+ str_exn e);;
  s ← entry workflow_id;
  t ← datetime_now;
  store workflow_id (Update ["status"; "error"; "updated_at"])
        (set_updated_at (isoformat t) (set_error (str_exn e) (set_status Failed s))).

Definition execute_automation_workflow (O : Oracle) (request : AutomationRequest)
           (workflow_id : string) : M unit :=
  try_except (workflow_body O request workflow_id) (workflow_handler workflow_id).

(** *** The endpoints *)

Record AutomationResponse := {
  success : bool;
  resp_workflow_id : string;
  resp_status : string;
  resp_results : option (gmap string PyVal);
  resp_error : option string;
  resp_progress : option Progress
}.

(** A task handed to [background_tasks.add_task]: the arguments of
    [summarizer.execute_automation_workflow]. *)
Definition BackgroundTask : Type := AutomationRequest * string.

(** [POST /api/automation/execute]. [uuid] is [str(uuid.uuid4())]. The
    result is the response and the tasks added to [background_tasks],
    which the framework runs after the response is sent. *)
Definition execute_endpoint (uuid : string) (request : AutomationRequest)
  : M (AutomationResponse * list BackgroundTask) :=
  let workflow_id := PyStr.prefix uuid 8 in
  mret ({| success := true; resp_workflow_id := workflow_id; resp_status := "started";
           resp_results := None; resp_error := None;
           resp_progress := Some initial_progress |},
        [(request, workflow_id)]).

(** The framework running the tasks of one request, in order. *)
Fixpoint run_background (O : Oracle) (tasks : list BackgroundTask) : M unit :=
  match tasks with
  | [] => mret tt
  | (request, workflow_id) :: rest =>
      execute_automation_workflow O request workflow_id;;
      run_background O rest
  end.

Record WorkflowStatus := {
  ws_workflow_id : string;
  ws_status : string;
  ws_progress : Progress;
  ws_results : option (gmap string PyVal);
  ws_error : option string;
  ws_created_at : string;
  ws_updated_at : string
}.

(** [GET /api/automation/status/{workflow_id}]. *)
Definition get_workflow_status (workflow_id : string) : M WorkflowStatus :=
  w ← get_world;
  match active_workflows w !! workflow_id with
  | None => mthrow (HTTPException 404 "Workflow not found")
  | Some workflow_data =>
      mret {| ws_workflow_id := workflow_id;
              ws_status := Status_str (status workflow_data);
              ws_progress := progress workflow_data;
              ws_results := Some (results workflow_data);
              ws_error := error workflow_data;
              ws_created_at := created_at workflow_data;
              ws_updated_at := updated_at workflow_data |}
  end.

End Summarizer.

(** ** Traces of a run

    The writes a run makes to its entry, and the shape they have. *)

Definition tag (wid : string) (x : Assign * Workflow) : string * Assign * Workflow :=
  (wid, x.1, x.2).

(** The writes to the entry of [wid] among [l]. *)
Fixpoint written (wid : string) (l : list (string * Assign * Workflow))
  : list (Assign * Workflow) :=
  match l with
  | [] => []
  | (k, a, s) :: l' =>
      if String.eqb k wid then (a, s) :: written wid l' else written wid l'
  end.

(** The writes made between world [w] and a later world [w']. *)
Definition since (w w' : World) : list (string * Assign * Workflow) :=
  drop (length (writes w)) (writes w').

(** The successive states of the entry of [wid] between [w] and [w']. *)
Definition lifetime (wid : string) (w w' : World) : list Workflow :=
  map snd (written wid (since w w')).

Definition is_progress_write (a : Assign) : bool :=
  match a with
  | SetItem key => String.eqb key "progress"
  | _ => false
  end.

Fixpoint reports_of (tr : list (Assign * Workflow)) : list Progress :=
  match tr with
  | [] => []
  | (a, s) :: tr' =>
      if is_progress_write a then progress s :: reports_of tr' else reports_of tr'
  end.

(** The progress values assigned to the entry of [wid] between [w] and
    [w']: what the run reports through [_update_workflow_progress]. *)
Definition reports (wid : string) (w w' : World) : list Progress :=
  reports_of (written wid (since w w')).

Definition current_steps (l : list Workflow) : list Z :=
  map (fun s => current_step (progress s)) l.

Definition step (c t : Z) (nm : string) : Progress :=
  {| current_step := c; total_steps := t; step_name := nm |}.

Definition last_progress (reps : list Progress) : Progress :=
  List.last reps initial_progress.

(** The running phase, indexed by the progress reports made so far: the
    entry is created, then each report writes ["progress"] and
    ["updated_at"], to a step that is not before the current one and not
    beyond its total. *)
Inductive Trace : list Progress -> list (Assign * Workflow) -> Prop :=
| Trace_init s :
    status s = Running -> progress s = initial_progress ->
    results s = ∅ -> error s = None ->
    Trace [] [(NewEntry, s)]
| Trace_progress reps tr s p t :
    Trace reps tr ->
    snd <$> last tr = Some s ->
    current_step (progress s) <= current_step p <= total_steps p ->
    Trace (reps ++ [p])
          (tr ++ [(SetItem "progress", set_progress p s);
                  (SetItem "updated_at", set_updated_at t (set_progress p s))]).

(** How a run ends: no papers, all steps done, or an exception. *)
Inductive Ending :=
| NoPapers
| Done (res : gmap string PyVal)
| Fail (err : string).

Definition final_write (e : Ending) (t : string) (s : Workflow) : Assign * Workflow :=
  match e with
  | NoPapers =>
      (Update ["status"; "error"],
       set_error "No papers found for the given query" (set_status Completed s))
  | Done res =>
      (Update ["status"; "results"; "updated_at"],
       set_updated_at t (set_results res (set_status Completed s)))
  | Fail err =>
      (Update ["status"; "error"; "updated_at"],
       set_updated_at t (set_error err (set_status Failed s)))
  end.

(** A whole run: a running phase closed by one terminal write. *)
Inductive Lifetime : Ending -> list Progress -> list (Assign * Workflow) -> Prop :=
| Lifetime_intro e reps tr s t :
    Trace reps tr ->
    snd <$> last tr = Some s ->
    Lifetime e reps (tr ++ [final_write e t s]).

(** World [w] has seen the writes [tr] to the entry of [wid] after the
    writes [base], and holds the last of them. *)
Definition at_trace (wid : string) (base : list (string * Assign * Workflow))
           (tr : list (Assign * Workflow)) (w : World) : Prop :=
  writes w = base ++ map (tag wid) tr /\
  active_workflows w !! wid = snd <$> last tr.

Definition Running_at (wid : string) (base : list (string * Assign * Workflow))
           (reps : list Progress) (w : World) : Prop :=
  exists tr, at_trace wid base tr w /\ Trace reps tr.

(** [w'] differs from [w] at most in clock, log and calls. *)
Definition same_store (w w' : World) : Prop :=
  active_workflows w' = active_workflows w /\ writes w' = writes w.

(** While running: no error, no results, and the step within its total. *)
Definition running_state (s : Workflow) : Prop :=
  status s = Running /\ error s = None /\ results s = ∅
  /\ current_step (progress s) <= total_steps (progress s).

(** The progress reports of each routine, as its calls of
    [_update_workflow_progress] spell them. *)
Definition search_step : Progress := step 1 5 "Searching arXiv".

Definition has_instructions (request : AutomationRequest) : bool :=
  match custom_instructions request with
  | Some instructions => PyStr.truthy instructions
  | None => false
  end.

Definition routine_steps (request : AutomationRequest) : list Progress :=
  match automation_type request with
  | LITERATURE_REVIEW =>
      [step 2 5 "Generating Summary"; step 3 5 "Comparing Papers";
       step 4 5 "Analyzing Gaps"; step 5 5 "Finalizing"]
  | RESEARCH_GAP_ANALYSIS =>
      [step 2 4 "Comparing Papers"; step 3 4 "Analyzing Gaps";
       step 4 4 "Generating Recommendations"]
  | METHODOLOGY_COMPARISON =>
      [step 2 3 "Detailed Comparison"; step 3 3 "Methodology Analysis"]
  | TREND_ANALYSIS =>
      [step 2 3 "Trend Analysis"; step 3 3 "Future Directions"]
  | CUSTOM_WORKFLOW =>
      if has_instructions request then [step 2 3 "Custom Analysis"] else []
  end.

(** What a step sequence leaves behind, started after the search step. *)
Definition routine_post (wid : string) (base : list (string * Assign * Workflow))
           (full : list Progress) (r : Res (gmap string PyVal)) (w' : World) : Prop :=
  exists reps, Running_at wid base reps w'
               /\ reps `prefix_of` (search_step :: full)
               /\ (forall res', r = Ret res' -> reps = search_step :: full).

(** How the ending of a run relates to the search and to the reports. *)
Definition run_post (O : Oracle) (request : AutomationRequest) (e : Ending)
           (reps : list Progress) : Prop :=
  reps `prefix_of` (search_step :: routine_steps request) /\
  match e with
  | NoPapers => arxiv_request O (query request) (max_results request) = SearchPapers []
  | Done _ =>
      reps = search_step :: routine_steps request /\
      exists p ps,
        arxiv_request O (query request) (max_results request) = SearchPapers (p :: ps)
  | Fail _ => True
  end.

(** The [results] dict as [execute_automation_workflow] first builds it. *)
Definition first_results (papers : list Paper) (request : AutomationRequest)
  : gmap string PyVal :=
  {[ "papers_found" := VInt (Z.of_nat (length papers));
     "papers" := VPapers papers;
     "workflow_type" := VStr (AutomationType_value (automation_type request)) ]}.

(** The step sequence that the type of the request selects. *)
Definition selected_routine (json_loads : string -> loads_result) (py_format : json -> string)
           (isoformat : nat -> string) (O : Oracle) (wid : string) (papers : list Paper)
           (request : AutomationRequest) : M (gmap string PyVal) :=
  match automation_type request with
  | LITERATURE_REVIEW =>
      _execute_literature_review json_loads isoformat O wid papers request
                                 (first_results papers request)
  | RESEARCH_GAP_ANALYSIS =>
      _execute_gap_analysis json_loads isoformat O wid papers request
                            (first_results papers request)
  | METHODOLOGY_COMPARISON =>
      _execute_methodology_comparison json_loads py_format isoformat O wid papers request
                                      (first_results papers request)
  | TREND_ANALYSIS =>
      _execute_trend_analysis isoformat O wid papers request (first_results papers request)
  | CUSTOM_WORKFLOW =>
      _execute_custom_workflow isoformat O wid papers request (first_results papers request)
  end.

(** How a run ends, from what the search and the step sequence return. *)
Definition run_ending (json_loads : string -> loads_result) (py_format : json -> string)
           (str_exn : Exn -> string) (isoformat : nat -> string)
           (O : Oracle) (request : AutomationRequest) (wid : string) (e : Ending) : Prop :=
  match arxiv_request O (query request) (max_results request) with
  | SearchTimeout => e = Fail (str_exn (HTTPException 408 "arXiv API request timed out"))
  | SearchRaise msg => e = Fail (str_exn (HTTPException 500 ("arXiv search failed: " +:+ msg)))
  | SearchPapers [] => e = NoPapers
  | SearchPapers papers =>
      exists w1,
        e = match (selected_routine json_loads py_format isoformat O wid papers request w1).1 with
            | Ret res => Done res
            | Raise exn => Fail (str_exn exn)
            end
  end.

(** What [analyze_research_gaps] returns for an outcome of the model call. *)
Definition gap_text (out : ChatOutcome) : string :=
  match out with
  | ChatContent text => text
  | ChatRaise msg => "Gap analysis failed: " +:+ msg
  end.

(** The oracle [O] with another file system. *)
Definition with_write_json (f : string -> gmap string PyVal -> option string) (O : Oracle)
  : Oracle :=
  {| arxiv_request := arxiv_request O; ollama_chat := ollama_chat O; write_json := f |}.

(** Two worlds that differ at most in what was logged. *)
Definition same_but_log (w1 w2 : World) : Prop :=
  active_workflows w1 = active_workflows w2 /\ current_model w1 = current_model w2
  /\ clock w1 = clock w2 /\ calls w1 = calls w2 /\ writes w1 = writes w2.

Definition no_papers_note : string := "No papers found for the given query".

(** ** Comparison records *)

Definition six_keys : list string :=
  ["paper_title"; "research_focus"; "methodology"; "tools_techniques";
   "advantages"; "limitations"].

(** A decoded value that is a record with all six fixed fields. *)
Definition has_six_fields (j : json) : bool :=
  match j with
  | JDict d => forallb (fun k => bool_decide (is_Some (dict_lookup d k))) six_keys
  | _ => false
  end.

(** Row [r] has, field for field, the values of the record [j]. *)
Definition same_fields (j : json) (r : ComparisonItem) : Prop :=
  exists d, j = JDict d
            /\ dict_lookup d "paper_title" = Some (paper_title r)
            /\ dict_lookup d "research_focus" = Some (research_focus r)
            /\ dict_lookup d "methodology" = Some (methodology r)
            /\ dict_lookup d "tools_techniques" = Some (tools_techniques r)
            /\ dict_lookup d "advantages" = Some (advantages r)
            /\ dict_lookup d "limitations" = Some (limitations r).

(** ** The claims of the specification that the code does not meet, in
    the specification's words *)

(** The progress reports of a run of type [t] agree with the registry:
    as many reports as the registry lists steps, each giving that number
    as its total. *)
Definition registry_consistent (t : AutomationType) (reps : list Progress) : Prop :=
  length reps = length (steps (AUTOMATION_WORKFLOWS t)) /\
  Forall (fun p => total_steps p = Z.of_nat (length (steps (AUTOMATION_WORKFLOWS t)))) reps.

(** A JSON array of six-field records can be parsed from the output. *)
Definition parses_to_records (json_loads : string -> loads_result) (response_text : string)
  : Prop :=
  exists data,
    json_loads (json_str response_text) = LoadsValue (JList data)
    /\ forallb has_six_fields data = true.

(** The error field is set only when the workflow has failed. *)
Definition error_only_when_failed (s : Workflow) : Prop :=
  is_Some (error s) -> status s = Failed.

(** A status query right after the start operation returns the Running
    state with progress {0, 0, "Initializing"}. *)
Definition visible_after_start (uuid : string) (request : AutomationRequest) (w : World)
  : Prop :=
  exists ws,
    (get_workflow_status (PyStr.prefix uuid 8) (execute_endpoint uuid request w).2).1 = Ret ws
    /\ ws_status ws = "running"
    /\ ws_progress ws = initial_progress.

(** The workflow of world [w'] reached Completed with a ["comparison"]
    result present. *)
Definition completed_with_comparison (wid : string) (w' : World) : Prop :=
  exists s, active_workflows w' !! wid = Some s
            /\ status s = Completed
            /\ is_Some (results s !! "comparison").

(** ** Sample inputs *)

Module Sample.

(** [str(e)] as Starlette renders an [HTTPException], and Python a
    [KeyError]. *)
Definition str_exn (e : Exn) : string :=
  match e with
  | HTTPException c d => pretty c +:+ ": " +:+ d
  | KeyError k => "'" +:+ k +:+ "'"
  end.

(** The rendering of strings, integers, [None] and booleans. *)
Definition py_format (j : json) : string :=
  match j with
  | JStr s => s
  | JInt n => pretty n
  | JNull => "None"
  | JBool true => "True"
  | JBool false => "False"
  | _ => "..."
  end.

Definition isoformat (n : nat) : string := "2025-01-01T00:00:00." +:+ pretty n.
Definition strftime (n : nat) : string := "20250101_00000" +:+ pretty n.

Definition w0 : World :=
  {| active_workflows := ∅; current_model := "llama3.2:3b"; clock := 0%nat;
     logged := []; calls := []; writes := [] |}.

Definition paper_a : Paper :=
  {| title := "Attention Is All You Need"; authors := ["Vaswani"; "Shazeer"];
     summary := "We propose the Transformer."; link := "http://arxiv.org/abs/1706.03762" |}.

Definition paper_b : Paper :=
  {| title := "Deep Residual Learning"; authors := ["He"];
     summary := "We present residual networks."; link := "http://arxiv.org/abs/1512.03385" |}.

Definition request (t : AutomationType) : AutomationRequest :=
  {| query := "deep learning"; automation_type := t; max_results := 10;
     model := "llama3.2:3b"; custom_instructions := None;
     include_summary := true; include_comparison := true; include_trends := false |}.

Definition table_text : string :=
  PyStr.dq ("[{'paper_title': 'Attention Is All You Need', 'research_focus': 'translation', "
            +:+ "'methodology': 'self-attention', 'tools_techniques': 'Transformer', "
            +:+ "'advantages': 'parallel', 'limitations': 'quadratic cost'}]").

Definition table_row : ComparisonItem :=
  {| paper_title := JStr "Attention Is All You Need"; research_focus := JStr "translation";
     methodology := JStr "self-attention"; tools_techniques := JStr "Transformer";
     advantages := JStr "parallel"; limitations := JStr "quadratic cost" |}.

Definition table_data : list json :=
  [JDict [("paper_title", JStr "Attention Is All You Need");
          ("research_focus", JStr "translation");
          ("methodology", JStr "self-attention");
          ("tools_techniques", JStr "Transformer");
          ("advantages", JStr "parallel");
          ("limitations", JStr "quadratic cost")]].

(** An Ollama that answers every prompt, the compare prompt with [cmp]. *)
Definition chat_with (cmp : ChatOutcome) (t : Task) (mdl : string) (papers : list Paper)
  : ChatOutcome :=
  match t with
  | Summarize => ChatContent "The papers introduce new architectures."
  | Compare => cmp
  | GapAnalysis => ChatContent "Efficiency on long inputs is open."
  | TrendAnalysis => ChatContent "Models grow larger."
  | Custom _ => ChatContent "As instructed."
  end.

Definition oracle (found : list Paper) (cmp : ChatOutcome) (disk : option string) : Oracle :=
  {| arxiv_request := fun _ _ => SearchPapers found;
     ollama_chat := chat_with cmp;
     write_json := fun _ _ => disk |}.

Definition O_ok : Oracle := oracle [paper_a; paper_b] (ChatContent table_text) None.
Definition O_no_papers : Oracle := oracle [] (ChatContent table_text) None.
Definition O_compare_raises : Oracle :=
  oracle [paper_a; paper_b] (ChatRaise "connection refused") None.
Definition O_compare_prose : Oracle :=
  oracle [paper_a; paper_b] (ChatContent "The papers differ in scope.") None.
Definition O_compare_numbers : Oracle :=
  oracle [paper_a; paper_b] (ChatContent "[1]") None.

Definition disk_full (filename : string) (res : gmap string PyVal) : option string :=
  Some "[Errno 28] No space left on device".

Definition uuid : string := "3f2a9c1e-5b7d-4e21-9a40-1c2d3e4f5a6b".
Definition workflow_id : string := "3f2a9c1e".

Definition run (O : Oracle) (t : AutomationType) : Res unit * World :=
  execute_automation_workflow JsonLite.json_loads_lite py_format str_exn isoformat strftime
                              O (request t) workflow_id w0.

Definition compare (O : Oracle) : Res Comparison * World :=
  compare_papers_with_ollama JsonLite.json_loads_lite O [paper_a; paper_b]
                             (Some "llama3.2:3b") w0.

End Sample.

(** * The rest of the summarizer *)

(** ** What a run may touch *)

(** World [w'] comes from [w] by steps that write only to the entry of
    [wid], make only calls satisfying [P], keep the current model, and
    only add to the clock, the log, the calls and the writes. *)
Definition grows (wid : string) (P : Call -> Prop) (w w' : World) : Prop :=
  (forall k, k <> wid -> active_workflows w' !! k = active_workflows w !! k)
  /\ current_model w' = current_model w
  /\ (clock w <= clock w')%nat
  /\ logged w `prefix_of` logged w'
  /\ (exists cs, calls w' = calls w ++ cs /\ Forall P cs)
  /\ (exists ws, writes w' = writes w ++ ws /\ Forall (fun x => x.1.1 = wid) ws).

Definition confined (wid : string) (P : Call -> Prop) {A} (m : M A) : Prop :=
  forall w, grows wid P w (m w).2.

(** The calls a request allows: the search with its query and limit,
    the model under its name, any file. *)
Definition call_of_request (request : AutomationRequest) (c : Call) : Prop :=
  match c with
  | CallSearch q limit => q = query request /\ limit = max_results request
  | CallChat _ mdl => mdl = model request
  | CallWrite _ => True
  end.

(** The entry of [wid] is there and is Completed or Failed. *)
Definition terminal_at (wid : string) (w : World) : Prop :=
  exists s, active_workflows w !! wid = Some s /\ status s <> Running.

(** The model answered, rather than raised. *)
Definition answered (out : ChatOutcome) : Prop :=
  exists text, out = ChatContent text.

Definition is_dict (j : json) : bool :=
  match j with
  | JDict _ => true
  | _ => false
  end.

(** The text of [_extract_key_findings] around the two quotations. *)
Definition key_findings_frame : Z :=
  PyStr.len
    ("Key findings synthesized from analysis:" +:+ PyStr.nl +:+ PyStr.nl
     +:+ "Summary Highlights:" +:+ PyStr.nl +:+ "..." +:+ PyStr.nl +:+ PyStr.nl
     +:+ "Gap Analysis Insights:" +:+ PyStr.nl +:+ "...").

(** The keys of [results] after a run of the request's type that found
    papers and completed. *)
Definition result_keys (request : AutomationRequest) : gset string :=
  {[ "papers_found"; "papers"; "workflow_type" ]} ∪
  match automation_type request with
  | LITERATURE_REVIEW => {[ "summary"; "comparison"; "gap_analysis"; "key_findings" ]}
  | RESEARCH_GAP_ANALYSIS => {[ "comparison"; "gap_analysis"; "recommendations" ]}
  | METHODOLOGY_COMPARISON => {[ "comparison"; "methodology_insights" ]}
  | TREND_ANALYSIS => {[ "trend_analysis"; "future_directions" ]}
  | CUSTOM_WORKFLOW => if has_instructions request then {[ "custom_analysis" ]} else ∅
  end.

(** ** Model management *)

Definition AVAILABLE_MODELS : list (string * (string * string)) :=
  [("llama3.2:3b", ("3B", "Small text model - Fast and efficient"));
   ("deepseek-r1:1.5b", ("1.5B", "Thinking model - Good for reasoning"));
   ("gemma3:4b", ("4B", "Small text and image model - Balanced"));
   ("gemma3:270m", ("270M", "Very small text model - Ultra fast"))].

(** How [self.client.list()] and the reading of the model names end:
    the call raises, the answer lacks what the comprehension reads, or
    the names are there. *)
Inductive ListOutcome :=
| ListRaise (msg : string)
| ListMalformed (msg : string)
| ListModels (names : list string).

(** [summarizer.current_model = m]. *)
Definition set_current_model (m : string) : M unit := fun w =>
  (Ret tt,
   {| active_workflows := active_workflows w; current_model := m;
      clock := clock w; logged := logged w; calls := calls w; writes := writes w |}).

Definition get_available_models (ol : ListOutcome) : M (list string) :=
  match ol with
  | ListModels names => mret names
  | ListRaise e | ListMalformed e =>
      log ERROR ("Error getting models: " +:+ e);;
      mret (map fst AVAILABLE_MODELS)
  end.

(** The names [get_available_models] returns for an outcome. *)
Definition models_seen (ol : ListOutcome) : list string :=
  match ol with
  | ListModels names => names
  | _ => map fst AVAILABLE_MODELS
  end.

(** The dict returned by [POST /api/set-model]. *)
Record SetModelResponse := {
  sm_success : bool;
  sm_message : option string;
  sm_error : option string
}.

(** [model in available_models]. *)
Definition py_in (x : string) (l : list string) : bool := existsb (String.eqb x) l.

(** [POST /api/set-model]. *)
Definition set_model (ol : ListOutcome) (mdl : string) : M SetModelResponse :=
  available_models ← get_available_models ol;
  if negb (py_in mdl available_models) then
    mret {| sm_success := false; sm_message := None;
            sm_error := Some ("Model " +:+ mdl +:+ " not available") |}
  else
    set_current_model mdl;;
    mret {| sm_success := true; sm_message := Some ("Model changed to " +:+ mdl);
            sm_error := None |}.

(** ** The summarize endpoint *)

Record SearchRequest := {
  sr_query : string;
  sr_max_results : Z;
  sr_model : string
}.

Record SummaryResponse := {
  sum_success : bool;
  sum_summary : string;
  sum_papers_used : Z;
  sum_model : string;
  sum_query : string;
  sum_error : option string;
  sum_saved_path : option string
}.

Definition summary_failure (request : SearchRequest) (err : string) : SummaryResponse :=
  {| sum_success := false; sum_summary := ""; sum_papers_used := 0;
     sum_model := sr_model request; sum_query := sr_query request;
     sum_error := Some err; sum_saved_path := None |}.

Section Endpoints.

Variable str_exn : Exn -> string.
Variable strftime : nat -> string.

(** [save_summary]. [write_text] is [open] followed by [f.write]: [None]
    on success, the exception's text on failure. *)
Definition save_summary (write_text : string -> string -> option string)
           (topic summary_text : string) : M (option string) :=
  t ← datetime_now;
  let filename :=
    "summaries/" +:+ PyStr.replace " "%char "_"%char topic +:+ "_" +:+ strftime t
    +:+ "_summary.txt" in
  record_call (CallWrite filename);;
  match write_text filename summary_text with
  | None => mret (Some filename)
  | Some e =>
      log ERROR ("Error saving summary: " +:+ e);;
      mret None
  end.

(** [POST /api/summarize]. Its [logger.info] line leaves no trace here:
    the world keeps the warnings and errors given to the logger. *)
Definition summarize_papers (O : Oracle) (write_text : string -> string -> option string)
           (request : SearchRequest) : M SummaryResponse :=
  try_except
    (papers ← search_arxiv O (sr_query request) (sr_max_results request);
     match papers with
     | [] => mret (summary_failure request "No papers found for the given query")
     | _ =>
         summary_text ← summarize_with_ollama O papers (Some (sr_model request));
         saved_path ← save_summary write_text (sr_query request) summary_text;
         mret {| sum_success := true; sum_summary := summary_text;
                 sum_papers_used := Z.of_nat (length papers);
                 sum_model := sr_model request; sum_query := sr_query request;
                 sum_error := None; sum_saved_path := saved_path |}
     end)
    (fun e =>
       match e with
       | HTTPException _ detail => mret (summary_failure request detail)
       | _ =>
           log ERROR ("Summarization error: " +:+ str_exn e);;
           mret (summary_failure request (str_exn e))
       end).

End Endpoints.

(** ** More sample inputs *)

Module SampleMore.

(** An arXiv that does not answer in time, and one that cannot be
    reached. *)
Definition O_search_timeout : Oracle :=
  {| arxiv_request := fun _ _ => SearchTimeout;
     ollama_chat := Sample.chat_with (ChatContent Sample.table_text);
     write_json := fun _ _ => None |}.

Definition O_search_down : Oracle :=
  {| arxiv_request := fun _ _ => SearchRaise "Connection refused";
     ollama_chat := Sample.chat_with (ChatContent Sample.table_text);
     write_json := fun _ _ => None |}.

Definition w_done : World := (Sample.run Sample.O_ok TREND_ANALYSIS).2.

Definition other_id : string := "0badcafe".

Definition entry_running : Workflow :=
  {| status := Running; progress := step 1 5 "Searching arXiv"; results := ∅;
     error := None; created_at := "2025-01-01T00:00:00.0";
     updated_at := "2025-01-01T00:00:00.2" |}.

Definition w_one : World :=
  {| active_workflows := {[ "3f2a9c1e" := entry_running ]}; current_model := "llama3.2:3b";
     clock := 3%nat; logged := []; calls := []; writes := [] |}.

Definition tasks : list BackgroundTask :=
  [(Sample.request TREND_ANALYSIS, "3f2a9c1e");
   (Sample.request LITERATURE_REVIEW, "0badcafe")].

(** [json.loads] with the limit that CPython 3.11 puts on the digits of
    an integer: a text with more than 4300 digits in a row makes it
    raise [ValueError], which is not a decode error. Digits inside a
    string literal would count here too; the samples have none. *)
Definition is_digit (c : ascii) : bool :=
  (48 <=? nat_of_ascii c)%nat && (nat_of_ascii c <=? 57)%nat.

Fixpoint digit_run (s : string) (run longest : nat) : nat :=
  match s with
  | EmptyString => Nat.max run longest
  | String c s' =>
      if is_digit c then digit_run s' (S run) longest
      else digit_run s' 0%nat (Nat.max run longest)
  end.

Definition limit_message (n : nat) : string :=
  "Exceeds the limit (4300 digits) for integer string conversion: value has "
  +:+ pretty n +:+ " digits; use sys.set_int_max_str_digits() to increase the limit".

Definition loads_limited (text : string) : loads_result :=
  let n := digit_run text 0%nat 0%nat in
  if (4300 <? n)%nat then LoadsOtherError (limit_message n)
  else JsonLite.json_loads_lite text.

Fixpoint sevens (n : nat) : string :=
  match n with
  | O => EmptyString
  | S n' => String "7"%char (sevens n')
  end.

(** An array holding one integer of 4301 digits. *)
Definition long_number : string := "[" +:+ sevens 4301 +:+ "]".

Definition O_compare_long_number : Oracle :=
  Sample.oracle [Sample.paper_a; Sample.paper_b] (ChatContent long_number) None.

End SampleMore.

(** * Proofs *)

Example json_loads_lite_record :
  JsonLite.json_loads_lite (PyStr.dq "[1, {'a': 'x', 'b': null}]")
  = LoadsValue (JList [JInt 1; JDict [("a", JStr "x"); ("b", JNull)]]).
Proof. vm_compute. reflexivity. Qed.

Example json_loads_lite_two_arrays :
  JsonLite.json_loads_lite "[x] [1]" = LoadsDecodeError "Expecting value".
Proof. vm_compute. reflexivity. Qed.

(** ** Traces *)

Lemma Trace_last reps tr :
  Trace reps tr ->
  exists s, snd <$> last tr = Some s /\ progress s = last_progress reps.
Proof.
  induction 1.
  - exists s. split; [reflexivity|]. cbn. assumption.
  - eexists. rewrite last_app. cbn. split; [reflexivity|].
    unfold last_progress. rewrite List.last_last. reflexivity.
Qed.

Lemma written_tag wid tr : written wid (map (tag wid) tr) = tr.
Proof.
  induction tr as [|[a s] tr IH]; [reflexivity|].
  cbn. rewrite String.eqb_refl, IH. reflexivity.
Qed.

Lemma written_since wid w w' tr :
  at_trace wid (writes w) tr w' -> written wid (since w w') = tr.
Proof.
  intros [Hw _]. unfold since. rewrite Hw, drop_app_length. apply written_tag.
Qed.

Lemma reports_of_app tr1 tr2 : reports_of (tr1 ++ tr2) = reports_of tr1 ++ reports_of tr2.
Proof.
  induction tr1 as [|[a s] tr1 IH]; [reflexivity|].
  cbn. destruct (is_progress_write a); cbn; rewrite IH; reflexivity.
Qed.

Lemma Trace_reports reps tr : Trace reps tr -> reports_of tr = reps.
Proof.
  induction 1 as [|reps tr s p t _ IH]; [reflexivity|].
  rewrite reports_of_app, IH. reflexivity.
Qed.

Lemma Lifetime_reports e reps tr : Lifetime e reps tr -> reports_of tr = reps.
Proof.
  intros [e' reps' tr' s t Ht _].
  rewrite reports_of_app, (Trace_reports _ _ Ht).
  destruct e'; cbn; apply app_nil_r.
Qed.

Lemma Trace_head reps tr :
  Trace reps tr ->
  exists s rest, tr = (NewEntry, s) :: rest /\ status s = Running
                 /\ progress s = initial_progress /\ results s = ∅ /\ error s = None.
Proof.
  induction 1 as [s|reps tr s p t _ IH].
  - exists s, []. auto.
  - destruct IH as (s0 & rest & -> & IH). eexists s0, _. split; [reflexivity|exact IH].
Qed.


Lemma Trace_running reps tr : Trace reps tr -> Forall running_state (map snd tr).
Proof.
  induction 1 as [s H1 H2 H3 H4|reps tr s p t Ht IH Hl Hp].
  - constructor; [|constructor]. cbn. unfold running_state. rewrite H2. cbn.
    repeat split; auto; lia.
  - rewrite map_app. apply Forall_app. split; [exact IH|].
    assert (Hs : running_state s).
    { rewrite Forall_forall in IH. apply IH.
      destruct (last tr) as [[a s']|] eqn:E; [|discriminate].
      injection Hl as <-. apply last_Some in E as [l' ->].
      rewrite map_app. apply elem_of_app. right. cbn. apply list_elem_of_singleton. reflexivity. }
    destruct Hs as (? & ? & ? & ?).
    cbn. repeat constructor; cbn; auto; lia.
Qed.

Lemma sorted_snoc (l : list Z) (c : Z) :
  StronglySorted Z.le l -> Forall (fun x => x <= c) l -> StronglySorted Z.le (l ++ [c]).
Proof.
  intros Hs Hc. apply StronglySorted_app_2; [|exact Hs|repeat constructor].
  intros x1 x2 H1 H2. apply list_elem_of_singleton in H2 as ->.
  rewrite Forall_forall in Hc. auto.
Qed.

(** The steps of a running trace never go back; the last one bounds them. *)
Lemma Trace_sorted reps tr :
  Trace reps tr ->
  StronglySorted Z.le (current_steps (map snd tr))
  /\ forall s, snd <$> last tr = Some s ->
               Forall (fun x => x <= current_step (progress s)) (current_steps (map snd tr)).
Proof.
  induction 1 as [s|reps tr s p t Ht [IH1 IH2] Hl Hp].
  - split; [repeat constructor|].
    intros s' [= <-]. repeat constructor. cbn. lia.
  - specialize (IH2 s Hl).
    assert (Hle : Forall (fun x => x <= current_step p) (current_steps (map snd tr))).
    { eapply Forall_impl; [exact IH2|]. cbn. intros; lia. }
    unfold current_steps in *. rewrite !map_app. cbn.
    change [current_step p; current_step p] with ([current_step p] ++ [current_step p]).
    rewrite app_assoc.
    split.
    + apply sorted_snoc; [apply sorted_snoc; assumption|].
      apply Forall_app. split; [assumption|]. repeat constructor. lia.
    + intros s'. rewrite last_app. cbn. intros [= <-]. cbn.
      apply Forall_app. split; [apply Forall_app; split; [assumption|]|];
        repeat constructor; lia.
Qed.

Lemma try_bind_ret {A B} (m : M A) (f : A -> M B) (h : Exn -> M B) w a w1 :
  m w = (Ret a, w1) -> try_except (m ≫= f) h w = try_except (f a) h w1.
Proof. intros H. unfold try_except, mbind, M_bind. rewrite H. reflexivity. Qed.

(** ** The run, step by step *)

Section Proofs.

Variable json_loads : string -> loads_result.
Variable py_format : json -> string.
Variable str_exn : Exn -> string.
Variable isoformat : nat -> string.
Variable strftime : nat -> string.

Lemma progress_spec wid base reps w step c t :
  Running_at wid base reps w ->
  current_step (last_progress reps) <= c <= t ->
  exists w', _update_workflow_progress isoformat wid step c t w = (Ret tt, w')
             /\ Running_at wid base (reps ++ [{| current_step := c; total_steps := t; step_name := step |}]) w'.
Proof.
  intros (tr & [Hw Hl] & Ht) Hc.
  destruct (Trace_last _ _ Ht) as (s & Hs & Hp).
  unfold _update_workflow_progress, mbind, M_bind, get_world, entry, store, datetime_now.
  repeat (rewrite ?Hl, ?Hs, ?lookup_insert_eq; cbn).
  eexists. split; [reflexivity|].
  eexists. split; [split|].
  - cbn. rewrite Hw, <- !app_assoc. cbn. f_equal.
    instantiate (1 := tr ++ [(_, _); (_, _)]). rewrite map_app. reflexivity.
  - cbn. rewrite lookup_insert_eq, last_app. reflexivity.
  - eapply Trace_progress; eauto. rewrite Hp. exact Hc.
Qed.

Lemma Running_at_same_store wid base reps w w' :
  same_store w w' -> Running_at wid base reps w -> Running_at wid base reps w'.
Proof.
  intros [Ha Hw] (tr & [H1 H2] & Ht). exists tr. split; [|assumption].
  split; congruence.
Qed.

Ltac quiet_tac :=
  unfold summarize_with_ollama, compare_papers_with_ollama, parse_comparison,
    analyze_research_gaps, analyze_trends, _perform_custom_analysis, _save_workflow_results,
    chat, resolve_model, mbind, M_bind, mret, M_ret, mthrow, M_throw, get_world, log,
    record_call, datetime_now;
  cbn;
  repeat (match goal with
    | |- context [match ?x with _ => _ end] =>
        lazymatch x with
        | context [match _ with _ => _ end] => fail
        | _ => destruct x
        end
    end; cbn);
  eexists _, _; (split; [reflexivity|]); split; reflexivity.

Lemma summarize_spec O papers mdl w :
  exists r w', summarize_with_ollama O papers mdl w = (r, w') /\ same_store w w'.
Proof. quiet_tac. Qed.

Lemma compare_spec O papers mdl w :
  exists r w', compare_papers_with_ollama json_loads O papers mdl w = (r, w') /\ same_store w w'.
Proof. quiet_tac. Qed.

Lemma gaps_spec O papers mdl w :
  exists x w', analyze_research_gaps O papers mdl w = (Ret x, w') /\ same_store w w'.
Proof. quiet_tac. Qed.

Lemma trends_spec O papers mdl w :
  exists x w', analyze_trends O papers mdl w = (Ret x, w') /\ same_store w w'.
Proof. quiet_tac. Qed.

Lemma custom_spec O papers ins mdl w :
  exists x w', _perform_custom_analysis O papers ins mdl w = (Ret x, w') /\ same_store w w'.
Proof. quiet_tac. Qed.

Lemma save_spec O wid q res w :
  exists x w', _save_workflow_results strftime O wid q res w = (Ret x, w') /\ same_store w w'.
Proof. quiet_tac. Qed.


Ltac do_progress H :=
  match goal with
  | |- context [_update_workflow_progress ?iso ?wid ?nm ?c ?t ?w] =>
      let w1 := fresh "w" in
      let E := fresh "E" in
      let H1 := fresh "H" in
      destruct (progress_spec wid _ _ w nm c t H) as (w1 & E & H1);
      [cbn; lia|]; rewrite E; cbv iota beta; clear E H; rename H1 into H; cbn [app] in H
  end.

Ltac do_quiet lem H :=
  let r := fresh "r" in
  let w1 := fresh "w" in
  let E := fresh "E" in
  let Q := fresh "Q" in
  destruct lem as (r & w1 & E & Q); rewrite E; cbv iota beta; clear E;
  apply (Running_at_same_store _ _ _ _ _ Q) in H; clear Q.

Ltac do_call H :=
  match goal with
  | |- context [summarize_with_ollama ?O ?p ?m ?w] => do_quiet (summarize_spec O p m w) H
  | |- context [compare_papers_with_ollama _ ?O ?p ?m ?w] => do_quiet (compare_spec O p m w) H
  | |- context [analyze_research_gaps ?O ?p ?m ?w] => do_quiet (gaps_spec O p m w) H
  | |- context [analyze_trends ?O ?p ?m ?w] => do_quiet (trends_spec O p m w) H
  | |- context [_perform_custom_analysis ?O ?p ?i ?m ?w] => do_quiet (custom_spec O p i m w) H
  | |- context [_save_workflow_results _ ?O ?i ?q ?r ?w] => do_quiet (save_spec O i q r w) H
  end.

Ltac finish H :=
  eexists _, _; split; [reflexivity|]; eexists; split; [exact H|];
  split; [eexists; reflexivity | first [reflexivity | intros; discriminate | intros; reflexivity]].

Lemma literature_review_spec O wid papers request res base w :
  automation_type request = LITERATURE_REVIEW ->
  Running_at wid base [search_step] w ->
  exists r w', _execute_literature_review json_loads isoformat O wid papers request res w = (r, w')
               /\ routine_post wid base (routine_steps request) r w'.
Proof.
  intros Hty H. unfold routine_post, routine_steps. rewrite Hty.
  unfold _execute_literature_review, mbind, M_bind, mret, M_ret.
  do_progress H.
  do_call H. destruct r; [|finish H].
  do_progress H.
  do_call H. destruct r; [|finish H].
  do_progress H.
  do_call H.
  do_progress H.
  finish H.
Qed.

Lemma gap_analysis_spec O wid papers request res base w :
  automation_type request = RESEARCH_GAP_ANALYSIS ->
  Running_at wid base [search_step] w ->
  exists r w', _execute_gap_analysis json_loads isoformat O wid papers request res w = (r, w')
               /\ routine_post wid base (routine_steps request) r w'.
Proof.
  intros Hty H. unfold routine_post, routine_steps. rewrite Hty.
  unfold _execute_gap_analysis, mbind, M_bind, mret, M_ret.
  do_progress H.
  do_call H. destruct r; [|finish H].
  do_progress H.
  do_call H.
  do_progress H.
  finish H.
Qed.

Lemma methodology_comparison_spec O wid papers request res base w :
  automation_type request = METHODOLOGY_COMPARISON ->
  Running_at wid base [search_step] w ->
  exists r w', _execute_methodology_comparison json_loads py_format isoformat O wid papers
                 request res w = (r, w')
               /\ routine_post wid base (routine_steps request) r w'.
Proof.
  intros Hty H. unfold routine_post, routine_steps. rewrite Hty.
  unfold _execute_methodology_comparison, mbind, M_bind, mret, M_ret.
  do_progress H.
  do_call H. destruct r; [|finish H].
  do_progress H.
  finish H.
Qed.

Lemma trend_analysis_spec O wid papers request res base w :
  automation_type request = TREND_ANALYSIS ->
  Running_at wid base [search_step] w ->
  exists r w', _execute_trend_analysis isoformat O wid papers request res w = (r, w')
               /\ routine_post wid base (routine_steps request) r w'.
Proof.
  intros Hty H. unfold routine_post, routine_steps. rewrite Hty.
  unfold _execute_trend_analysis, mbind, M_bind, mret, M_ret.
  do_progress H.
  do_call H.
  do_progress H.
  finish H.
Qed.

Lemma custom_workflow_spec O wid papers request res base w :
  automation_type request = CUSTOM_WORKFLOW ->
  Running_at wid base [search_step] w ->
  exists r w', _execute_custom_workflow isoformat O wid papers request res w = (r, w')
               /\ routine_post wid base (routine_steps request) r w'.
Proof.
  intros Hty H. unfold routine_post, routine_steps, has_instructions. rewrite Hty.
  unfold _execute_custom_workflow, mbind, M_bind, mret, M_ret.
  destruct (custom_instructions request) as [ins|]; [destruct (PyStr.truthy ins)|].
  - do_progress H. do_call H. finish H.
  - finish H.
  - finish H.
Qed.

Lemma routine_spec O wid papers request res base w :
  Running_at wid base [search_step] w ->
  exists r w',
    match automation_type request with
    | LITERATURE_REVIEW =>
        _execute_literature_review json_loads isoformat O wid papers request res
    | RESEARCH_GAP_ANALYSIS =>
        _execute_gap_analysis json_loads isoformat O wid papers request res
    | METHODOLOGY_COMPARISON =>
        _execute_methodology_comparison json_loads py_format isoformat O wid papers request res
    | TREND_ANALYSIS =>
        _execute_trend_analysis isoformat O wid papers request res
    | CUSTOM_WORKFLOW =>
        _execute_custom_workflow isoformat O wid papers request res
    end w = (r, w')
    /\ routine_post wid base (routine_steps request) r w'.
Proof.
  intros H. destruct (automation_type request) eqn:Hty.
  - apply literature_review_spec; assumption.
  - apply gap_analysis_spec; assumption.
  - apply methodology_comparison_spec; assumption.
  - apply trend_analysis_spec; assumption.
  - apply custom_workflow_spec; assumption.
Qed.

(** A terminal write after the running phase. *)
Lemma final_spec wid base reps w e t :
  Running_at wid base reps w ->
  exists tr s, active_workflows w !! wid = Some s
               /\ (forall w', active_workflows w' = <[wid := (final_write e t s).2]> (active_workflows w) ->
                              writes w' = writes w ++ [tag wid (final_write e t s)] ->
                              at_trace wid base tr w')
               /\ Lifetime e reps tr.
Proof.
  intros (tr & [Hw Hl] & Ht).
  destruct (Trace_last _ _ Ht) as (s & Hs & _).
  exists (tr ++ [final_write e t s]), s. split; [congruence|]. split.
  - intros w' Ha Hw'. split.
    + rewrite Hw', Hw, map_app, <- app_assoc. reflexivity.
    + rewrite Ha, lookup_insert_eq, last_app. reflexivity.
  - econstructor; eassumption.
Qed.

Lemma handler_spec wid base reps w e :
  Running_at wid base reps w ->
  exists tr w', workflow_handler str_exn isoformat wid e w = (Ret tt, w')
                /\ at_trace wid base tr w'
                /\ Lifetime (Fail (str_exn e)) reps tr.
Proof.
  intros H.
  destruct (final_spec wid base reps w (Fail (str_exn e)) (isoformat (clock w)) H)
    as (tr & s & Hs & Hat & Hl).
  unfold workflow_handler, mbind, M_bind, log, entry, datetime_now, store. cbn.
  rewrite Hs. cbn.
  eexists tr, _. split; [reflexivity|]. split; [apply Hat; reflexivity|assumption].
Qed.

(** The search touches no entry; it hands back the papers, or raises
    what its two handlers raise. *)
Lemma search_spec O q limit w :
  exists w',
    search_arxiv O q limit w
    = (match arxiv_request O q limit with
       | SearchTimeout => Raise (HTTPException 408 "arXiv API request timed out")
       | SearchRaise msg => Raise (HTTPException 500 ("arXiv search failed: " +:+ msg))
       | SearchPapers papers => Ret papers
       end, w')
    /\ same_store w w'.
Proof.
  unfold search_arxiv, mbind, M_bind, mret, M_ret, mthrow, M_throw, record_call, log.
  cbn. destruct (arxiv_request O q limit); cbn; eexists; (split; [reflexivity|]);
    split; reflexivity.
Qed.

Lemma search_found O q limit papers w :
  arxiv_request O q limit = SearchPapers papers ->
  search_arxiv O q limit w = (Ret papers, (record_call (CallSearch q limit) w).2).
Proof.
  intros H. unfold search_arxiv, mbind, M_bind, mret, M_ret. cbn. rewrite H. reflexivity.
Qed.

Lemma run_spec O request wid w :
  exists e reps tr w',
    execute_automation_workflow json_loads py_format str_exn isoformat strftime
                                O request wid w = (Ret tt, w')
    /\ at_trace wid (writes w) tr w'
    /\ Lifetime e reps tr
    /\ run_post O request e reps
    /\ run_ending json_loads py_format str_exn isoformat O request wid e.
Proof.
  assert (H0 : Running_at wid (writes w) []
                 (store wid NewEntry
                    {| status := Running; progress := initial_progress; results := ∅;
                       error := None; created_at := isoformat (clock w);
                       updated_at := isoformat (S (clock w)) |}
                    (datetime_now (datetime_now w).2).2).2).
  { eexists [(NewEntry, _)]. split; [split|].
    - reflexivity.
    - cbn. rewrite lookup_insert_eq. reflexivity.
    - constructor; reflexivity. }
  unfold execute_automation_workflow, try_except, workflow_body.
  unfold mbind, M_bind.
  change (datetime_now w) with (Ret (clock w), (datetime_now w).2). cbv iota beta.
  change (datetime_now (datetime_now w).2) with
    (Ret (S (clock w)), (datetime_now (datetime_now w).2).2). cbv iota beta.
  match goal with
  | |- context [store wid NewEntry ?s ?w1] =>
      change (store wid NewEntry s w1) with (Ret tt, (store wid NewEntry s w1).2);
      set (w1' := (store wid NewEntry s w1).2) in *
  end.
  cbv iota beta. clearbody w1'.
  do_progress H0.
  match goal with
  | |- context [search_arxiv O ?q ?n ?w1] =>
      destruct (search_spec O q n w1) as (w2' & E & Q); rewrite E; clear E;
      apply (Running_at_same_store _ _ _ _ _ Q) in H0; clear Q
  end.
  destruct (arxiv_request O (query request) (max_results request)) as [|msg|[|p ps]]
    eqn:Hsearch; cbv iota beta.
  - (* the search times out *)
    destruct (handler_spec wid _ _ w2' (HTTPException 408 "arXiv API request timed out") H0)
      as (tr & w' & E & Hat & Hl).
    eexists (Fail _), [search_step], tr, w'.
    split; [exact E|]. split; [exact Hat|]. split; [exact Hl|].
    split; [split; [eexists; reflexivity | exact I]|].
    unfold run_ending. rewrite Hsearch. reflexivity.
  - (* the search raises *)
    destruct (handler_spec wid _ _ w2'
                (HTTPException 500 ("arXiv search failed: " +:+ msg)) H0)
      as (tr & w' & E & Hat & Hl).
    eexists (Fail _), [search_step], tr, w'.
    split; [exact E|]. split; [exact Hat|]. split; [exact Hl|].
    split; [split; [eexists; reflexivity | exact I]|].
    unfold run_ending. rewrite Hsearch. reflexivity.
  - (* no papers *)
    destruct (final_spec wid _ _ w2' NoPapers EmptyString H0) as (tr & s & Hs & Hat & Hl).
    unfold entry, store. rewrite Hs. cbn.
    exists NoPapers, [search_step], tr. eexists.
    split; [reflexivity|]. split; [apply Hat; reflexivity|].
    split; [assumption|]. split; [split; [eexists; reflexivity|exact Hsearch]|].
    unfold run_ending. rewrite Hsearch. reflexivity.
  - (* papers found *)
    match goal with
    | |- context [match automation_type request with _ => _ end ?w1] =>
        destruct (routine_spec O wid (p :: ps) request
                    {[ "papers_found" := VInt (Z.of_nat (length (p :: ps)));
                       "papers" := VPapers (p :: ps);
                       "workflow_type" := VStr (AutomationType_value (automation_type request)) ]}
                    _ w1 H0) as (r & w3 & E & reps & H3 & Hpre & Hfull)
    end.
    rewrite E. cbv iota beta. clear H0.
    assert (Hend : forall e0,
               e0 = match r with Ret res => Done res | Raise exn => Fail (str_exn exn) end ->
               run_ending json_loads py_format str_exn isoformat O request wid e0).
    { intros e0 ->. unfold run_ending. rewrite Hsearch. exists w2'.
      unfold selected_routine, first_results. rewrite E. reflexivity. }
    clear E.
    destruct r as [res|e].
    + do_call H3.
      match type of H3 with
      | Running_at _ _ _ ?wx =>
          destruct (final_spec wid _ _ wx (Done res) (isoformat (clock wx)) H3)
            as (tr & s & Hs & Hat & Hl)
      end.
      unfold entry, datetime_now, store. rewrite Hs. cbn.
      exists (Done res), reps, tr. eexists.
      split; [reflexivity|]. split; [apply Hat; reflexivity|].
      split; [assumption|]. split; [split; [assumption|]|apply Hend; reflexivity].
      split; [apply (Hfull res); reflexivity | eauto].
    + destruct (handler_spec wid _ _ w3 e H3) as (tr & w' & E & Hat & Hl).
      exists (Fail (str_exn e)), reps, tr, w'.
      split; [exact E|]. split; [exact Hat|]. split; [exact Hl|].
      split; [split; [exact Hpre | exact I]|apply Hend; reflexivity].
Qed.


Lemma Trace_last_running reps tr s :
  Trace reps tr -> snd <$> last tr = Some s -> running_state s.
Proof.
  intros Ht Hl. pose proof (Trace_running _ _ Ht) as Hr.
  rewrite Forall_forall in Hr. apply Hr.
  destruct (last tr) as [[a s']|] eqn:E; [|discriminate].
  injection Hl as <-. apply last_Some in E as [l' ->].
  rewrite map_app. apply elem_of_app. right. apply list_elem_of_singleton. reflexivity.
Qed.

(** Every run returns, and what it wrote to its entry is a running
    phase followed by one terminal write, which the map then holds. *)
Lemma run_lifetime O request wid w :
  exists e reps tr s t w',
    execute_automation_workflow json_loads py_format str_exn isoformat strftime
                                O request wid w = (Ret tt, w')
    /\ written wid (since w w') = tr ++ [final_write e t s]
    /\ Trace reps tr
    /\ snd <$> last tr = Some s
    /\ running_state s
    /\ active_workflows w' !! wid = Some (final_write e t s).2
    /\ run_post O request e reps
    /\ run_ending json_loads py_format str_exn isoformat O request wid e.
Proof.
  destruct (run_spec O request wid w)
    as (e & reps & tr & w' & E & Hat & Hl & Hpost & Hend).
  pose proof (written_since _ _ _ _ Hat) as Hwr.
  destruct Hat as [_ Hlast].
  destruct Hl as [e reps tr s t Ht Hs].
  exists e, reps, tr, s, t, w'.
  split; [exact E|]. split; [exact Hwr|]. split; [exact Ht|]. split; [exact Hs|].
  split; [eapply Trace_last_running; eassumption|].
  split; [|split; [exact Hpost|exact Hend]].
  rewrite Hlast, last_app. reflexivity.
Qed.

Lemma final_write_progress e t s : progress (final_write e t s).2 = progress s.
Proof. destruct e; reflexivity. Qed.

Lemma final_write_terminal e t s : status (final_write e t s).2 <> Running.
Proof. destruct e; discriminate. Qed.


(** ** Claims about every run *)

(** C7. Once the entry of a workflow holds a terminal status, its
    execution writes to it no more: the writes of a run are states with
    status Running followed by exactly one write of a terminal state,
    which is the state the map keeps. The run itself always returns. *)
Theorem terminal_state_is_final O request wid w :
  exists w' pre final,
    execute_automation_workflow json_loads py_format str_exn isoformat strftime
                                O request wid w = (Ret tt, w')
    /\ lifetime wid w w' = pre ++ [final]
    /\ Forall (fun s => status s = Running) pre
    /\ status final <> Running
    /\ active_workflows w' !! wid = Some final.
Proof.
  destruct (run_lifetime O request wid w)
    as (e & reps & tr & s & t & w' & E & Hwr & Ht & Hs & Hrun & Hfin & _ & _).
  exists w', (map snd tr), (final_write e t s).2.
  split; [exact E|].
  split; [unfold lifetime; rewrite Hwr, map_app; reflexivity|].
  split; [|split; [apply final_write_terminal|exact Hfin]].
  eapply Forall_impl; [apply (Trace_running _ _ Ht)|].
  intros x Hx. apply Hx.
Qed.

(** C6. Along the states a run gives to its entry, the current step
    never decreases, and in each state it is at most the total. *)
Theorem progress_monotone_bounded O request wid w :
  let w' := (execute_automation_workflow json_loads py_format str_exn isoformat strftime
                                         O request wid w).2 in
  StronglySorted Z.le (current_steps (lifetime wid w w'))
  /\ Forall (fun s => current_step (progress s) <= total_steps (progress s))
            (lifetime wid w w').
Proof.
  destruct (run_lifetime O request wid w)
    as (e & reps & tr & s & t & w' & E & Hwr & Ht & Hs & Hrun & _ & _ & _).
  rewrite E. cbn. unfold lifetime. rewrite Hwr, map_app. cbn [map].
  destruct (Trace_sorted _ _ Ht) as [Hsorted Hbound].
  split.
  - unfold current_steps. rewrite map_app. cbn [map].
    rewrite final_write_progress.
    apply sorted_snoc; [exact Hsorted|exact (Hbound s Hs)].
  - apply Forall_app. split.
    + eapply Forall_impl; [apply (Trace_running _ _ Ht)|].
      intros x Hx. apply Hx.
    + constructor; [|constructor]. rewrite final_write_progress. apply Hrun.
Qed.

(** C4, amended. In every state a run gives to its entry: while Running
    the error field is absent; when Failed it is set; when Completed it
    is absent, or it holds the note of a search that found no paper. *)
Theorem error_field_by_status O request wid w :
  let w' := (execute_automation_workflow json_loads py_format str_exn isoformat strftime
                                         O request wid w).2 in
  Forall (fun s =>
            match status s with
            | Running => error s = None
            | Failed => is_Some (error s)
            | Completed =>
                error s = None
                \/ (error s = Some no_papers_note
                    /\ arxiv_request O (query request) (max_results request) = SearchPapers [])
            end)
         (lifetime wid w w').
Proof.
  destruct (run_lifetime O request wid w)
    as (e & reps & tr & s & t & w' & E & Hwr & Ht & Hs & Hrun & _ & Hpost & _).
  rewrite E. cbn. unfold lifetime. rewrite Hwr, map_app. cbn [map].
  apply Forall_app. split.
  - eapply Forall_impl; [apply (Trace_running _ _ Ht)|].
    intros x (Hx & He & _). rewrite Hx. exact He.
  - constructor; [|constructor].
    destruct Hrun as (_ & He & _). destruct Hpost as [_ Hpost].
    destruct e; cbn.
    + right. split; [reflexivity|exact Hpost].
    + left. exact He.
    + eexists; reflexivity.
Qed.

(** C5, amended. The progress reports of a run are an initial part of
    the search step, reported as 1 of 5, followed by the steps that the
    routine of the workflow type declares, and they are all of them when
    the run found papers and completed. These are the routines' own
    counts: the registry lists 4, 3, 3, 3 and 2 step kinds. *)
Theorem reported_steps O request wid w :
  let w' := (execute_automation_workflow json_loads py_format str_exn isoformat strftime
                                         O request wid w).2 in
  reports wid w w' `prefix_of` (search_step :: routine_steps request)
  /\ (forall p ps s,
         arxiv_request O (query request) (max_results request) = SearchPapers (p :: ps) ->
         active_workflows w' !! wid = Some s ->
         status s = Completed ->
         reports wid w w' = search_step :: routine_steps request)
  /\ map (fun t => length (steps (AUTOMATION_WORKFLOWS t)))
         [LITERATURE_REVIEW; RESEARCH_GAP_ANALYSIS; METHODOLOGY_COMPARISON;
          TREND_ANALYSIS; CUSTOM_WORKFLOW]
     = [4; 3; 3; 3; 2]%nat.
Proof.
  destruct (run_lifetime O request wid w)
    as (e & reps & tr & s & t & w' & E & Hwr & Ht & Hs & Hrun & Hfin & Hpost & _).
  rewrite E. cbn.
  assert (Hrep : reports wid w w' = reps).
  { unfold reports. rewrite Hwr. apply (Lifetime_reports e). econstructor; eassumption. }
  rewrite Hrep. destruct Hpost as [Hpre Hpost].
  split; [exact Hpre|]. split; [|reflexivity].
  intros p ps s' Hsearch Hs' Hst.
  rewrite Hfin in Hs'. injection Hs' as <-.
  destruct e; cbn in Hst.
  - rewrite Hsearch in Hpost. discriminate.
  - apply Hpost.
  - discriminate.
Qed.


(** ** Claims about particular paths *)

Ltac unfold_run :=
  unfold execute_automation_workflow, try_except, workflow_body, workflow_handler,
    _execute_literature_review, _update_workflow_progress, _save_workflow_results,
    search_arxiv, summarize_with_ollama, compare_papers_with_ollama, parse_comparison,
    analyze_research_gaps, chat, resolve_model,
    mbind, M_bind, mret, M_ret, mthrow, M_throw,
    get_world, entry, store, log, record_call, datetime_now.

Ltac reduce_run :=
  repeat (rewrite ?lookup_insert_eq;
          cbn -[insert lookup singletonM empty String.append PyStr.find PyStr.rfind
                PyStr.slice PyStr.prefix PyStr.replace _extract_key_findings
                _create_manual_comparison validated_data Z.eqb Z.add]).

Ltac new_writes :=
  unfold lifetime, since; cbn [writes];
  rewrite <- ?app_assoc; rewrite drop_app_length;
  cbn [app written]; rewrite ?String.eqb_refl; cbn [map snd].

(** C10. For an id that is not in [active_workflows], the progress
    update returns without an exception and leaves the world, and so the
    map, as it was. *)
Theorem update_progress_unknown_id wid step_name' current total w :
  active_workflows w !! wid = None ->
  _update_workflow_progress isoformat wid step_name' current total w = (Ret tt, w).
Proof.
  intros H. unfold _update_workflow_progress, mbind, M_bind, get_world.
  cbn. rewrite H. reflexivity.
Qed.

(** C3. When the search returns no paper, the run ends with the entry
    Completed, the explanatory note in it, and an empty results mapping;
    the entry is never Failed, and the search is the only external call
    the run makes: no analysis step and no save. *)
Theorem no_papers_completes O request wid w :
  arxiv_request O (query request) (max_results request) = SearchPapers [] ->
  exists w' s,
    execute_automation_workflow json_loads py_format str_exn isoformat strftime
                                O request wid w = (Ret tt, w')
    /\ active_workflows w' !! wid = Some s
    /\ status s = Completed
    /\ error s = Some no_papers_note
    /\ results s = ∅
    /\ calls w' = calls w ++ [CallSearch (query request) (max_results request)]
    /\ Forall (fun x => status x <> Failed) (lifetime wid w w').
Proof.
  intros Hsearch. unfold_run. reduce_run. rewrite Hsearch. reduce_run.
  eexists _, _. split; [reflexivity|]. cbn [active_workflows calls].
  rewrite lookup_insert_eq. split; [reflexivity|].
  do 4 (split; [reflexivity|]).
  new_writes. repeat constructor; discriminate.
Qed.


Lemma rfind_from_ge c s i last : -1 <= last -> 0 <= i -> -1 <= PyStr.rfind_from c s i last.
Proof.
  revert i last. induction s as [|a s IH]; intros i last Hl Hi; cbn; [exact Hl|].
  apply IH; [destruct (Ascii.eqb a c)|]; lia.
Qed.

(** [end_idx], being [rfind(...) + 1], is never [-1]. *)
Lemma end_idx_not_minus_one c s : (PyStr.rfind c s + 1 =? -1) = false.
Proof.
  apply Z.eqb_neq. pose proof (rfind_from_ge c s 0 (-1)). unfold PyStr.rfind. lia.
Qed.


(** *** What the calls of a literature review return *)

Lemma progress_returns wid nm c t w :
  exists w', _update_workflow_progress isoformat wid nm c t w = (Ret tt, w').
Proof.
  unfold _update_workflow_progress, mbind, M_bind, get_world, entry, store, datetime_now.
  cbn. destruct (active_workflows w !! wid) eqn:E; [|eauto].
  repeat (rewrite ?E, ?lookup_insert_eq; cbn). eauto.
Qed.

Lemma summarize_content O p ps mdl text w :
  ollama_chat O Summarize mdl (p :: ps) = ChatContent text ->
  exists w', summarize_with_ollama O (p :: ps) (Some mdl) w = (Ret text, w').
Proof.
  intros H. unfold summarize_with_ollama, chat, resolve_model, mbind, M_bind, mret, M_ret,
    record_call. cbn. rewrite H. eauto.
Qed.

Lemma compare_raises O p ps mdl msg w :
  ollama_chat O Compare mdl (p :: ps) = ChatRaise msg ->
  exists w', compare_papers_with_ollama json_loads O (p :: ps) (Some mdl) w
             = (Raise (HTTPException 500 ("Comparison failed: " +:+ msg)), w').
Proof.
  intros H. unfold compare_papers_with_ollama, chat, resolve_model, mbind, M_bind, mret,
    M_ret, mthrow, M_throw, record_call, log. cbn. rewrite H. cbn. eauto.
Qed.

(** The fallback: no ['['] in the response, or a bracketed part that
    does not decode. *)
Lemma compare_manual O p ps mdl text w :
  ollama_chat O Compare mdl (p :: ps) = ChatContent text ->
  (PyStr.find "["%char text = -1
   \/ exists m, json_loads (json_str text) = LoadsDecodeError m) ->
  exists w', compare_papers_with_ollama json_loads O (p :: ps) (Some mdl) w
             = (Ret (_create_manual_comparison (p :: ps) text), w').
Proof.
  intros H Hbad. unfold compare_papers_with_ollama, parse_comparison, chat, resolve_model,
    mbind, M_bind, mret, M_ret, mthrow, M_throw, record_call, log. cbn. rewrite H.
  destruct Hbad as [Hno|[m Hm]].
  - rewrite Hno. cbn. eauto.
  - unfold json_str in Hm. rewrite Hm.
    destruct (negb _ && negb _); cbn; eauto.
Qed.

(** The parsed path: the bracketed part decodes to a list. *)
Lemma compare_decoded O p ps mdl text data w :
  ollama_chat O Compare mdl (p :: ps) = ChatContent text ->
  PyStr.find "["%char text <> -1 ->
  json_loads (json_str text) = LoadsValue (JList data) ->
  exists w', compare_papers_with_ollama json_loads O (p :: ps) (Some mdl) w
             = (Ret {| comparison_table := validated_data data;
                       comparison_text := "Comparison generated successfully." |}, w').
Proof.
  intros H Hfind Hdata. unfold compare_papers_with_ollama, parse_comparison, chat,
    resolve_model, mbind, M_bind, mret, M_ret, mthrow, M_throw, record_call, log.
  cbn. rewrite H. unfold json_str in Hdata. rewrite Hdata.
  rewrite end_idx_not_minus_one.
  apply Z.eqb_neq in Hfind. rewrite Hfind. cbn. eauto.
Qed.

(** Any other exception of the decoding reaches the outer handler. *)
Lemma compare_undecoded O p ps mdl text msg w :
  ollama_chat O Compare mdl (p :: ps) = ChatContent text ->
  PyStr.find "["%char text <> -1 ->
  json_loads (json_str text) = LoadsOtherError msg ->
  exists w', compare_papers_with_ollama json_loads O (p :: ps) (Some mdl) w
             = (Raise (HTTPException 500 ("Comparison failed: " +:+ msg)), w').
Proof.
  intros H Hfind Hl. unfold compare_papers_with_ollama, parse_comparison, chat,
    resolve_model, mbind, M_bind, mret, M_ret, mthrow, M_throw, record_call, log.
  cbn. rewrite H. unfold json_str in Hl. rewrite Hl.
  rewrite end_idx_not_minus_one.
  apply Z.eqb_neq in Hfind. rewrite Hfind. cbn. eauto.
Qed.

Lemma gaps_value O p ps mdl w :
  exists w', analyze_research_gaps O (p :: ps) (Some mdl) w
             = (Ret (gap_text (ollama_chat O GapAnalysis mdl (p :: ps))), w').
Proof.
  unfold analyze_research_gaps, chat, resolve_model, mbind, M_bind, mret, M_ret,
    record_call, log. cbn.
  destruct (ollama_chat O GapAnalysis mdl (p :: ps)); cbn; eauto.
Qed.

Ltac value_progress :=
  match goal with
  | |- context [_update_workflow_progress ?iso ?wid ?nm ?c ?t ?w] =>
      let w1 := fresh "w" in
      let E := fresh "E" in
      destruct (progress_returns wid nm c t w) as [w1 E]; rewrite E; clear E;
      cbv iota beta
  end.

Ltac value_of lem :=
  let w1 := fresh "w" in
  let E := fresh "E" in
  destruct lem as [w1 E]; rewrite E; clear E; cbv iota beta.

Lemma literature_review_raises O wid p ps request res text msg w :
  ollama_chat O Summarize (model request) (p :: ps) = ChatContent text ->
  ollama_chat O Compare (model request) (p :: ps) = ChatRaise msg ->
  (_execute_literature_review json_loads isoformat O wid (p :: ps) request res w).1
  = Raise (HTTPException 500 ("Comparison failed: " +:+ msg)).
Proof.
  intros Hsum Hcmp. unfold _execute_literature_review, mbind, M_bind, mret, M_ret.
  value_progress.
  value_of (summarize_content O p ps (model request) text w0 Hsum).
  value_progress.
  value_of (compare_raises O p ps (model request) msg w2 Hcmp).
  reflexivity.
Qed.

Lemma literature_review_undecoded O wid p ps request res text answer msg w :
  ollama_chat O Summarize (model request) (p :: ps) = ChatContent text ->
  ollama_chat O Compare (model request) (p :: ps) = ChatContent answer ->
  PyStr.find "["%char answer <> -1 ->
  json_loads (json_str answer) = LoadsOtherError msg ->
  (_execute_literature_review json_loads isoformat O wid (p :: ps) request res w).1
  = Raise (HTTPException 500 ("Comparison failed: " +:+ msg)).
Proof.
  intros Hsum Hcmp Hfind Hl. unfold _execute_literature_review, mbind, M_bind, mret, M_ret.
  value_progress.
  value_of (summarize_content O p ps (model request) text w0 Hsum).
  value_progress.
  value_of (compare_undecoded O p ps (model request) answer msg w2 Hcmp Hfind Hl).
  reflexivity.
Qed.

Lemma literature_review_manual O wid p ps request res text answer w :
  ollama_chat O Summarize (model request) (p :: ps) = ChatContent text ->
  ollama_chat O Compare (model request) (p :: ps) = ChatContent answer ->
  (PyStr.find "["%char answer = -1
   \/ exists m, json_loads (json_str answer) = LoadsDecodeError m) ->
  (_execute_literature_review json_loads isoformat O wid (p :: ps) request res w).1
  = Ret (<["key_findings" :=
             VStr (_extract_key_findings
                     text (gap_text (ollama_chat O GapAnalysis (model request) (p :: ps))))]>
           (<["gap_analysis" :=
                VStr (gap_text (ollama_chat O GapAnalysis (model request) (p :: ps)))]>
              (<["comparison" := VComparison (_create_manual_comparison (p :: ps) answer)]>
                 (<["summary" := VStr text]> res)))).
Proof.
  intros Hsum Hcmp Hbad. unfold _execute_literature_review, mbind, M_bind, mret, M_ret.
  value_progress.
  value_of (summarize_content O p ps (model request) text w0 Hsum).
  value_progress.
  value_of (compare_manual O p ps (model request) answer w2 Hcmp Hbad).
  value_progress.
  value_of (gaps_value O p ps (model request) w4).
  value_progress.
  reflexivity.
Qed.


Ltac lookup_results :=
  unfold first_results;
  repeat first [ rewrite lookup_insert_eq
               | rewrite lookup_singleton_eq
               | rewrite lookup_insert_ne by discriminate ].

(** C2, amended. In a literature review whose search finds papers and
    whose summary succeeds: when the model call of the compare step
    raises, the workflow ends Failed, with the error of ["Comparison
    failed: ..."] and no results; when the model answers the compare step
    with a text that holds no ['['], or on whose part from the first
    ['['] to the last [']'] [json.loads] raises [JSONDecodeError], the
    workflow ends Completed, with a ["comparison"] result holding the
    placeholder rows and the other results present, whether or not the
    model call of the gap analysis raises; and when [json.loads] raises
    any other exception on that part, the workflow ends Failed as for a
    model call that raises, with the text of that exception. *)
Theorem literature_review_compare_outcomes O request wid w p ps text :
  automation_type request = LITERATURE_REVIEW ->
  arxiv_request O (query request) (max_results request) = SearchPapers (p :: ps) ->
  ollama_chat O Summarize (model request) (p :: ps) = ChatContent text ->
  let w' := (execute_automation_workflow json_loads py_format str_exn isoformat strftime
                                         O request wid w).2 in
  (forall msg,
      ollama_chat O Compare (model request) (p :: ps) = ChatRaise msg ->
      exists s, active_workflows w' !! wid = Some s
                /\ status s = Failed
                /\ error s = Some (str_exn (HTTPException 500 ("Comparison failed: " +:+ msg)))
                /\ results s = ∅)
  /\ (forall answer,
         ollama_chat O Compare (model request) (p :: ps) = ChatContent answer ->
         (PyStr.find "["%char answer = -1
          \/ exists m, json_loads (json_str answer) = LoadsDecodeError m) ->
         exists s, active_workflows w' !! wid = Some s
                   /\ status s = Completed
                   /\ error s = None
                   /\ results s !! "comparison"
                      = Some (VComparison (_create_manual_comparison (p :: ps) answer))
                   /\ results s !! "summary" = Some (VStr text)
                   /\ results s !! "gap_analysis"
                      = Some (VStr (gap_text (ollama_chat O GapAnalysis (model request)
                                                          (p :: ps))))
                   /\ is_Some (results s !! "key_findings")
                   /\ results s !! "papers" = Some (VPapers (p :: ps)))
  /\ (forall answer msg,
         ollama_chat O Compare (model request) (p :: ps) = ChatContent answer ->
         PyStr.find "["%char answer <> -1 ->
         json_loads (json_str answer) = LoadsOtherError msg ->
         exists s, active_workflows w' !! wid = Some s
                   /\ status s = Failed
                   /\ error s
                      = Some (str_exn (HTTPException 500 ("Comparison failed: " +:+ msg)))
                   /\ results s = ∅).
Proof.
  intros Hty Hsearch Hsum w'. subst w'.
  destruct (run_lifetime O request wid w)
    as (e & reps & tr & s & t & w' & E & _ & Ht & Hs & Hrun & Hfin & _ & Hend).
  rewrite E. cbn [snd].
  unfold run_ending in Hend. rewrite Hsearch in Hend. destruct Hend as [w1 He].
  unfold selected_routine in He. rewrite Hty in He.
  destruct Hrun as (_ & Herr & Hres & _).
  split; [|split].
  - intros msg Hcmp.
    rewrite (literature_review_raises O wid p ps request _ text msg w1 Hsum Hcmp) in He.
    subst e. eexists. split; [exact Hfin|]. cbn. auto.
  - intros answer Hcmp Hbad.
    rewrite (literature_review_manual O wid p ps request _ text answer w1 Hsum Hcmp Hbad)
      in He.
    subst e. eexists. split; [exact Hfin|]. cbn.
    split; [reflexivity|]. split; [exact Herr|].
    repeat split; lookup_results; try reflexivity. eexists; reflexivity.
  - intros answer msg Hcmp Hfind Hl.
    rewrite (literature_review_undecoded O wid p ps request _ text answer msg w1
               Hsum Hcmp Hfind Hl) in He.
    subst e. eexists. split; [exact Hfin|]. cbn. auto.
Qed.

Lemma dict_get_lookup d key default v :
  dict_lookup d key = Some v -> dict_get d key default = v.
Proof.
  induction d as [|[k x] d IH]; cbn; [discriminate|].
  destruct (String.eqb k key); [congruence|exact IH].
Qed.

Lemma validated_same_fields data :
  forallb has_six_fields data = true -> Forall2 same_fields data (validated_data data).
Proof.
  induction data as [|j data IH]; cbn; [constructor|].
  intros H. apply andb_prop in H as [Hj Hdata].
  destruct j as [| | | | | |d]; try discriminate.
  constructor; [|exact (IH Hdata)].
  cbn in Hj.
  repeat match type of Hj with
         | _ && _ = true => apply andb_prop in Hj as [?H Hj]
         end.
  repeat match goal with
         | H : bool_decide (is_Some _) = true |- _ =>
             apply bool_decide_eq_true in H; destruct H as [? H]
         end.
  exists d. split; [reflexivity|]. cbn.
  repeat split;
    match goal with
    | |- dict_lookup d ?k = Some (dict_get d ?k ?dflt) =>
        match goal with
        | H : dict_lookup d k = Some ?v |- _ => rewrite (dict_get_lookup d k dflt v H); exact H
        end
    end.
Qed.

(** C8, amended. For the compare operation on a non-empty list of
    papers, when the model returns the text [answer]: if [answer] holds
    a ['['] and its part from the first ['['] to the last [']'] decodes to
    a JSON array, the comparison table has one row per object of the
    array, in order, with ["N/A"] for a missing field, elements that are
    not objects being skipped, so that it equals the array field for
    field when every element is a record with the six fields, and the
    comparison text is ["Comparison generated successfully."]; if
    [answer] holds no ['['], or [json.loads] raises [JSONDecodeError] on
    that part, the table has one row of placeholder values per paper and
    the comparison text is [answer]; and if [json.loads] raises any
    other exception on that part, the operation returns no table: it
    raises ["Comparison failed: ..."] with status 500. *)
Theorem comparison_parsing O p ps mdl answer w :
  ollama_chat O Compare mdl (p :: ps) = ChatContent answer ->
  let r := (compare_papers_with_ollama json_loads O (p :: ps) (Some mdl) w).1 in
  (forall data,
      PyStr.find "["%char answer <> -1 ->
      json_loads (json_str answer) = LoadsValue (JList data) ->
      r = Ret {| comparison_table := validated_data data;
                 comparison_text := "Comparison generated successfully." |}
      /\ (forallb has_six_fields data = true ->
          Forall2 same_fields data (validated_data data)))
  /\ ((PyStr.find "["%char answer = -1
       \/ exists m, json_loads (json_str answer) = LoadsDecodeError m) ->
      r = Ret {| comparison_table := map manual_item (p :: ps);
                 comparison_text := answer |}
      /\ length (map manual_item (p :: ps)) = length (p :: ps))
  /\ (forall msg,
         PyStr.find "["%char answer <> -1 ->
         json_loads (json_str answer) = LoadsOtherError msg ->
         r = Raise (HTTPException 500 ("Comparison failed: " +:+ msg))).
Proof.
  intros Hcmp r. subst r. split; [|split].
  - intros data Hfind Hdata.
    destruct (compare_decoded O p ps mdl answer data w Hcmp Hfind Hdata) as [w' ->].
    split; [reflexivity|apply validated_same_fields].
  - intros Hbad.
    destruct (compare_manual O p ps mdl answer w Hcmp Hbad) as [w' ->].
    split; [reflexivity|apply length_map].
  - intros msg Hfind Hl.
    destruct (compare_undecoded O p ps mdl answer msg w Hcmp Hfind Hl) as [w' ->].
    reflexivity.
Qed.


(** A run whose search finds papers, up to the step sequence: the entry
    is running, at the search step, in a world that the file system has
    no part in. *)
Lemma run_found O request wid w p ps :
  arxiv_request O (query request) (max_results request) = SearchPapers (p :: ps) ->
  exists w2,
    Running_at wid (writes w) [search_step] w2
    /\ forall f,
        execute_automation_workflow json_loads py_format str_exn isoformat strftime
                                    (with_write_json f O) request wid w
        = try_except
            (res ← selected_routine json_loads py_format isoformat O wid (p :: ps) request;
             _save_workflow_results strftime (with_write_json f O) wid (query request) res;;
             s ← entry wid;
             t ← datetime_now;
             store wid (Update ["status"; "results"; "updated_at"])
                   (set_updated_at (isoformat t) (set_results res (set_status Completed s))))
            (workflow_handler str_exn isoformat wid) w2.
Proof.
  intros Hsearch.
  assert (H0 : Running_at wid (writes w) []
                 (store wid NewEntry
                    {| status := Running; progress := initial_progress; results := ∅;
                       error := None; created_at := isoformat (clock w);
                       updated_at := isoformat (S (clock w)) |}
                    (datetime_now (datetime_now w).2).2).2).
  { eexists [(NewEntry, _)]. split; [split|].
    - reflexivity.
    - cbn. rewrite lookup_insert_eq. reflexivity.
    - constructor; reflexivity. }
  destruct (progress_spec wid _ _ _ "Searching arXiv" 1 5 H0) as (w1 & E & H1); [cbn; lia|].
  exists (record_call (CallSearch (query request) (max_results request)) w1).2.
  split.
  - eapply Running_at_same_store; [|exact H1]. split; reflexivity.
  - intros f. unfold execute_automation_workflow, workflow_body.
    do 3 (erewrite try_bind_ret by reflexivity; cbv beta).
    erewrite try_bind_ret by exact E. cbv beta.
    erewrite try_bind_ret
      by (apply (search_found (with_write_json f O) _ _ (p :: ps)); exact Hsearch).
    reflexivity.
Qed.

(** What [_save_workflow_results] does: it reads the clock once, makes
    one call, the write of the file named after that reading, and logs
    one record when the write fails. It always returns. *)
Lemma save_value O wid q res w :
  let filename :=
    "workflows/" +:+ PyStr.replace " "%char "_"%char q +:+ "_" +:+ strftime (clock w)
    +:+ "_" +:+ wid +:+ ".json" in
  exists r w',
    _save_workflow_results strftime O wid q res w = (Ret r, w')
    /\ same_store w w'
    /\ current_model w' = current_model w
    /\ clock w' = S (clock w)
    /\ calls w' = calls w ++ [CallWrite filename]
    /\ logged w'
       = logged w ++ match write_json O filename res with
                     | Some msg => [(ERROR, "Error saving workflow results: " +:+ msg)]
                     | None => []
                     end.
Proof.
  unfold _save_workflow_results, mbind, M_bind, mret, M_ret, datetime_now, record_call, log.
  cbn. destruct (write_json O _ res); cbn; eexists _, _;
    repeat split; try reflexivity. symmetry. apply app_nil_r.
Qed.

(** C9. A failure of the write of the results does not change the
    outcome of a run: whatever the file system answers, the run returns
    the same and leaves the same world, the log apart, as when the write
    succeeds. When the search finds papers and the step sequence
    returns, the entry ends Completed, without error, with the results
    that the step sequence returned; the write of the results file is
    the last external call of the run, so it is attempted; and the log
    is that of the run whose write succeeds, followed by one ERROR
    record with the text of the failure when the write fails, and by
    nothing when it succeeds. *)
Theorem save_failure_only_logged O f request wid w :
  let r1 := execute_automation_workflow json_loads py_format str_exn isoformat strftime
              (with_write_json f O) request wid w in
  let r2 := execute_automation_workflow json_loads py_format str_exn isoformat strftime
              (with_write_json (fun _ _ => None) O) request wid w in
  r1.1 = r2.1
  /\ same_but_log r1.2 r2.2
  /\ (forall p ps,
         arxiv_request O (query request) (max_results request) = SearchPapers (p :: ps) ->
         (forall w1, exists res,
               (selected_routine json_loads py_format isoformat O wid (p :: ps) request w1).1
               = Ret res) ->
         exists s w1 t,
           let filename :=
             "workflows/" +:+ PyStr.replace " "%char "_"%char (query request) +:+ "_"
             +:+ strftime t +:+ "_" +:+ wid +:+ ".json" in
           active_workflows r1.2 !! wid = Some s
           /\ status s = Completed
           /\ error s = None
           /\ (selected_routine json_loads py_format isoformat O wid (p :: ps) request w1).1
              = Ret (results s)
           /\ last (calls r1.2) = Some (CallWrite filename)
           /\ logged r1.2
              = logged r2.2
                ++ match f filename (results s) with
                   | Some msg => [(ERROR, "Error saving workflow results: " +:+ msg)]
                   | None => []
                   end).
Proof.
  intros r1 r2. subst r1 r2.
  destruct (arxiv_request O (query request) (max_results request)) as [|msg|[|p ps]]
    eqn:Hsearch.
  1-3: (split; [|split; [|intros p' ps' Hp; discriminate Hp]]);
    unfold execute_automation_workflow, try_except, workflow_body, search_arxiv,
      mbind, M_bind;
    cbn -[_update_workflow_progress workflow_handler lookup insert];
    (destruct (_update_workflow_progress _ _ _ _ _ _) as [[[]|e] w2];
     [|repeat split; reflexivity]);
    cbn -[workflow_handler lookup insert]; rewrite Hsearch;
    repeat split; reflexivity.
  destruct (run_found O request wid w p ps Hsearch) as (w2 & H2 & Hrun).
  rewrite !Hrun. clear Hrun.
  destruct (routine_spec O wid (p :: ps) request (first_results (p :: ps) request) _ w2 H2)
    as (r & w3 & E & reps & H3 & _ & _).
  change (selected_routine json_loads py_format isoformat O wid (p :: ps) request w2 = (r, w3))
    in E.
  unfold try_except, mbind, M_bind. rewrite E. cbv iota beta.
  destruct r as [res|e]; [|split; [reflexivity|split; [repeat split; reflexivity|]]].
  - destruct H3 as (tr & [_ Hl] & Ht).
    destruct (Trace_last _ _ Ht) as (s & Hs & _). rewrite Hs in Hl.
    pose proof (Trace_last_running _ _ _ Ht Hs) as (_ & Herr & _).
    destruct (save_value (with_write_json f O) wid (query request) res w3)
      as (x1 & w4 & E1 & [Ha1 Hw1] & Hm1 & Hc1 & Hcalls1 & Hlog1).
    destruct (save_value (with_write_json (fun _ _ => None) O) wid (query request) res w3)
      as (x2 & w5 & E2 & [Ha2 Hw2] & Hm2 & Hc2 & Hcalls2 & Hlog2).
    cbv zeta in *. cbn [write_json with_write_json] in Hlog1, Hlog2.
    rewrite app_nil_r in Hlog2.
    rewrite E1, E2. cbv iota beta.
    unfold entry, datetime_now, store. rewrite Ha1, Ha2, Hl. cbn.
    split; [reflexivity|]. split.
    + unfold same_but_log. cbn.
      rewrite Ha1, Ha2, Hw1, Hw2, Hm1, Hm2, Hc1, Hc2, Hcalls1, Hcalls2.
      repeat split; reflexivity.
    + intros p' ps' [= <- <-] Hsteps.
      eexists _, w2, (clock w3).
      rewrite lookup_insert_eq. split; [reflexivity|]. split; [reflexivity|].
      split; [exact Herr|]. split; [rewrite E; reflexivity|].
      split; [rewrite Hcalls1; apply last_snoc|].
      rewrite Hlog1, Hlog2. reflexivity.
  - intros p' ps' [= <- <-] Hsteps. destruct (Hsteps w2) as [res Hres].
    rewrite E in Hres. discriminate Hres.
Qed.


(** The trend analysis has no step that raises. *)
Lemma trend_analysis_returns O wid papers request res w :
  exists res', (_execute_trend_analysis isoformat O wid papers request res w).1 = Ret res'.
Proof.
  unfold _execute_trend_analysis, mbind, M_bind, mret, M_ret.
  value_progress.
  destruct (trends_spec O papers (Some (model request)) w0) as (x & w1 & E & _).
  rewrite E. cbv iota beta.
  value_progress.
  eexists. reflexivity.
Qed.

(** C1, amended. The start operation returns the workflow id, the status
    ["started"] and the progress {0, 0, "Initializing"} in its response
    and hands the run to the background tasks, leaving the world, and so
    [active_workflows], as it was: a status query made before the
    background routine has run is answered NotFound when the id was not
    in the map. The Running state with progress {0, 0, "Initializing"},
    no results and no error is the first write of the background
    routine, after which the status query finds the entry. *)
Theorem start_registers_nothing uuid O request w :
  let wid := PyStr.prefix uuid 8 in
  let w' := (run_background json_loads py_format str_exn isoformat strftime
                            O [(request, wid)] w).2 in
  execute_endpoint uuid request w
  = (Ret ({| success := true; resp_workflow_id := wid; resp_status := "started";
             resp_results := None; resp_error := None;
             resp_progress := Some initial_progress |},
          [(request, wid)]), w)
  /\ (active_workflows w !! wid = None ->
      get_workflow_status wid w = (Raise (HTTPException 404 "Workflow not found"), w))
  /\ (exists s rest,
         lifetime wid w w' = s :: rest
         /\ status s = Running /\ progress s = initial_progress
         /\ results s = ∅ /\ error s = None)
  /\ (exists ws, get_workflow_status wid w' = (Ret ws, w')).
Proof.
  intros wid w'. split; [reflexivity|]. split.
  - intros H. unfold get_workflow_status, mbind, M_bind, get_world. cbn.
    rewrite H. reflexivity.
  - destruct (run_lifetime O request wid w)
      as (e & reps & tr & s & t & w1 & E & Hwr & Ht & _ & _ & Hfin & _ & _).
    assert (Hw' : w' = w1).
    { subst w'. unfold run_background, mbind, M_bind. rewrite E. reflexivity. }
    rewrite Hw'. split.
    + destruct (Trace_head _ _ Ht) as (s0 & rest & -> & H0).
      exists s0, (map snd (rest ++ [final_write e t s])).
      split; [|exact H0].
      unfold lifetime. rewrite Hwr. reflexivity.
    + unfold get_workflow_status, mbind, M_bind, get_world. cbn.
      rewrite Hfin. eexists. reflexivity.
Qed.

End Proofs.

(** * The claims at sample inputs *)

Lemma update_progress_unknown_id_witness :
  active_workflows Sample.w0 !! "deadbeef" = None
  /\ _update_workflow_progress Sample.isoformat "deadbeef" "Searching arXiv" 1 5 Sample.w0
     = (Ret tt, Sample.w0).
Proof.
  split; [reflexivity|].
  apply update_progress_unknown_id. reflexivity.
Defined.

Lemma no_papers_completes_witness :
  arxiv_request Sample.O_no_papers (query (Sample.request TREND_ANALYSIS))
               (max_results (Sample.request TREND_ANALYSIS)) = SearchPapers []
  /\ exists w' s,
      Sample.run Sample.O_no_papers TREND_ANALYSIS = (Ret tt, w')
      /\ active_workflows w' !! Sample.workflow_id = Some s
      /\ status s = Completed
      /\ error s = Some no_papers_note
      /\ results s = ∅
      /\ calls w' = calls Sample.w0 ++ [CallSearch "deep learning" 10]
      /\ Forall (fun x => status x <> Failed) (lifetime Sample.workflow_id Sample.w0 w').
Proof.
  split; [reflexivity|].
  apply (no_papers_completes JsonLite.json_loads_lite Sample.py_format Sample.str_exn
           Sample.isoformat Sample.strftime Sample.O_no_papers
           (Sample.request TREND_ANALYSIS) Sample.workflow_id Sample.w0).
  reflexivity.
Defined.

Lemma literature_review_compare_outcomes_witness :
  (automation_type (Sample.request LITERATURE_REVIEW) = LITERATURE_REVIEW
   /\ arxiv_request Sample.O_compare_raises "deep learning" 10
      = SearchPapers [Sample.paper_a; Sample.paper_b]
   /\ ollama_chat Sample.O_compare_raises Summarize "llama3.2:3b"
                  [Sample.paper_a; Sample.paper_b]
      = ChatContent "The papers introduce new architectures."
   /\ ollama_chat Sample.O_compare_raises Compare "llama3.2:3b"
                  [Sample.paper_a; Sample.paper_b]
      = ChatRaise "connection refused"
   /\ exists s,
       active_workflows (Sample.run Sample.O_compare_raises LITERATURE_REVIEW).2
         !! Sample.workflow_id = Some s
       /\ status s = Failed
       /\ error s = Some "500: Comparison failed: connection refused"
       /\ results s = ∅)
  /\ (ollama_chat Sample.O_compare_prose Compare "llama3.2:3b"
                  [Sample.paper_a; Sample.paper_b]
      = ChatContent "The papers differ in scope."
      /\ PyStr.find "["%char "The papers differ in scope." = -1
      /\ exists s,
          active_workflows (Sample.run Sample.O_compare_prose LITERATURE_REVIEW).2
            !! Sample.workflow_id = Some s
          /\ status s = Completed
          /\ error s = None
          /\ results s !! "comparison"
             = Some (VComparison
                       (_create_manual_comparison [Sample.paper_a; Sample.paper_b]
                                                  "The papers differ in scope."))
          /\ results s !! "summary" = Some (VStr "The papers introduce new architectures.")
          /\ results s !! "gap_analysis" = Some (VStr "Efficiency on long inputs is open.")
          /\ is_Some (results s !! "key_findings")
          /\ results s !! "papers" = Some (VPapers [Sample.paper_a; Sample.paper_b]))
  /\ (ollama_chat SampleMore.O_compare_long_number Compare "llama3.2:3b"
                  [Sample.paper_a; Sample.paper_b]
      = ChatContent SampleMore.long_number
      /\ PyStr.find "["%char SampleMore.long_number <> -1
      /\ SampleMore.loads_limited (json_str SampleMore.long_number)
         = LoadsOtherError (SampleMore.limit_message 4301)
      /\ exists s,
          active_workflows
            (execute_automation_workflow SampleMore.loads_limited Sample.py_format
               Sample.str_exn Sample.isoformat Sample.strftime SampleMore.O_compare_long_number
               (Sample.request LITERATURE_REVIEW) Sample.workflow_id Sample.w0).2
            !! Sample.workflow_id = Some s
          /\ status s = Failed
          /\ error s = Some ("500: Comparison failed: " +:+ SampleMore.limit_message 4301)
          /\ results s = ∅).
Proof.
  split; [|split].
  - do 4 (split; [reflexivity|]).
    apply (proj1 (literature_review_compare_outcomes
                    JsonLite.json_loads_lite Sample.py_format Sample.str_exn
                    Sample.isoformat Sample.strftime Sample.O_compare_raises
                    (Sample.request LITERATURE_REVIEW) Sample.workflow_id Sample.w0
                    Sample.paper_a [Sample.paper_b]
                    "The papers introduce new architectures."
                    eq_refl eq_refl eq_refl) "connection refused").
    reflexivity.
  - do 2 (split; [reflexivity|]).
    apply (proj1 (proj2 (literature_review_compare_outcomes
                           JsonLite.json_loads_lite Sample.py_format Sample.str_exn
                           Sample.isoformat Sample.strftime Sample.O_compare_prose
                           (Sample.request LITERATURE_REVIEW) Sample.workflow_id Sample.w0
                           Sample.paper_a [Sample.paper_b]
                           "The papers introduce new architectures."
                           eq_refl eq_refl eq_refl)) "The papers differ in scope.").
    + reflexivity.
    + left. reflexivity.
  - split; [reflexivity|]. split; [vm_compute; discriminate|]. split; [reflexivity|].
    apply (proj2 (proj2 (literature_review_compare_outcomes
                           SampleMore.loads_limited Sample.py_format Sample.str_exn
                           Sample.isoformat Sample.strftime SampleMore.O_compare_long_number
                           (Sample.request LITERATURE_REVIEW) Sample.workflow_id Sample.w0
                           Sample.paper_a [Sample.paper_b]
                           "The papers introduce new architectures."
                           eq_refl eq_refl eq_refl))
             SampleMore.long_number (SampleMore.limit_message 4301)).
    + reflexivity.
    + vm_compute. discriminate.
    + reflexivity.
Defined.

Lemma comparison_parsing_witness :
  (ollama_chat Sample.O_ok Compare "llama3.2:3b" [Sample.paper_a; Sample.paper_b]
   = ChatContent Sample.table_text
   /\ PyStr.find "["%char Sample.table_text <> -1
   /\ JsonLite.json_loads_lite (json_str Sample.table_text)
      = LoadsValue (JList Sample.table_data)
   /\ forallb has_six_fields Sample.table_data = true
   /\ (Sample.compare Sample.O_ok).1
      = Ret {| comparison_table := [Sample.table_row];
               comparison_text := "Comparison generated successfully." |}
   /\ Forall2 same_fields Sample.table_data [Sample.table_row])
  /\ (ollama_chat Sample.O_compare_prose Compare "llama3.2:3b"
                  [Sample.paper_a; Sample.paper_b]
      = ChatContent "The papers differ in scope."
      /\ PyStr.find "["%char "The papers differ in scope." = -1
      /\ (Sample.compare Sample.O_compare_prose).1
         = Ret {| comparison_table := [manual_item Sample.paper_a; manual_item Sample.paper_b];
                  comparison_text := "The papers differ in scope." |})
  /\ (ollama_chat SampleMore.O_compare_long_number Compare "llama3.2:3b"
                  [Sample.paper_a; Sample.paper_b]
      = ChatContent SampleMore.long_number
      /\ PyStr.find "["%char SampleMore.long_number <> -1
      /\ SampleMore.loads_limited (json_str SampleMore.long_number)
         = LoadsOtherError (SampleMore.limit_message 4301)
      /\ (compare_papers_with_ollama SampleMore.loads_limited SampleMore.O_compare_long_number
            [Sample.paper_a; Sample.paper_b] (Some "llama3.2:3b") Sample.w0).1
         = Raise (HTTPException 500 ("Comparison failed: " +:+ SampleMore.limit_message 4301))).
Proof.
  split; [|split].
  - split; [reflexivity|]. split; [vm_compute; discriminate|].
    split; [vm_compute; reflexivity|]. split; [vm_compute; reflexivity|].
    destruct (proj1 (comparison_parsing JsonLite.json_loads_lite Sample.O_ok Sample.paper_a
                       [Sample.paper_b] "llama3.2:3b" Sample.table_text Sample.w0 eq_refl)
                    Sample.table_data) as [Hr Hf].
    + vm_compute. discriminate.
    + vm_compute. reflexivity.
    + split; [exact Hr|]. apply Hf. vm_compute. reflexivity.
  - do 2 (split; [reflexivity|]).
    apply (proj1 (proj2 (comparison_parsing JsonLite.json_loads_lite Sample.O_compare_prose
                           Sample.paper_a [Sample.paper_b] "llama3.2:3b"
                           "The papers differ in scope." Sample.w0 eq_refl))).
    left. reflexivity.
  - split; [reflexivity|]. split; [vm_compute; discriminate|]. split; [reflexivity|].
    apply (proj2 (proj2 (comparison_parsing SampleMore.loads_limited
                           SampleMore.O_compare_long_number Sample.paper_a [Sample.paper_b]
                           "llama3.2:3b" SampleMore.long_number Sample.w0 eq_refl))
             (SampleMore.limit_message 4301)).
    + vm_compute. discriminate.
    + reflexivity.
Defined.

Lemma reported_steps_witness :
  arxiv_request Sample.O_ok "deep learning" 10 = SearchPapers [Sample.paper_a; Sample.paper_b]
  /\ reports Sample.workflow_id Sample.w0 (Sample.run Sample.O_ok LITERATURE_REVIEW).2
     = [step 1 5 "Searching arXiv"; step 2 5 "Generating Summary";
        step 3 5 "Comparing Papers"; step 4 5 "Analyzing Gaps"; step 5 5 "Finalizing"]
  /\ length (steps (AUTOMATION_WORKFLOWS LITERATURE_REVIEW)) = 4%nat.
Proof.
  split; [reflexivity|]. split; [|reflexivity].
  destruct (reported_steps JsonLite.json_loads_lite Sample.py_format Sample.str_exn
              Sample.isoformat Sample.strftime Sample.O_ok
              (Sample.request LITERATURE_REVIEW) Sample.workflow_id Sample.w0)
    as (_ & H & _).
  destruct (active_workflows (Sample.run Sample.O_ok LITERATURE_REVIEW).2
              !! Sample.workflow_id) as [s|] eqn:E; [|vm_compute in E; discriminate].
  apply (H Sample.paper_a [Sample.paper_b] s eq_refl E).
  vm_compute in E. injection E as <-. reflexivity.
Defined.

Lemma start_registers_nothing_witness :
  active_workflows Sample.w0 !! PyStr.prefix Sample.uuid 8 = None
  /\ get_workflow_status (PyStr.prefix Sample.uuid 8) Sample.w0
     = (Raise (HTTPException 404 "Workflow not found"), Sample.w0)
  /\ (execute_endpoint Sample.uuid (Sample.request LITERATURE_REVIEW) Sample.w0).2 = Sample.w0.
Proof.
  destruct (start_registers_nothing JsonLite.json_loads_lite Sample.py_format Sample.str_exn
              Sample.isoformat Sample.strftime Sample.uuid Sample.O_ok
              (Sample.request LITERATURE_REVIEW) Sample.w0)
    as (Hstart & Hquery & _).
  split; [reflexivity|]. split; [apply Hquery; reflexivity|].
  rewrite Hstart. reflexivity.
Defined.

Lemma save_failure_only_logged_witness :
  arxiv_request Sample.O_ok "deep learning" 10 = SearchPapers [Sample.paper_a; Sample.paper_b]
  /\ (forall w1, exists res,
         (selected_routine JsonLite.json_loads_lite Sample.py_format Sample.isoformat
                           Sample.O_ok Sample.workflow_id [Sample.paper_a; Sample.paper_b]
                           (Sample.request TREND_ANALYSIS) w1).1 = Ret res)
  /\ exists s,
      active_workflows (Sample.run (with_write_json Sample.disk_full Sample.O_ok)
                                   TREND_ANALYSIS).2 !! Sample.workflow_id = Some s
      /\ status s = Completed
      /\ error s = None
      /\ is_Some (results s !! "trend_analysis")
      /\ (exists t,
             last (calls (Sample.run (with_write_json Sample.disk_full Sample.O_ok)
                                     TREND_ANALYSIS).2)
             = Some (CallWrite ("workflows/deep_learning_" +:+ Sample.strftime t
                                +:+ "_3f2a9c1e.json")))
      /\ logged (Sample.run (with_write_json Sample.disk_full Sample.O_ok) TREND_ANALYSIS).2
         = [(ERROR, "Error saving workflow results: [Errno 28] No space left on device")].
Proof.
  assert (Hsteps : forall w1, exists res,
               (selected_routine JsonLite.json_loads_lite Sample.py_format Sample.isoformat
                                 Sample.O_ok Sample.workflow_id [Sample.paper_a; Sample.paper_b]
                                 (Sample.request TREND_ANALYSIS) w1).1 = Ret res).
  { intros w1. apply trend_analysis_returns. }
  split; [reflexivity|]. split; [exact Hsteps|].
  destruct (save_failure_only_logged JsonLite.json_loads_lite Sample.py_format Sample.str_exn
              Sample.isoformat Sample.strftime Sample.O_ok Sample.disk_full
              (Sample.request TREND_ANALYSIS) Sample.workflow_id Sample.w0)
    as (_ & _ & H).
  destruct (H Sample.paper_a [Sample.paper_b] eq_refl Hsteps) as (s & w1 & t & Hall).
  cbv zeta in Hall. destruct Hall as (Hs & Hst & He & _ & Hcall & Hlog).
  exists s. split; [exact Hs|]. split; [exact Hst|]. split; [exact He|].
  split; [|split].
  - vm_compute in Hs. injection Hs as <-. vm_compute. eexists. reflexivity.
  - exists t. exact Hcall.
  - unfold Sample.run. rewrite Hlog. unfold Sample.disk_full. vm_compute. reflexivity.
Defined.

(** * Where the specification and the code part *)

(** C1 fails as stated: after the start operation at the sample request,
    the status query for the returned id is answered NotFound. *)
Lemma start_then_status_not_found :
  (get_workflow_status Sample.workflow_id
     (execute_endpoint Sample.uuid (Sample.request LITERATURE_REVIEW) Sample.w0).2).1
  = Raise (HTTPException 404 "Workflow not found")
  /\ ~ visible_after_start Sample.uuid (Sample.request LITERATURE_REVIEW) Sample.w0.
Proof.
  split; [reflexivity|].
  intros (ws & H & _). vm_compute in H. discriminate.
Qed.

(** C2 fails as stated: with an Ollama that raises on the compare prompt
    only, the literature review ends Failed, without results. *)
Lemma compare_failure_fails_workflow :
  (status <$> active_workflows (Sample.run Sample.O_compare_raises LITERATURE_REVIEW).2
            !! Sample.workflow_id) = Some Failed
  /\ ~ completed_with_comparison Sample.workflow_id
         (Sample.run Sample.O_compare_raises LITERATURE_REVIEW).2.
Proof.
  split; [vm_compute; reflexivity|].
  intros (s & Hs & Hst & _). vm_compute in Hs. injection Hs as <-. discriminate.
Qed.

(** C4 fails as stated: a search without papers leaves the entry
    Completed with the error field set. *)
Lemma completed_with_error_set :
  (active_workflows (Sample.run Sample.O_no_papers LITERATURE_REVIEW).2 !! Sample.workflow_id
   ≫= fun s => Some (status s, error s))
  = Some (Completed, Some "No papers found for the given query")
  /\ ~ Forall error_only_when_failed
         (lifetime Sample.workflow_id Sample.w0
                   (Sample.run Sample.O_no_papers LITERATURE_REVIEW).2).
Proof.
  split; [vm_compute; reflexivity|].
  intros H. rewrite Forall_forall in H.
  assert (Hin : exists s, s ∈ lifetime Sample.workflow_id Sample.w0
                                (Sample.run Sample.O_no_papers LITERATURE_REVIEW).2
                          /\ status s = Completed /\ is_Some (error s)).
  { eexists. split; [|split].
    - apply list_elem_of_lookup. exists 3%nat. vm_compute. reflexivity.
    - reflexivity.
    - eexists. reflexivity. }
  destruct Hin as (s & Hs & Hst & He).
  specialize (H s Hs He). congruence.
Qed.

(** C5 fails as stated: a literature review reports 5 steps, each as one
    of 5, where the registry lists 4. *)
Lemma literature_review_reports_differ :
  map total_steps (reports Sample.workflow_id Sample.w0
                           (Sample.run Sample.O_ok LITERATURE_REVIEW).2)
  = [5; 5; 5; 5; 5]
  /\ length (steps (AUTOMATION_WORKFLOWS LITERATURE_REVIEW)) = 4%nat
  /\ ~ registry_consistent LITERATURE_REVIEW
         (reports Sample.workflow_id Sample.w0 (Sample.run Sample.O_ok LITERATURE_REVIEW).2).
Proof.
  split; [vm_compute; reflexivity|]. split; [reflexivity|].
  intros [H _]. vm_compute in H. discriminate.
Qed.

(** C8 fails as stated: the answer ["[1]"] holds no array of six-field
    records, yet the table is empty, not one placeholder row per paper,
    and the answer is not kept as the comparison text. *)
Lemma numbers_array_gives_empty_table :
  (Sample.compare Sample.O_compare_numbers).1
  = Ret {| comparison_table := [];
           comparison_text := "Comparison generated successfully." |}
  /\ ~ (~ parses_to_records JsonLite.json_loads_lite "[1]" ->
        (Sample.compare Sample.O_compare_numbers).1
        = Ret (_create_manual_comparison [Sample.paper_a; Sample.paper_b] "[1]")).
Proof.
  split; [vm_compute; reflexivity|].
  intros H.
  assert (Hno : ~ parses_to_records JsonLite.json_loads_lite "[1]").
  { intros (data & Hd & Hf). vm_compute in Hd. injection Hd as <-. discriminate. }
  specialize (H Hno). vm_compute in H. discriminate.
Qed.

(** * Further properties of the code *)

(** ** What a run may touch *)

Lemma grows_refl wid P w : grows wid P w w.
Proof.
  repeat split; try reflexivity.
  - exists []. split; [symmetry; apply app_nil_r|constructor].
  - exists []. split; [symmetry; apply app_nil_r|constructor].
Qed.

Lemma grows_trans wid P w1 w2 w3 :
  grows wid P w1 w2 -> grows wid P w2 w3 -> grows wid P w1 w3.
Proof.
  intros (Ha & Hm & Hc & Hl & (cs & Hcs & HP) & (ws & Hws & Hk))
         (Ha' & Hm' & Hc' & Hl' & (cs' & Hcs' & HP') & (ws' & Hws' & Hk')).
  split; [intros k Hne; rewrite Ha', Ha; auto|].
  split; [congruence|]. split; [lia|].
  split; [etransitivity; eassumption|].
  split.
  - exists (cs ++ cs'). split; [rewrite Hcs', Hcs, app_assoc; reflexivity|].
    apply Forall_app; auto.
  - exists (ws ++ ws'). split; [rewrite Hws', Hws, app_assoc; reflexivity|].
    apply Forall_app; auto.
Qed.

Lemma confined_ret wid P {A} (a : A) : confined wid P (mret a).
Proof. intros w. apply grows_refl. Qed.

Lemma confined_throw wid P {A} (e : Exn) : confined wid P (@mthrow Exn M _ A e).
Proof. intros w. apply grows_refl. Qed.

Lemma confined_bind wid P {A B} (m : M A) (f : A -> M B) :
  confined wid P m -> (forall a, confined wid P (f a)) -> confined wid P (m ≫= f).
Proof.
  intros Hm Hf w. unfold mbind, M_bind. specialize (Hm w).
  destruct (m w) as [[a|e] w1]; cbn in *; [|exact Hm].
  eapply grows_trans; [exact Hm|apply Hf].
Qed.

Lemma confined_try wid P {A} (body : M A) (handler : Exn -> M A) :
  confined wid P body -> (forall e, confined wid P (handler e)) ->
  confined wid P (try_except body handler).
Proof.
  intros Hm Hf w. unfold try_except. specialize (Hm w).
  destruct (body w) as [[a|e] w1]; cbn in *; [exact Hm|].
  eapply grows_trans; [exact Hm|apply Hf].
Qed.

Lemma confined_get_world wid P : confined wid P get_world.
Proof. intros w. apply grows_refl. Qed.

Lemma confined_entry wid P k : confined wid P (entry k).
Proof. intros w. unfold entry. destruct (_ !! _); apply grows_refl. Qed.

Lemma confined_now wid P : confined wid P datetime_now.
Proof.
  intros w. repeat split; try reflexivity; cbn; try lia.
  - exists []. split; [symmetry; apply app_nil_r|constructor].
  - exists []. split; [symmetry; apply app_nil_r|constructor].
Qed.

Lemma confined_log wid P lvl msg : confined wid P (log lvl msg).
Proof.
  intros w. repeat split; try reflexivity; cbn.
  - eexists. reflexivity.
  - exists []. split; [symmetry; apply app_nil_r|constructor].
  - exists []. split; [symmetry; apply app_nil_r|constructor].
Qed.

Lemma confined_record_call wid (P : Call -> Prop) c : P c -> confined wid P (record_call c).
Proof.
  intros Hc w. repeat split; try reflexivity; cbn.
  - exists [c]. split; [reflexivity|]. constructor; [exact Hc|constructor].
  - exists []. split; [symmetry; apply app_nil_r|constructor].
Qed.

Lemma confined_store wid P how s : confined wid P (store wid how s).
Proof.
  intros w. repeat split; try reflexivity; cbn.
  - intros k Hne. apply lookup_insert_ne. congruence.
  - exists []. split; [symmetry; apply app_nil_r|constructor].
  - eexists. split; [reflexivity|]. constructor; [reflexivity|constructor].
Qed.

Section Coverage.

Variable json_loads : string -> loads_result.
Variable py_format : json -> string.
Variable str_exn : Exn -> string.
Variable isoformat : nat -> string.
Variable strftime : nat -> string.

Ltac confined_step :=
  first
    [ progress cbv beta iota zeta
    | apply confined_ret | apply confined_throw | apply confined_get_world
    | apply confined_entry | apply confined_now | apply confined_log
    | apply confined_store
    | apply confined_record_call; cbn; solve [auto]
    | match goal with
      | |- confined ?wid ?P (mret ?a ≫= ?f) => change (confined wid P (f a))
      end
    | apply confined_bind; [|intros ?]
    | apply confined_try; [|intros ?]
    | match goal with
      | |- confined _ _ (match ?x with _ => _ end) => destruct x
      end ].

Lemma chat_confined wid (P : Call -> Prop) O t mdl papers :
  P (CallChat t mdl) -> confined wid P (chat O t mdl papers).
Proof. intros HP. unfold chat. repeat confined_step. Qed.

Lemma summarize_confined wid (P : Call -> Prop) O papers mdl :
  P (CallChat Summarize mdl) -> confined wid P (summarize_with_ollama O papers (Some mdl)).
Proof.
  intros HP. unfold summarize_with_ollama, resolve_model.
  destruct papers; repeat first [apply chat_confined; assumption | confined_step].
Qed.

Lemma compare_confined wid (P : Call -> Prop) O papers mdl :
  P (CallChat Compare mdl) ->
  confined wid P (compare_papers_with_ollama json_loads O papers (Some mdl)).
Proof.
  intros HP. unfold compare_papers_with_ollama, parse_comparison, resolve_model.
  destruct papers; repeat first [apply chat_confined; assumption | confined_step].
Qed.

Lemma gaps_confined wid (P : Call -> Prop) O papers mdl :
  P (CallChat GapAnalysis mdl) -> confined wid P (analyze_research_gaps O papers (Some mdl)).
Proof.
  intros HP. unfold analyze_research_gaps, resolve_model.
  destruct papers; repeat first [apply chat_confined; assumption | confined_step].
Qed.

Lemma trends_confined wid (P : Call -> Prop) O papers mdl :
  P (CallChat TrendAnalysis mdl) -> confined wid P (analyze_trends O papers (Some mdl)).
Proof.
  intros HP. unfold analyze_trends, resolve_model.
  destruct papers; repeat first [apply chat_confined; assumption | confined_step].
Qed.

Lemma custom_confined wid (P : Call -> Prop) O papers instructions mdl :
  P (CallChat (Custom instructions) mdl) ->
  confined wid P (_perform_custom_analysis O papers instructions mdl).
Proof.
  intros HP. unfold _perform_custom_analysis.
  repeat first [apply chat_confined; assumption | confined_step].
Qed.

Lemma progress_confined wid P nm c t :
  confined wid P (_update_workflow_progress isoformat wid nm c t).
Proof. unfold _update_workflow_progress. repeat confined_step. Qed.

Lemma save_confined wid (P : Call -> Prop) O q res :
  (forall f, P (CallWrite f)) -> confined wid P (_save_workflow_results strftime O wid q res).
Proof.
  intros HP. unfold _save_workflow_results.
  repeat first [apply confined_record_call; apply HP | confined_step].
Qed.

Ltac confined_request :=
  repeat first
    [ apply progress_confined
    | apply summarize_confined; reflexivity
    | apply compare_confined; reflexivity
    | apply gaps_confined; reflexivity
    | apply trends_confined; reflexivity
    | apply custom_confined; reflexivity
    | apply save_confined; intros ?; exact I
    | confined_step ].

Lemma run_confined O request wid :
  confined wid (call_of_request request)
           (execute_automation_workflow json_loads py_format str_exn isoformat strftime
                                        O request wid).
Proof.
  unfold execute_automation_workflow, workflow_body, workflow_handler,
    _execute_literature_review, _execute_gap_analysis, _execute_methodology_comparison,
    _execute_trend_analysis, _execute_custom_workflow.
  confined_request.
Qed.


(** X1. A run writes to no entry of [active_workflows] but its own,
    leaves the current model alone, and only adds to the log; every
    write it makes is to its own id. *)
Theorem run_touches_only_its_entry O request wid w :
  let w' := (execute_automation_workflow json_loads py_format str_exn isoformat strftime
                                         O request wid w).2 in
  (forall k, k <> wid -> active_workflows w' !! k = active_workflows w !! k)
  /\ current_model w' = current_model w
  /\ logged w `prefix_of` logged w'
  /\ (exists ws, writes w' = writes w ++ ws /\ Forall (fun x => x.1.1 = wid) ws).
Proof.
  destruct (run_confined O request wid w) as (Ha & Hm & _ & Hl & _ & Hw).
  cbn. auto.
Qed.

(** X2. Every external call a run makes is the one its request asks
    for: the search with the request's query and limit, the model under
    the request's model name, whatever [current_model] is. *)
Theorem run_calls_follow_request O request wid w :
  let w' := (execute_automation_workflow json_loads py_format str_exn isoformat strftime
                                         O request wid w).2 in
  exists cs, calls w' = calls w ++ cs /\ Forall (call_of_request request) cs.
Proof.
  destruct (run_confined O request wid w) as (_ & _ & _ & _ & Hc & _).
  exact Hc.
Qed.

Lemma run_makes_terminal O request wid w :
  terminal_at wid (execute_automation_workflow json_loads py_format str_exn isoformat
                                               strftime O request wid w).2.
Proof.
  destruct (run_lifetime json_loads py_format str_exn isoformat strftime O request wid w)
    as (e & reps & tr & s & t & w' & E & _ & _ & _ & _ & Hfin & _ & _).
  rewrite E. eexists. split; [exact Hfin|]. destruct e; discriminate.
Qed.

Lemma run_keeps_terminal O request wid id w :
  terminal_at id w ->
  terminal_at id (execute_automation_workflow json_loads py_format str_exn isoformat
                                              strftime O request wid w).2.
Proof.
  intros (s & Hs & Hst).
  destruct (decide (id = wid)) as [->|Hne]; [apply run_makes_terminal|].
  destruct (run_confined O request wid w) as (Ha & _).
  exists s. split; [|exact Hst]. rewrite Ha; assumption.
Qed.

Lemma run_returns O request wid w :
  (execute_automation_workflow json_loads py_format str_exn isoformat strftime
                               O request wid w).1 = Ret tt.
Proof.
  destruct (run_lifetime json_loads py_format str_exn isoformat strftime O request wid w)
    as (e & reps & tr & s & t & w' & E & _).
  rewrite E. reflexivity.
Qed.

Lemma background_spec O tasks :
  forall w,
    (run_background json_loads py_format str_exn isoformat strftime O tasks w).1 = Ret tt
    /\ (forall id, terminal_at id w ->
                   terminal_at id (run_background json_loads py_format str_exn isoformat
                                                  strftime O tasks w).2)
    /\ (forall request id,
           (request, id) ∈ tasks ->
           terminal_at id (run_background json_loads py_format str_exn isoformat
                                          strftime O tasks w).2).
Proof.
  induction tasks as [|[request wid] tasks IH]; intros w.
  - cbn. split; [reflexivity|]. split; [auto|]. intros request id H. inversion H.
  - cbn [run_background]. unfold mbind, M_bind.
    pose proof (run_returns O request wid w) as Hr.
    pose proof (run_makes_terminal O request wid w) as Hmk.
    pose proof (fun id => run_keeps_terminal O request wid id w) as Hkp.
    destruct (execute_automation_workflow _ _ _ _ _ O request wid w) as [r w1].
    cbn in Hr, Hmk, Hkp. subst r.
    destruct (IH w1) as (IH1 & IH2 & IH3).
    split; [exact IH1|]. split; [intros id H; apply IH2, Hkp, H|].
    intros request' id Hin. apply elem_of_cons in Hin as [[= -> ->]|Hin].
    + apply IH2, Hmk.
    + eapply IH3, Hin.
Qed.

(** X3. Running the background tasks of any list never raises, and
    afterwards the status query for the id of each of them finds its
    entry, with status ["completed"] or ["failed"], never ["running"]. *)
Theorem background_tasks_all_terminate O tasks w request wid :
  (request, wid) ∈ tasks ->
  let r := run_background json_loads py_format str_exn isoformat strftime O tasks w in
  r.1 = Ret tt
  /\ exists ws,
      get_workflow_status wid r.2 = (Ret ws, r.2)
      /\ ws_workflow_id ws = wid
      /\ (ws_status ws = "completed" \/ ws_status ws = "failed").
Proof.
  intros Hin r. subst r.
  destruct (background_spec O tasks w) as (Hr & _ & Hterm).
  split; [exact Hr|].
  destruct (Hterm request wid Hin) as (s & Hs & Hst).
  unfold get_workflow_status, mbind, M_bind, get_world. cbn. rewrite Hs.
  eexists. split; [reflexivity|]. split; [reflexivity|]. cbn.
  destruct (status s); [congruence|left|right]; reflexivity.
Qed.

Ltac unfold_head :=
  unfold execute_automation_workflow, try_except, workflow_body, workflow_handler,
    _update_workflow_progress,
    mbind, M_bind, mret, M_ret, mthrow, M_throw,
    get_world, entry, store, log, record_call, datetime_now.

Ltac reduce_head :=
  repeat (rewrite ?lookup_insert_eq;
          cbn -[insert lookup singletonM empty String.append]).

(** X4. When the search fails, the run ends with its entry Failed, the
    text of the exception as its error and no results, and the search is
    the only external call made. A timeout is raised with status 408
    and logged once, by the run; every other failure is raised with
    status 500 and logged twice, by the search and then by the run. *)
Theorem retrieval_failure_fails O request wid w e records :
  match arxiv_request O (query request) (max_results request) with
  | SearchTimeout =>
      e = HTTPException 408 "arXiv API request timed out" /\ records = []
  | SearchRaise msg =>
      e = HTTPException 500 ("arXiv search failed: " +:+ msg)
      /\ records = [(ERROR, "arXiv search error: " +:+ msg)]
  | SearchPapers _ => False
  end ->
  exists w' s,
    execute_automation_workflow json_loads py_format str_exn isoformat strftime
                                O request wid w = (Ret tt, w')
    /\ active_workflows w' !! wid = Some s
    /\ status s = Failed
    /\ error s = Some (str_exn e)
    /\ results s = ∅
    /\ calls w' = calls w ++ [CallSearch (query request) (max_results request)]
    /\ logged w'
       = logged w ++ records ++ [(ERROR, "Workflow execution error: " +:+ str_exn e)].
Proof.
  intros Hsearch. unfold_head. unfold search_arxiv, mbind, M_bind, record_call, log,
    mthrow, M_throw. reduce_head.
  destruct (arxiv_request O (query request) (max_results request)) as [|msg|papers];
    [destruct Hsearch as [-> ->]|destruct Hsearch as [-> ->]|contradiction];
    reduce_head; eexists _, _; (split; [reflexivity|]); cbn [active_workflows calls logged];
    rewrite lookup_insert_eq, <- ?app_assoc; repeat split; reflexivity.
Qed.

(** X5. For an id that is in [active_workflows], the progress update
    replaces the progress of its entry by the given step, total and
    name and stamps [updated_at] with one reading of the clock; status,
    results, error and [created_at] of the entry, and every other entry,
    stay as they were. *)
Theorem update_progress_known_id wid nm current total w s :
  active_workflows w !! wid = Some s ->
  exists w',
    _update_workflow_progress isoformat wid nm current total w = (Ret tt, w')
    /\ active_workflows w'
       = <[wid := {| status := status s;
                     progress := {| current_step := current; total_steps := total;
                                    step_name := nm |};
                     results := results s; error := error s;
                     created_at := created_at s;
                     updated_at := isoformat (clock w) |}]> (active_workflows w)
    /\ clock w' = S (clock w)
    /\ logged w' = logged w /\ calls w' = calls w.
Proof.
  intros Hs. unfold _update_workflow_progress, mbind, M_bind, get_world, entry, store,
    datetime_now.
  repeat (rewrite ?Hs, ?lookup_insert_eq; cbn).
  eexists. split; [reflexivity|]. cbn. rewrite insert_insert_eq. auto.
Qed.


(** ** Results *)

Ltac shape_step :=
  match goal with
  | |- context [_update_workflow_progress ?iso ?wid ?nm ?c ?t ?w] =>
      let E := fresh "E" in
      destruct (progress_returns iso wid nm c t w) as [? E]; rewrite E; clear E;
      cbv iota beta
  | |- context [summarize_with_ollama ?O ?p ?m ?w] =>
      destruct (summarize_with_ollama O p m w) as [[?|?] ?]; cbv iota beta;
      [|cbn; intros ?; discriminate]
  | |- context [compare_papers_with_ollama ?jl ?O ?p ?m ?w] =>
      destruct (compare_papers_with_ollama jl O p m w) as [[?|?] ?]; cbv iota beta;
      [|cbn; intros ?; discriminate]
  | |- context [analyze_research_gaps ?O ?p ?m ?w] =>
      let E := fresh "E" in
      destruct (gaps_spec O p m w) as (? & ? & E & _); rewrite E; clear E; cbv iota beta
  | |- context [analyze_trends ?O ?p ?m ?w] =>
      let E := fresh "E" in
      destruct (trends_spec O p m w) as (? & ? & E & _); rewrite E; clear E; cbv iota beta
  | |- context [_perform_custom_analysis ?O ?p ?i ?m ?w] =>
      let E := fresh "E" in
      destruct (custom_spec O p i m w) as (? & ? & E & _); rewrite E; clear E;
      cbv iota beta
  end.

Ltac lookup_base :=
  unfold first_results;
  repeat first [ rewrite lookup_insert_eq
               | rewrite lookup_singleton_eq
               | rewrite lookup_insert_ne by discriminate ].

(** What a step sequence returns, when it returns: the three keys that
    the run put first, and the keys of its own steps. *)
Lemma routine_result O wid papers request w1 res :
  (selected_routine json_loads py_format isoformat O wid papers request w1).1 = Ret res ->
  dom res = result_keys request
  /\ res !! "papers_found" = Some (VInt (Z.of_nat (length papers)))
  /\ res !! "papers" = Some (VPapers papers)
  /\ res !! "workflow_type" = Some (VStr (AutomationType_value (automation_type request))).
Proof.
  unfold selected_routine, result_keys, has_instructions, first_results.
  destruct (automation_type request);
    unfold _execute_literature_review, _execute_gap_analysis,
      _execute_methodology_comparison, _execute_trend_analysis, _execute_custom_workflow,
      mbind, M_bind, mret, M_ret;
    try (destruct (custom_instructions request) as [ins|]; [destruct (PyStr.truthy ins)|]);
    repeat shape_step;
    cbn [fst]; intros [= <-];
    (split; [unfold first_results; rewrite ?dom_insert_L, dom_singleton_L; set_solver|]);
    repeat split; lookup_base; reflexivity.
Qed.

(** X6. A workflow that ends Failed carries no results: what its steps
    had computed before the exception is not stored in the entry. *)
Theorem failed_has_no_results O request wid w s :
  let w' := (execute_automation_workflow json_loads py_format str_exn isoformat strftime
                                         O request wid w).2 in
  active_workflows w' !! wid = Some s ->
  status s = Failed ->
  results s = ∅.
Proof.
  destruct (run_lifetime json_loads py_format str_exn isoformat strftime O request wid w)
    as (e & reps & tr & s0 & t & w' & E & _ & _ & _ & Hrun & Hfin & _ & _).
  rewrite E. cbn. intros Hs Hst. rewrite Hfin in Hs. injection Hs as <-.
  destruct Hrun as (_ & _ & Hres & _).
  destruct e; cbn in *; try discriminate. exact Hres.
Qed.

(** X7. When the entry of a run ends with results, the run completed
    after a search that found papers, and the results have exactly the
    keys of the request's workflow type: the paper count, the papers and
    the type, and one key per step of the type's routine. *)
Theorem results_keys_by_type O request wid w s :
  let w' := (execute_automation_workflow json_loads py_format str_exn isoformat strftime
                                         O request wid w).2 in
  active_workflows w' !! wid = Some s ->
  results s <> ∅ ->
  status s = Completed
  /\ error s = None
  /\ dom (results s) = result_keys request
  /\ exists p ps,
      arxiv_request O (query request) (max_results request) = SearchPapers (p :: ps)
      /\ results s !! "papers" = Some (VPapers (p :: ps))
      /\ results s !! "papers_found" = Some (VInt (Z.of_nat (length (p :: ps)))).
Proof.
  destruct (run_lifetime json_loads py_format str_exn isoformat strftime O request wid w)
    as (e & reps & tr & s0 & t & w' & E & _ & _ & _ & Hrun & Hfin & Hpost & Hend).
  rewrite E. cbn. intros Hs Hne. rewrite Hfin in Hs. injection Hs as <-.
  destruct Hrun as (_ & Herr & Hres & _).
  destruct e as [|res|err]; cbn in *; try (rewrite Hres in Hne; congruence).
  destruct Hpost as (_ & _ & p & ps & Hsearch).
  unfold run_ending in Hend. rewrite Hsearch in Hend. destruct Hend as [w1 Hend].
  destruct (selected_routine _ _ _ _ _ _ _ _).1 as [res'|exn] eqn:Hsel; [|discriminate].
  injection Hend as ->.
  destruct (routine_result O wid (p :: ps) request w1 res' Hsel) as (Hdom & Hn & Hp & _).
  split; [reflexivity|]. split; [exact Herr|]. split; [exact Hdom|].
  exists p, ps. auto.
Qed.

(** ** When a run completes *)

(** The compare prompt is answered, and decoding the bracketed part of
    the answer raises nothing but a decode error. *)
Lemma compare_returns O p ps mdl w :
  (exists answer,
      ollama_chat O Compare mdl (p :: ps) = ChatContent answer
      /\ forall msg, json_loads (json_str answer) <> LoadsOtherError msg) ->
  exists c w', compare_papers_with_ollama json_loads O (p :: ps) (Some mdl) w = (Ret c, w').
Proof.
  intros (answer & H & Hj). unfold compare_papers_with_ollama, parse_comparison, chat,
    resolve_model, mbind, M_bind, mret, M_ret, mthrow, M_throw, record_call, log.
  cbn. rewrite H.
  destruct (negb _ && negb _); [|eauto].
  fold (json_str answer).
  destruct (json_loads (json_str answer)) as [[]|m|m]; cbn; eauto.
  exfalso. exact (Hj m eq_refl).
Qed.

Lemma summarize_returns O p ps mdl w :
  answered (ollama_chat O Summarize mdl (p :: ps)) ->
  exists text w', summarize_with_ollama O (p :: ps) (Some mdl) w = (Ret text, w').
Proof.
  intros [text H]. exists text. apply summarize_content. exact H.
Qed.

Ltac returns_step Hs Hc :=
  match goal with
  | |- context [_update_workflow_progress ?iso ?wid ?nm ?c ?t ?w] =>
      let E := fresh "E" in
      destruct (progress_returns iso wid nm c t w) as [? E]; rewrite E; clear E;
      cbv iota beta
  | |- context [summarize_with_ollama ?O (?p :: ?ps) (Some ?m) ?w] =>
      let E := fresh "E" in
      destruct (summarize_returns O p ps m w Hs) as (? & ? & E); rewrite E; clear E;
      cbv iota beta
  | |- context [compare_papers_with_ollama ?jl ?O (?p :: ?ps) (Some ?m) ?w] =>
      let E := fresh "E" in
      destruct (compare_returns O p ps m w Hc) as (? & ? & E); rewrite E; clear E;
      cbv iota beta
  | |- context [analyze_research_gaps ?O ?p ?m ?w] =>
      let E := fresh "E" in
      destruct (gaps_spec O p m w) as (? & ? & E & _); rewrite E; clear E; cbv iota beta
  | |- context [analyze_trends ?O ?p ?m ?w] =>
      let E := fresh "E" in
      destruct (trends_spec O p m w) as (? & ? & E & _); rewrite E; clear E; cbv iota beta
  | |- context [_perform_custom_analysis ?O ?p ?i ?m ?w] =>
      let E := fresh "E" in
      destruct (custom_spec O p i m w) as (? & ? & E & _); rewrite E; clear E;
      cbv iota beta
  end.

Lemma routine_returns O wid p ps request w1 :
  (automation_type request = LITERATURE_REVIEW ->
   answered (ollama_chat O Summarize (model request) (p :: ps))) ->
  (automation_type request = LITERATURE_REVIEW
   \/ automation_type request = RESEARCH_GAP_ANALYSIS
   \/ automation_type request = METHODOLOGY_COMPARISON ->
   exists answer,
     ollama_chat O Compare (model request) (p :: ps) = ChatContent answer
     /\ forall msg, json_loads (json_str answer) <> LoadsOtherError msg) ->
  exists res,
    (selected_routine json_loads py_format isoformat O wid (p :: ps) request w1).1 = Ret res.
Proof.
  intros Hs Hc. unfold selected_routine.
  destruct (automation_type request);
    unfold _execute_literature_review, _execute_gap_analysis,
      _execute_methodology_comparison, _execute_trend_analysis, _execute_custom_workflow,
      mbind, M_bind, mret, M_ret;
    try (destruct (custom_instructions request) as [ins|]; [destruct (PyStr.truthy ins)|]);
    try (specialize (Hs eq_refl));
    try (assert (Hc' := Hc (or_introl eq_refl)));
    try (assert (Hc' := Hc (or_intror (or_introl eq_refl))));
    try (assert (Hc' := Hc (or_intror (or_intror eq_refl))));
    repeat first [returns_step Hs Hc' | returns_step Hs Hs];
    eexists; reflexivity.
Qed.

(** X8. A run ends Completed whenever the search returns and the model
    answers the prompts that have no fallback: the summary prompt of a
    literature review, and the compare prompt of a literature review, a
    gap analysis or a methodology comparison, where decoding the
    bracketed part of that answer raises nothing but a decode error. A
    trend analysis and a custom workflow complete whatever the model
    does. *)
Theorem completes_when_model_answers O request wid w papers :
  arxiv_request O (query request) (max_results request) = SearchPapers papers ->
  (automation_type request = LITERATURE_REVIEW ->
   answered (ollama_chat O Summarize (model request) papers)) ->
  (automation_type request = LITERATURE_REVIEW
   \/ automation_type request = RESEARCH_GAP_ANALYSIS
   \/ automation_type request = METHODOLOGY_COMPARISON ->
   exists answer,
     ollama_chat O Compare (model request) papers = ChatContent answer
     /\ forall msg, json_loads (json_str answer) <> LoadsOtherError msg) ->
  exists s,
    active_workflows
      (execute_automation_workflow json_loads py_format str_exn isoformat strftime
                                   O request wid w).2 !! wid = Some s
    /\ status s = Completed.
Proof.
  intros Hsearch Hs Hc.
  destruct (run_lifetime json_loads py_format str_exn isoformat strftime O request wid w)
    as (e & reps & tr & s0 & t & w' & E & _ & _ & _ & _ & Hfin & _ & Hend).
  rewrite E. cbn. eexists. split; [exact Hfin|].
  unfold run_ending in Hend. rewrite Hsearch in Hend.
  destruct papers as [|p ps]; [subst e; reflexivity|].
  destruct Hend as [w1 ->].
  destruct (routine_returns O wid p ps request w1 Hs Hc) as [res ->]. reflexivity.
Qed.

(** ** Timestamps *)

(** The first write of a run creates the entry, stamped with the first
    two readings of the clock. *)
Lemma run_first_write O request wid w :
  exists rest,
    since w (execute_automation_workflow json_loads py_format str_exn isoformat strftime
                                         O request wid w).2
    = (wid, NewEntry,
       {| status := Running; progress := initial_progress; results := ∅; error := None;
          created_at := isoformat (clock w); updated_at := isoformat (S (clock w)) |})
        :: rest.
Proof.
  unfold execute_automation_workflow, workflow_body.
  erewrite try_bind_ret by reflexivity. cbv beta.
  erewrite try_bind_ret by reflexivity. cbv beta.
  erewrite try_bind_ret by reflexivity. cbv beta.
  match goal with
  | |- context [try_except ?b ?h ?w0] =>
      assert (H : confined wid (call_of_request request) (try_except b h))
        by (unfold workflow_handler, _execute_literature_review, _execute_gap_analysis,
              _execute_methodology_comparison, _execute_trend_analysis,
              _execute_custom_workflow; confined_request);
      destruct (H w0) as (_ & _ & _ & _ & _ & (ws & Hws & _));
      clear H; destruct (try_except b h w0) as [r w']
  end.
  cbn [snd writes] in *. unfold since. rewrite Hws.
  rewrite <- app_assoc, drop_app_length. eexists. reflexivity.
Qed.

Lemma Trace_created reps tr :
  Trace reps tr ->
  forall a s0 rest, tr = (a, s0) :: rest ->
                    Forall (fun x => created_at x.2 = created_at s0) tr.
Proof.
  induction 1 as [s|reps tr s p t Ht IH Hl Hp]; intros a s0 rest Heq.
  - injection Heq as -> <- <-. repeat constructor.
  - destruct tr as [|[a' s'] tr']; [discriminate Hl|].
    injection Heq as -> -> <-.
    specialize (IH _ _ _ eq_refl).
    apply Forall_app. split; [exact IH|].
    assert (Hs : created_at s = created_at s0).
    { rewrite Forall_forall in IH.
      destruct (last ((a, s0) :: tr')) as [[a'' s'']|] eqn:E; [|discriminate].
      injection Hl as <-. apply last_Some in E as [l' E].
      apply (IH (a'', s'')). rewrite E. apply elem_of_app. right.
      apply list_elem_of_singleton. reflexivity. }
    repeat constructor; exact Hs.
Qed.

(** X17. The entry of a run is stamped once: every state the run gives
    to it has the same [created_at], the first reading of the clock. *)
Theorem created_at_is_fixed O request wid w :
  let w' := (execute_automation_workflow json_loads py_format str_exn isoformat strftime
                                         O request wid w).2 in
  Forall (fun s => created_at s = isoformat (clock w)) (lifetime wid w w').
Proof.
  destruct (run_first_write O request wid w) as [rest Hfirst].
  destruct (run_lifetime json_loads py_format str_exn isoformat strftime O request wid w)
    as (e & reps & tr & s & t & w' & E & Hwr & Ht & Hs & _).
  rewrite E in *. cbn [snd] in *. unfold lifetime. rewrite Hwr.
  rewrite Hfirst in Hwr. cbn [written] in Hwr. rewrite String.eqb_refl in Hwr.
  destruct tr as [|[a s0] tr']; [discriminate Hs|].
  cbn [app] in Hwr. injection Hwr as <- <- Hrest.
  pose proof (Trace_created _ _ Ht _ _ _ eq_refl) as Hc. cbn [created_at] in Hc.
  rewrite map_app. apply Forall_app. split.
  - apply Forall_map. exact Hc.
  - cbn [map]. constructor; [|constructor].
    assert (Hlast : created_at s = isoformat (clock w)).
    { rewrite Forall_forall in Hc.
      destruct (last ((NewEntry, _) :: tr')) as [[a'' s'']|] eqn:El; [|discriminate].
      injection Hs as <-. apply last_Some in El as [l' El].
      apply (Hc (a'', s'')). rewrite El. apply elem_of_app. right.
      apply list_elem_of_singleton. reflexivity. }
    destruct e; cbn; exact Hlast.
Qed.

End Coverage.

(** ** Strings *)

Lemma append_cons (x : ascii) (a b : string) : String x a +:+ b = String x (a +:+ b).
Proof. reflexivity. Qed.

Lemma append_length (a b : string) :
  String.length (a +:+ b) = (String.length a + String.length b)%nat.
Proof.
  induction a as [|x a IH]; [reflexivity|].
  rewrite append_cons. cbn [String.length]. rewrite IH. reflexivity.
Qed.

Lemma append_assoc (a b c : string) : (a +:+ b) +:+ c = a +:+ (b +:+ c).
Proof.
  induction a as [|x a IH]; [reflexivity|].
  rewrite !append_cons, IH. reflexivity.
Qed.

Lemma append_nil_r (a : string) : a +:+ "" = a.
Proof.
  induction a as [|x a IH]; [reflexivity|].
  rewrite append_cons, IH. reflexivity.
Qed.

Lemma substring_0_length (k : nat) (s : string) :
  String.length (String.substring 0 k s) = Nat.min k (String.length s).
Proof.
  revert k. induction s as [|c s IH]; intros [|k]; try reflexivity.
  cbn [String.substring String.length Nat.min]. rewrite IH. reflexivity.
Qed.

Lemma substring_0_all (k : nat) (s : string) :
  (String.length s <= k)%nat -> String.substring 0 k s = s.
Proof.
  revert k. induction s as [|c s IH]; intros [|k] H; try reflexivity.
  - cbn [String.length] in H. lia.
  - cbn [String.substring]. cbn [String.length] in H. rewrite IH; [reflexivity|lia].
Qed.

Lemma substring_0_app (b c : string) :
  String.substring 0 (String.length b) (b +:+ c) = b.
Proof.
  induction b as [|x b IH]; [destruct c; reflexivity|].
  rewrite append_cons. cbn [String.length String.substring]. rewrite IH. reflexivity.
Qed.

Lemma substring_app_mid (a b c : string) :
  String.substring (String.length a) (String.length b) (a +:+ b +:+ c) = b.
Proof.
  induction a as [|x a IH]; [exact (substring_0_app b c)|].
  rewrite append_cons. cbn [String.length String.substring]. exact IH.
Qed.

(** [s[:n]] has [min n (len s)] characters, and is [s] when [s] is short. *)
Lemma prefix_len (s : string) (n : Z) :
  0 <= n -> PyStr.len (PyStr.prefix s n) = Z.min n (PyStr.len s).
Proof.
  intros Hn. unfold PyStr.prefix, PyStr.slice, PyStr.clamp, PyStr.len.
  destruct (0 <? 0) eqn:H0; [apply Z.ltb_lt in H0; lia|].
  destruct (n <? 0) eqn:H1; [apply Z.ltb_lt in H1; lia|].
  replace (Z.max 0 (Z.min 0 (Z.of_nat (String.length s)))) with 0 by lia.
  cbn [Z.to_nat]. rewrite substring_0_length. lia.
Qed.

Lemma prefix_short (s : string) (n : Z) : PyStr.len s <= n -> PyStr.prefix s n = s.
Proof.
  intros Hn. unfold PyStr.prefix, PyStr.slice, PyStr.clamp, PyStr.len in *.
  destruct (0 <? 0) eqn:H0; [apply Z.ltb_lt in H0; lia|].
  destruct (n <? 0) eqn:H1; [apply Z.ltb_lt in H1; lia|].
  replace (Z.max 0 (Z.min 0 (Z.of_nat (String.length s)))) with 0 by lia.
  cbn [Z.to_nat]. apply substring_0_all. lia.
Qed.

Lemma substring_0_prefix (k : nat) (s : string) :
  exists rest, s = String.substring 0 k s +:+ rest.
Proof.
  revert k. induction s as [|c s IH]; intros [|k].
  - exists "". reflexivity.
  - exists "". reflexivity.
  - exists (String c s). reflexivity.
  - destruct (IH k) as [rest Hr]. exists rest.
    cbn [String.substring]. rewrite append_cons. f_equal. exact Hr.
Qed.

(** [s[:n]] is an initial part of [s]. *)
Lemma prefix_is_prefix (s : string) (n : Z) :
  0 <= n -> exists rest, s = PyStr.prefix s n +:+ rest.
Proof.
  intros Hn. unfold PyStr.prefix, PyStr.slice, PyStr.clamp, PyStr.len.
  destruct (0 <? 0) eqn:H0; [apply Z.ltb_lt in H0; lia|].
  destruct (n <? 0) eqn:H1; [apply Z.ltb_lt in H1; lia|].
  replace (Z.max 0 (Z.min 0 (Z.of_nat (String.length s)))) with 0 by lia.
  cbn [Z.to_nat]. apply substring_0_prefix.
Qed.

(** X9. The key findings quote the first 500 characters of the summary
    and of the gap analysis, and all of a text that is shorter: what
    stands under each heading is the initial part of the text that has
    500 characters, or the whole text when it has fewer, followed by
    ["..."]. So the length is that of the fixed text plus the two
    quotations, and both texts are quoted whole when they are that
    short. *)
Theorem key_findings_truncation (summary_text gap_analysis : string) :
  (exists quoted_summary rest_summary quoted_gaps rest_gaps,
      summary_text = quoted_summary +:+ rest_summary
      /\ PyStr.len quoted_summary = Z.min 500 (PyStr.len summary_text)
      /\ gap_analysis = quoted_gaps +:+ rest_gaps
      /\ PyStr.len quoted_gaps = Z.min 500 (PyStr.len gap_analysis)
      /\ _extract_key_findings summary_text gap_analysis
         = "Key findings synthesized from analysis:" +:+ PyStr.nl +:+ PyStr.nl
           +:+ "Summary Highlights:" +:+ PyStr.nl +:+ quoted_summary +:+ "..."
           +:+ PyStr.nl +:+ PyStr.nl
           +:+ "Gap Analysis Insights:" +:+ PyStr.nl +:+ quoted_gaps +:+ "...")
  /\ PyStr.len (_extract_key_findings summary_text gap_analysis)
     = key_findings_frame + Z.min 500 (PyStr.len summary_text)
       + Z.min 500 (PyStr.len gap_analysis)
  /\ PyStr.len (_extract_key_findings summary_text gap_analysis) <= key_findings_frame + 1000
  /\ (PyStr.len summary_text <= 500 -> PyStr.len gap_analysis <= 500 ->
      _extract_key_findings summary_text gap_analysis
      = "Key findings synthesized from analysis:" +:+ PyStr.nl +:+ PyStr.nl
        +:+ "Summary Highlights:" +:+ PyStr.nl +:+ summary_text +:+ "..."
        +:+ PyStr.nl +:+ PyStr.nl
        +:+ "Gap Analysis Insights:" +:+ PyStr.nl +:+ gap_analysis +:+ "...").
Proof.
  assert (Hlen : PyStr.len (_extract_key_findings summary_text gap_analysis)
                 = key_findings_frame + Z.min 500 (PyStr.len summary_text)
                   + Z.min 500 (PyStr.len gap_analysis)).
  { rewrite <- (prefix_len summary_text 500), <- (prefix_len gap_analysis 500) by lia.
    unfold _extract_key_findings, key_findings_frame, PyStr.len.
    rewrite !append_length. cbn [String.length PyStr.nl]. lia. }
  split; [|split; [exact Hlen|split; [lia|]]].
  - destruct (prefix_is_prefix summary_text 500) as [rest_summary Hs]; [lia|].
    destruct (prefix_is_prefix gap_analysis 500) as [rest_gaps Hg]; [lia|].
    exists (PyStr.prefix summary_text 500), rest_summary,
           (PyStr.prefix gap_analysis 500), rest_gaps.
    split; [exact Hs|]. split; [apply prefix_len; lia|].
    split; [exact Hg|]. split; [apply prefix_len; lia|]. reflexivity.
  - intros Hs Hg. unfold _extract_key_findings.
    rewrite (prefix_short summary_text 500 Hs), (prefix_short gap_analysis 500 Hg).
    reflexivity.
Qed.

Lemma find_from_none c s i j :
  0 <= i -> 0 <= j -> PyStr.find_from c s i = -1 -> PyStr.find_from c s j = -1.
Proof.
  revert i j. induction s as [|a s IH]; intros i j Hi Hj H; [reflexivity|].
  cbn [PyStr.find_from] in *. destruct (Ascii.eqb a c); [lia|].
  apply (IH (i + 1) (j + 1)); [lia|lia|exact H].
Qed.

Lemma find_from_app c pre rest i :
  0 <= i -> PyStr.find c pre = -1 ->
  PyStr.find_from c (pre +:+ String c rest) i = i + PyStr.len pre.
Proof.
  unfold PyStr.find, PyStr.len. revert i.
  induction pre as [|a pre IH]; intros i Hi H.
  - change ("" +:+ String c rest) with (String c rest).
    cbn [PyStr.find_from String.length]. rewrite Ascii.eqb_refl. lia.
  - rewrite append_cons. cbn [PyStr.find_from String.length] in *.
    destruct (Ascii.eqb a c); [lia|].
    rewrite IH; [lia|lia|].
    apply (find_from_none c pre 1 0); [lia|lia|exact H].
Qed.

Lemma rfind_from_none c s i last :
  PyStr.find c s = -1 -> PyStr.rfind_from c s i last = last.
Proof.
  unfold PyStr.find. revert i. induction s as [|a s IH]; intros i H; [reflexivity|].
  cbn [PyStr.find_from PyStr.rfind_from] in *. destruct (Ascii.eqb a c); [lia|].
  apply IH. apply (find_from_none c s 1 0); [lia|lia|exact H].
Qed.

Lemma rfind_from_app c a b i last :
  PyStr.rfind_from c (a +:+ b) i last
  = PyStr.rfind_from c b (i + PyStr.len a) (PyStr.rfind_from c a i last).
Proof.
  unfold PyStr.len. revert i last. induction a as [|x a IH]; intros i last.
  - change ("" +:+ b) with b. cbn [PyStr.rfind_from String.length]. f_equal. lia.
  - rewrite append_cons. cbn [PyStr.rfind_from String.length]. rewrite IH. f_equal. lia.
Qed.

(** X10. Whatever stands around a bracketed text in the model's answer
    is cut away before decoding: when no ['['] stands before it and no
    [']'] after it, the text handed to [json.loads] is the bracketed
    text itself. *)
Theorem json_str_cuts_prose (pre body post : string) :
  PyStr.find "["%char pre = -1 ->
  PyStr.find "]"%char post = -1 ->
  json_str (pre +:+ "[" +:+ body +:+ "]" +:+ post) = "[" +:+ body +:+ "]".
Proof.
  intros Hpre Hpost. unfold json_str.
  change ("[" +:+ body +:+ "]" +:+ post) with (String "["%char (body +:+ String "]"%char post)).
  change ("[" +:+ body +:+ "]") with (String "["%char (body +:+ "]")).
  assert (Hfind : PyStr.find "["%char (pre +:+ String "["%char (body +:+ String "]"%char post))
                  = PyStr.len pre).
  { unfold PyStr.find at 1. rewrite find_from_app; [lia|lia|exact Hpre]. }
  assert (Hrfind : PyStr.rfind "]"%char (pre +:+ String "["%char (body +:+ String "]"%char post))
                   = PyStr.len pre + 1 + PyStr.len body).
  { unfold PyStr.rfind.
    replace (pre +:+ String "["%char (body +:+ String "]"%char post))
      with ((pre +:+ String "["%char body) +:+ String "]"%char post)
      by (rewrite append_assoc; reflexivity).
    rewrite rfind_from_app. cbn [PyStr.rfind_from]. rewrite Ascii.eqb_refl.
    rewrite rfind_from_none by exact Hpost.
    unfold PyStr.len. rewrite append_length. cbn [String.length]. lia. }
  rewrite Hfind, Hrfind.
  unfold PyStr.slice, PyStr.clamp.
  assert (Hlen : PyStr.len (pre +:+ String "["%char (body +:+ String "]"%char post))
                 = PyStr.len pre + 1 + PyStr.len body + 1 + PyStr.len post).
  { unfold PyStr.len. rewrite append_length. cbn [String.length].
    rewrite append_length. cbn [String.length]. lia. }
  rewrite Hlen.
  pose proof (Nat2Z.is_nonneg (String.length pre)) as H1.
  pose proof (Nat2Z.is_nonneg (String.length body)) as H2.
  pose proof (Nat2Z.is_nonneg (String.length post)) as H3.
  fold (PyStr.len pre) in H1. fold (PyStr.len body) in H2. fold (PyStr.len post) in H3.
  destruct (PyStr.len pre <? 0) eqn:E1; [apply Z.ltb_lt in E1; lia|].
  destruct (PyStr.len pre + 1 + PyStr.len body + 1 <? 0) eqn:E2; [apply Z.ltb_lt in E2; lia|].
  replace (Z.to_nat (Z.max 0 (Z.min (PyStr.len pre)
                                    (PyStr.len pre + 1 + PyStr.len body + 1 + PyStr.len post))))
    with (String.length pre) by (unfold PyStr.len; lia).
  replace (Z.to_nat _) with (String.length (String "["%char (body +:+ "]")))
    by (cbn [String.length]; rewrite append_length; cbn [String.length];
        unfold PyStr.len; lia).
  replace (pre +:+ String "["%char (body +:+ String "]"%char post))
    with (pre +:+ String "["%char (body +:+ "]") +:+ post).
  - apply substring_app_mid.
  - f_equal. rewrite append_cons. f_equal. rewrite append_assoc. reflexivity.
Qed.

(** ** The comparison *)

(** X11. When decoding the bracketed part of the answer raises anything
    but a decode error, the compare operation does not fall back to the
    placeholder rows: it logs the error and raises ["Comparison failed:
    ..."] with status 500. *)
Theorem compare_other_error_raises (json_loads : string -> loads_result)
        O p ps mdl answer msg w :
  ollama_chat O Compare mdl (p :: ps) = ChatContent answer ->
  PyStr.find "["%char answer <> -1 ->
  json_loads (json_str answer) = LoadsOtherError msg ->
  exists w',
    compare_papers_with_ollama json_loads O (p :: ps) (Some mdl) w
    = (Raise (HTTPException 500 ("Comparison failed: " +:+ msg)), w')
    /\ logged w' = logged w ++ [(ERROR, "Ollama comparison error: " +:+ msg)]
    /\ active_workflows w' = active_workflows w.
Proof.
  intros H Hfind Hl. unfold compare_papers_with_ollama, parse_comparison, chat,
    resolve_model, mbind, M_bind, mret, M_ret, mthrow, M_throw, record_call, log.
  cbn. rewrite H. unfold json_str in Hl. rewrite Hl.
  rewrite end_idx_not_minus_one.
  apply Z.eqb_neq in Hfind. rewrite Hfind. cbn. eauto.
Qed.

(** X12. The comparison table has one row for each element of the
    decoded array that is an object, and so never more rows than the
    array has elements. *)
Theorem validated_rows_count (data : list json) :
  length (validated_data data) = length (List.filter is_dict data)
  /\ (length (validated_data data) <= length data)%nat.
Proof.
  assert (H : length (validated_data data) = length (List.filter is_dict data)).
  { induction data as [|j data IH]; [reflexivity|].
    destruct j; cbn; rewrite ?IH; reflexivity. }
  split; [exact H|]. rewrite H. apply List.filter_length_le.
Qed.

Lemma fold_left_append (A : Type) (f : A -> string) (l : list A) (init : string) :
  fold_left (fun acc x => acc +:+ f x) l init = init +:+ String.concat "" (map f l).
Proof.
  revert init. induction l as [|x l IH]; intros init.
  - cbn. symmetry. apply append_nil_r.
  - cbn [fold_left map]. rewrite IH, append_assoc. f_equal.
    destruct l as [|y l]; [apply append_nil_r|reflexivity].
Qed.

(** X13. Over the placeholder table, the methodology insights are the
    heading followed by one line per paper, in the order of the papers,
    each with the paper's title and the placeholder methodology. *)
Theorem methodology_insights_of_manual (py_format : json -> string)
        (papers : list Paper) (response_text : string) :
  _extract_methodology_insights py_format (_create_manual_comparison papers response_text)
  = "Methodology Insights:" +:+ PyStr.nl +:+ PyStr.nl
    +:+ String.concat ""
          (map (fun paper =>
                  "- " +:+ py_format (JStr (title paper)) +:+ ": "
                  +:+ py_format (JStr "Based on paper content") +:+ PyStr.nl)
               papers).
Proof.
  unfold _extract_methodology_insights, _create_manual_comparison.
  cbn [comparison_table].
  rewrite (fold_left_append ComparisonItem
             (fun item => "- " +:+ py_format (paper_title item) +:+ ": "
                          +:+ py_format (methodology item) +:+ PyStr.nl)).
  rewrite !append_assoc. do 3 f_equal.
  rewrite map_map. reflexivity.
Qed.

(** ** Model management *)

(** X14. Setting the model succeeds exactly when the name is among the
    models Ollama lists, or among the four configured ones when Ollama
    cannot be asked; then, and only then, the current model changes. The
    workflows are not touched. *)
Theorem set_model_effect ol mdl w :
  exists resp w',
    set_model ol mdl w = (Ret resp, w')
    /\ sm_success resp = py_in mdl (models_seen ol)
    /\ current_model w' = (if py_in mdl (models_seen ol) then mdl else current_model w)
    /\ active_workflows w' = active_workflows w
    /\ writes w' = writes w.
Proof.
  unfold set_model, get_available_models, set_current_model, mbind, M_bind, mret, M_ret, log.
  destruct ol as [e|e|names]; cbn [models_seen];
    match goal with
    | |- context [py_in mdl ?l] => destruct (py_in mdl l) eqn:E
    end; cbn; rewrite ?E; cbn; eexists _, _; repeat split; reflexivity.
Qed.

(** X15. After the model was set with success, a summary asked without
    a model name is made by the model that was set. *)
Theorem set_model_then_default_summary ol mdl w resp w1 O p ps :
  set_model ol mdl w = (Ret resp, w1) ->
  sm_success resp = true ->
  calls (summarize_with_ollama O (p :: ps) None w1).2
  = calls w1 ++ [CallChat Summarize mdl].
Proof.
  intros Hset Hok.
  unfold set_model, get_available_models, set_current_model, mbind, M_bind, mret, M_ret, log
    in Hset.
  assert (Hm : current_model w1 = mdl).
  { destruct ol as [e|e|names]; cbn -[py_in] in Hset;
      match type of Hset with
      | context [py_in mdl ?l] => destruct (py_in mdl l)
      end; cbn in Hset; injection Hset as <- <-; try discriminate Hok; reflexivity. }
  unfold summarize_with_ollama, chat, resolve_model, mbind, M_bind, mret, M_ret,
    get_world, record_call, log, mthrow, M_throw.
  cbn. rewrite Hm.
  destruct (ollama_chat O Summarize mdl (p :: ps)); reflexivity.
Qed.

(** ** The summarize endpoint *)

(** X16. The summarize endpoint always answers and never touches the
    workflows. A search that fails, a search without papers and a model
    call that raises each give [success = false] with the reason as the
    error (the detail of the HTTP exception, without its status code);
    otherwise the answer carries the summary and the number of papers,
    and a failed write of the summary file only leaves [saved_path]
    empty. *)
Theorem summarize_papers_outcomes (str_exn : Exn -> string) (strftime : nat -> string)
        O write_text request w :
  exists resp w',
    summarize_papers str_exn strftime O write_text request w = (Ret resp, w')
    /\ active_workflows w' = active_workflows w
    /\ match arxiv_request O (sr_query request) (sr_max_results request) with
       | SearchTimeout => resp = summary_failure request "arXiv API request timed out"
       | SearchRaise msg =>
           resp = summary_failure request ("arXiv search failed: " +:+ msg)
       | SearchPapers [] =>
           resp = summary_failure request "No papers found for the given query"
           /\ calls w' = calls w ++ [CallSearch (sr_query request) (sr_max_results request)]
       | SearchPapers papers =>
           match ollama_chat O Summarize (sr_model request) papers with
           | ChatRaise msg =>
               resp = summary_failure request ("Summarization failed: " +:+ msg)
           | ChatContent text =>
               sum_success resp = true
               /\ sum_summary resp = text
               /\ sum_papers_used resp = Z.of_nat (length papers)
               /\ sum_error resp = None
               /\ sum_saved_path resp
                  = let filename :=
                      "summaries/" +:+ PyStr.replace " "%char "_"%char (sr_query request)
                      +:+ "_" +:+ strftime (clock w) +:+ "_summary.txt" in
                    match write_text filename text with
                    | None => Some filename
                    | Some _ => None
                    end
           end
       end.
Proof.
  unfold summarize_papers, save_summary, search_arxiv, summarize_with_ollama, chat,
    resolve_model, try_except, mbind, M_bind, mret, M_ret, mthrow, M_throw, record_call, log,
    datetime_now.
  cbn.
  destruct (arxiv_request O _ _) as [|msg|[|p ps]]; cbn;
    try (eexists _, _; repeat split; reflexivity).
  destruct (ollama_chat O Summarize (sr_model request) (p :: ps)) as [msg|text]; cbn;
    try (eexists _, _; repeat split; reflexivity).
  destruct (write_text _ text); cbn; eexists _, _; repeat split; reflexivity.
Qed.

(** * The further properties at sample inputs *)

Lemma run_touches_only_its_entry_witness :
  Sample.workflow_id <> SampleMore.other_id
  /\ active_workflows
       (execute_automation_workflow JsonLite.json_loads_lite Sample.py_format Sample.str_exn
          Sample.isoformat Sample.strftime Sample.O_compare_raises
          (Sample.request LITERATURE_REVIEW) SampleMore.other_id SampleMore.w_done).2
       !! Sample.workflow_id
     = active_workflows SampleMore.w_done !! Sample.workflow_id.
Proof.
  split; [discriminate|].
  apply (run_touches_only_its_entry JsonLite.json_loads_lite Sample.py_format Sample.str_exn
           Sample.isoformat Sample.strftime Sample.O_compare_raises
           (Sample.request LITERATURE_REVIEW) SampleMore.other_id SampleMore.w_done).
  discriminate.
Defined.

Lemma background_tasks_all_terminate_witness :
  (Sample.request LITERATURE_REVIEW, "0badcafe") ∈ SampleMore.tasks
  /\ (run_background JsonLite.json_loads_lite Sample.py_format Sample.str_exn
        Sample.isoformat Sample.strftime Sample.O_compare_raises SampleMore.tasks
        Sample.w0).1 = Ret tt
  /\ exists ws,
      (get_workflow_status "0badcafe"
         (run_background JsonLite.json_loads_lite Sample.py_format Sample.str_exn
            Sample.isoformat Sample.strftime Sample.O_compare_raises SampleMore.tasks
            Sample.w0).2).1 = Ret ws
      /\ (ws_status ws = "completed" \/ ws_status ws = "failed").
Proof.
  assert (Hin : (Sample.request LITERATURE_REVIEW, "0badcafe") ∈ SampleMore.tasks).
  { unfold SampleMore.tasks. apply elem_of_cons. right. apply elem_of_cons. left.
    reflexivity. }
  split; [exact Hin|].
  destruct (background_tasks_all_terminate JsonLite.json_loads_lite Sample.py_format
              Sample.str_exn Sample.isoformat Sample.strftime Sample.O_compare_raises
              SampleMore.tasks Sample.w0 _ _ Hin) as (Hr & ws & Hq & _ & Hst).
  split; [exact Hr|]. exists ws. rewrite Hq. split; [reflexivity|exact Hst].
Defined.

Lemma retrieval_failure_fails_witness :
  (arxiv_request SampleMore.O_search_down "deep learning" 10
   = SearchRaise "Connection refused"
   /\ exists w' s,
       Sample.run SampleMore.O_search_down RESEARCH_GAP_ANALYSIS = (Ret tt, w')
       /\ active_workflows w' !! Sample.workflow_id = Some s
       /\ status s = Failed
       /\ error s = Some "500: arXiv search failed: Connection refused"
       /\ results s = ∅
       /\ calls w' = [CallSearch "deep learning" 10]
       /\ logged w'
          = [(ERROR, "arXiv search error: Connection refused");
             (ERROR,
              "Workflow execution error: 500: arXiv search failed: Connection refused")])
  /\ (arxiv_request SampleMore.O_search_timeout "deep learning" 10 = SearchTimeout
      /\ exists w' s,
          Sample.run SampleMore.O_search_timeout RESEARCH_GAP_ANALYSIS = (Ret tt, w')
          /\ active_workflows w' !! Sample.workflow_id = Some s
          /\ status s = Failed
          /\ error s = Some "408: arXiv API request timed out"
          /\ results s = ∅
          /\ calls w' = [CallSearch "deep learning" 10]
          /\ logged w'
             = [(ERROR, "Workflow execution error: 408: arXiv API request timed out")]).
Proof.
  split; (split; [reflexivity|]).
  - apply (retrieval_failure_fails JsonLite.json_loads_lite Sample.py_format Sample.str_exn
             Sample.isoformat Sample.strftime SampleMore.O_search_down
             (Sample.request RESEARCH_GAP_ANALYSIS) Sample.workflow_id Sample.w0
             (HTTPException 500 "arXiv search failed: Connection refused")
             [(ERROR, "arXiv search error: Connection refused")]).
    split; reflexivity.
  - apply (retrieval_failure_fails JsonLite.json_loads_lite Sample.py_format Sample.str_exn
             Sample.isoformat Sample.strftime SampleMore.O_search_timeout
             (Sample.request RESEARCH_GAP_ANALYSIS) Sample.workflow_id Sample.w0
             (HTTPException 408 "arXiv API request timed out") []).
    split; reflexivity.
Defined.

Lemma update_progress_known_id_witness :
  active_workflows SampleMore.w_one !! "3f2a9c1e" = Some SampleMore.entry_running
  /\ exists w',
      _update_workflow_progress Sample.isoformat "3f2a9c1e" "Comparing Papers" 3 5
                                SampleMore.w_one = (Ret tt, w')
      /\ active_workflows w' !! "3f2a9c1e"
         = Some {| status := Running; progress := step 3 5 "Comparing Papers"; results := ∅;
                   error := None; created_at := "2025-01-01T00:00:00.0";
                   updated_at := "2025-01-01T00:00:00.3" |}.
Proof.
  split; [reflexivity|].
  destruct (update_progress_known_id Sample.isoformat "3f2a9c1e" "Comparing Papers" 3 5
              SampleMore.w_one SampleMore.entry_running eq_refl)
    as (w' & E & Hmap & _).
  exists w'. split; [exact E|]. rewrite Hmap. apply lookup_insert_eq.
Defined.

Lemma failed_has_no_results_witness :
  (status <$> active_workflows (Sample.run Sample.O_compare_raises LITERATURE_REVIEW).2
              !! Sample.workflow_id) = Some Failed
  /\ (results <$> active_workflows (Sample.run Sample.O_compare_raises LITERATURE_REVIEW).2
                !! Sample.workflow_id) = Some ∅.
Proof.
  destruct (active_workflows (Sample.run Sample.O_compare_raises LITERATURE_REVIEW).2
              !! Sample.workflow_id) as [s|] eqn:E; [|vm_compute in E; discriminate].
  assert (Hst : status s = Failed).
  { vm_compute in E. injection E as <-. reflexivity. }
  pose proof (failed_has_no_results JsonLite.json_loads_lite Sample.py_format Sample.str_exn
                Sample.isoformat Sample.strftime Sample.O_compare_raises
                (Sample.request LITERATURE_REVIEW) Sample.workflow_id Sample.w0 s E Hst)
    as Hres.
  cbn. rewrite Hst, Hres. split; reflexivity.
Defined.

Lemma results_keys_by_type_witness :
  (dom <$> (results <$> active_workflows SampleMore.w_done !! Sample.workflow_id))
  = Some (result_keys (Sample.request TREND_ANALYSIS)).
Proof.
  destruct (active_workflows SampleMore.w_done !! Sample.workflow_id) as [s|] eqn:E;
    [|vm_compute in E; discriminate].
  assert (Hne : results s <> ∅).
  { assert (Hp : is_Some (results s !! "papers")).
    { vm_compute in E. injection E as <-. eexists. vm_compute. reflexivity. }
    intros H. rewrite H, lookup_empty in Hp. destruct Hp as [? Hp]. discriminate. }
  destruct (results_keys_by_type JsonLite.json_loads_lite Sample.py_format Sample.str_exn
              Sample.isoformat Sample.strftime Sample.O_ok (Sample.request TREND_ANALYSIS)
              Sample.workflow_id Sample.w0 s E Hne) as (_ & _ & Hdom & _).
  cbn. rewrite Hdom. reflexivity.
Defined.

Lemma completes_when_model_answers_witness :
  arxiv_request Sample.O_ok "deep learning" 10 = SearchPapers [Sample.paper_a; Sample.paper_b]
  /\ answered (ollama_chat Sample.O_ok Summarize "llama3.2:3b"
                           [Sample.paper_a; Sample.paper_b])
  /\ ollama_chat Sample.O_ok Compare "llama3.2:3b" [Sample.paper_a; Sample.paper_b]
     = ChatContent Sample.table_text
  /\ (forall msg,
         JsonLite.json_loads_lite (json_str Sample.table_text) <> LoadsOtherError msg)
  /\ exists s,
      active_workflows (Sample.run Sample.O_ok LITERATURE_REVIEW).2 !! Sample.workflow_id
      = Some s
      /\ status s = Completed.
Proof.
  assert (Hs : answered (ollama_chat Sample.O_ok Summarize "llama3.2:3b"
                                     [Sample.paper_a; Sample.paper_b]))
    by (eexists; reflexivity).
  assert (Hj : forall msg,
             JsonLite.json_loads_lite (json_str Sample.table_text) <> LoadsOtherError msg)
    by (intros msg; vm_compute; discriminate).
  split; [reflexivity|]. split; [exact Hs|]. split; [reflexivity|]. split; [exact Hj|].
  apply (completes_when_model_answers JsonLite.json_loads_lite Sample.py_format
           Sample.str_exn Sample.isoformat Sample.strftime Sample.O_ok
           (Sample.request LITERATURE_REVIEW) Sample.workflow_id Sample.w0
           [Sample.paper_a; Sample.paper_b] eq_refl).
  - intros _. exact Hs.
  - intros _. exists Sample.table_text. split; [reflexivity|exact Hj].
Defined.

Lemma key_findings_truncation_witness :
  PyStr.len "Transformers scale." <= 500
  /\ PyStr.len "Long inputs are costly." <= 500
  /\ _extract_key_findings "Transformers scale." "Long inputs are costly."
     = "Key findings synthesized from analysis:" +:+ PyStr.nl +:+ PyStr.nl
       +:+ "Summary Highlights:" +:+ PyStr.nl +:+ "Transformers scale." +:+ "..."
       +:+ PyStr.nl +:+ PyStr.nl
       +:+ "Gap Analysis Insights:" +:+ PyStr.nl +:+ "Long inputs are costly." +:+ "...".
Proof.
  assert (H1 : PyStr.len "Transformers scale." <= 500) by (vm_compute; discriminate).
  assert (H2 : PyStr.len "Long inputs are costly." <= 500) by (vm_compute; discriminate).
  split; [exact H1|]. split; [exact H2|].
  apply (key_findings_truncation "Transformers scale." "Long inputs are costly."); assumption.
Defined.

Lemma json_str_cuts_prose_witness :
  PyStr.find "["%char "Here is the table: " = -1
  /\ PyStr.find "]"%char " I hope it helps." = -1
  /\ json_str ("Here is the table: " +:+ "[" +:+ "1, [2], 3" +:+ "]" +:+ " I hope it helps.")
     = "[" +:+ "1, [2], 3" +:+ "]".
Proof.
  split; [reflexivity|]. split; [reflexivity|].
  apply json_str_cuts_prose; reflexivity.
Defined.

Lemma compare_other_error_raises_witness :
  ollama_chat SampleMore.O_compare_long_number Compare "llama3.2:3b"
              [Sample.paper_a; Sample.paper_b] = ChatContent SampleMore.long_number
  /\ PyStr.find "["%char SampleMore.long_number <> -1
  /\ SampleMore.loads_limited (json_str SampleMore.long_number)
     = LoadsOtherError (SampleMore.limit_message 4301)
  /\ exists w',
      compare_papers_with_ollama SampleMore.loads_limited SampleMore.O_compare_long_number
                                 [Sample.paper_a; Sample.paper_b] (Some "llama3.2:3b")
                                 Sample.w0
      = (Raise (HTTPException 500 ("Comparison failed: " +:+ SampleMore.limit_message 4301)), w')
      /\ logged w' = [(ERROR, "Ollama comparison error: " +:+ SampleMore.limit_message 4301)]
      /\ active_workflows w' = ∅.
Proof.
  split; [reflexivity|]. split; [vm_compute; discriminate|]. split; [reflexivity|].
  apply (compare_other_error_raises SampleMore.loads_limited SampleMore.O_compare_long_number
           Sample.paper_a [Sample.paper_b] "llama3.2:3b" SampleMore.long_number
           (SampleMore.limit_message 4301) Sample.w0).
  - reflexivity.
  - vm_compute. discriminate.
  - reflexivity.
Defined.

Lemma set_model_then_default_summary_witness :
  (set_model (ListRaise "connection refused") "gemma3:4b" Sample.w0).1
  = Ret {| sm_success := true; sm_message := Some "Model changed to gemma3:4b";
           sm_error := None |}
  /\ calls (summarize_with_ollama Sample.O_ok [Sample.paper_a; Sample.paper_b] None
              (set_model (ListRaise "connection refused") "gemma3:4b" Sample.w0).2).2
     = calls (set_model (ListRaise "connection refused") "gemma3:4b" Sample.w0).2
       ++ [CallChat Summarize "gemma3:4b"].
Proof.
  split; [reflexivity|].
  eapply (set_model_then_default_summary (ListRaise "connection refused") "gemma3:4b"
            Sample.w0 _ _ Sample.O_ok Sample.paper_a [Sample.paper_b]).
  - reflexivity.
  - reflexivity.
Defined.
